(* ===================================================================== *)
(* infrahub-demo-edge, demo.py:                                           *)
(*   the BGP session reconciler (_manage_bgp_session and                  *)
(*   extract_config_from_device_session) and the branch-scoped changes    *)
(*   (_change_admin_status, _change_circuit_status), as a shallow         *)
(*   embedding, and the properties of the design document checked on it.  *)
(* ===================================================================== *)

From Stdlib Require Import ZArith Ascii String List Bool Lia.
From stdpp Require Import base option list strings gmap sets.

Set Warnings "-register-all".

Open Scope string_scope.
Open Scope list_scope.

(* --------------------------------------------------------------------- *)
(* 1. JSON values as Python sees them                                     *)
(* --------------------------------------------------------------------- *)

(** What [response.json()] and the gNMI client hand back: None, booleans,
    integers, strings, lists, and dicts in insertion order.  Numbers with a
    fractional part are outside this model. *)
Inductive value : Type :=
| VNone
| VBool (b : bool)
| VInt (n : Z)
| VStr (s : string)
| VList (l : list value)
| VDict (d : list (string * value)).

(** Exceptions the modelled code can raise. *)
Inductive exn : Type :=
| AttributeError
| TypeError
| KeyError
| IndexError
| HTTPError
| GnmiError.

Inductive result (A : Type) : Type :=
| Ok (a : A)
| Raise (e : exn).
Arguments Ok {A} a.
Arguments Raise {A} e.

Definition rbind {A B} (r : result A) (k : A -> result B) : result B :=
  match r with
  | Ok a => k a
  | Raise e => Raise e
  end.

(** [d[k]] on a dict held as an association list. *)
Fixpoint dict_get (k : string) (d : list (string * value)) : option value :=
  match d with
  | [] => None
  | (k', v) :: d' => if String.eqb k k' then Some v else dict_get k d'
  end.

(** Python's [==] on JSON values: [True == 1], lists position by position,
    dicts key by key whatever the insertion order. *)
Fixpoint py_eqb (a b : value) {struct a} : bool :=
  match a, b with
  | VNone, VNone => true
  | VBool x, VBool y => Bool.eqb x y
  | VBool x, VInt n => Z.eqb (if x then 1 else 0) n
  | VInt n, VBool y => Z.eqb n (if y then 1 else 0)
  | VInt n, VInt m => Z.eqb n m
  | VStr s, VStr t => String.eqb s t
  | VList l, VList m =>
      (fix go (l m : list value) {struct l} : bool :=
         match l, m with
         | [], [] => true
         | x :: l', y :: m' => py_eqb x y && go l' m'
         | _, _ => false
         end) l m
  | VDict d, VDict e =>
      Nat.eqb (length d) (length e) &&
      (fix all (d : list (string * value)) {struct d} : bool :=
         match d with
         | [] => true
         | (k, v) :: d' =>
             match dict_get k e with
             | Some w => py_eqb v w
             | None => false
             end && all d'
         end) d
  | _, _ => false
  end.

(** [a != b]. *)
Definition py_neb (a b : value) : bool := negb (py_eqb a b).

(** Truth value of an object, as [if x] and [not x] take it. *)
Definition truthy (v : value) : bool :=
  match v with
  | VNone => false
  | VBool b => b
  | VInt n => negb (Z.eqb n 0)
  | VStr s => negb (String.eqb s "")
  | VList l => match l with [] => false | _ => true end
  | VDict d => match d with [] => false | _ => true end
  end.

(** [v[k]] with a string key. *)
Definition getitem (k : string) (v : value) : result value :=
  match v with
  | VDict d => match dict_get k d with Some x => Ok x | None => Raise KeyError end
  | _ => Raise TypeError
  end.

(** [v[0]]. *)
Definition getitem0 (v : value) : result value :=
  match v with
  | VList l => match l with x :: _ => Ok x | [] => Raise IndexError end
  | VStr s => match s with String c _ => Ok (VStr (String c "")) | "" => Raise IndexError end
  | VDict _ => Raise KeyError
  | _ => Raise TypeError
  end.

Fixpoint str_take (n : nat) (s : string) : string :=
  match n, s with
  | S n', String c r => String c (str_take n' r)
  | _, _ => ""
  end.

(** [v[:8]].  (On a dict the slice is refused as a key: TypeError up to
    Python 3.11.) *)
Definition slice8 (v : value) : result value :=
  match v with
  | VStr s => Ok (VStr (str_take 8 s))
  | VList l => Ok (VList (take 8 l))
  | _ => Raise TypeError
  end.

(** [needle in hay] for two strings. *)
Fixpoint str_contains (needle hay : string) : bool :=
  if String.prefix needle hay then true
  else match hay with
       | "" => false
       | String _ r => str_contains needle r
       end.

(** [k in v] with a string [k]. *)
Definition py_in (k : string) (v : value) : result bool :=
  match v with
  | VDict d => Ok (match dict_get k d with Some _ => true | None => false end)
  | VList l => Ok (existsb (fun x => py_eqb (VStr k) x) l)
  | VStr s => Ok (str_contains k s)
  | _ => Raise TypeError
  end.

Fixpoint str_chars (s : string) : list value :=
  match s with
  | "" => []
  | String c r => VStr (String c "") :: str_chars r
  end.

(** The items a [for x in v] visits. *)
Definition py_iter (v : value) : result (list value) :=
  match v with
  | VList l => Ok l
  | VDict d => Ok (map (fun kv => VStr (fst kv)) d)
  | VStr s => Ok (str_chars s)
  | _ => Raise TypeError
  end.

(* --------------------------------------------------------------------- *)
(* 2. extract_config_from_device_session                                  *)
(* --------------------------------------------------------------------- *)

Definition newline : ascii := "010"%char.
Definition rbracket : ascii := "]"%char.

(** The literal head of the pattern: an opening bracket, [neighbor-address=],
    then the greedy group of any characters, then a closing bracket. *)
Definition segment_open : string := "[neighbor-address=".

Fixpoint strip_prefix (p s : string) : option string :=
  match p, s with
  | "", _ => Some s
  | String a p', String b s' => if Ascii.eqb a b then strip_prefix p' s' else None
  | String _ _, "" => None
  end.

(** What the greedy group can consume: everything up to the first newline. *)
Fixpoint dot_star (s : string) : string :=
  match s with
  | "" => ""
  | String c r => if Ascii.eqb c newline then "" else String c (dot_star r)
  end.

(** The greedy group gives characters back until a closing bracket follows:
    what remains is the text before the last [\]] of its span. *)
Fixpoint before_last_rbracket (s : string) : option string :=
  match s with
  | "" => None
  | String c r =>
      match before_last_rbracket r with
      | Some g => Some (String c g)
      | None => if Ascii.eqb c rbracket then Some "" else None
      end
  end.

(** The character occurs in the string. *)
Fixpoint str_mem (c : ascii) (s : string) : bool :=
  match s with
  | "" => false
  | String d r => Ascii.eqb c d || str_mem c r
  end.

(** A match of the pattern that starts at the head of [s]; the result is
    group 1. *)
Definition match_here (s : string) : option string :=
  match strip_prefix segment_open s with
  | Some rest => before_last_rbracket (dot_star rest)
  | None => None
  end.

(** [regex.search]: the match at the leftmost position that has one. *)
Fixpoint regex_search (s : string) : option string :=
  match match_here s with
  | Some g => Some g
  | None =>
      match s with
      | "" => None
      | String _ r => regex_search r
      end
  end.


(** The dict the extractor builds, and the shape of the entries of the
    intended configuration: the keys "neighbor-address" and "config". *)
Record session_config : Type := mk_session_config {
  neighbor_address : string;
  config : value
}.

(** [.get(k, dflt)] of a dict. *)
Definition py_get (k : string) (dflt : value) (v : value) : result value :=
  match v with
  | VDict d => Ok (match dict_get k d with Some x => x | None => dflt end)
  | _ => Raise AttributeError
  end.

(** [v.items()]. *)
Definition items (v : value) : result (list (string * value)) :=
  match v with
  | VDict d => Ok d
  | _ => Raise AttributeError
  end.

(** The loop over the items: every key holding [":config"] overwrites the
    field. *)
Fixpoint scan_items (its : list (string * value)) (cfg : value) : value :=
  match its with
  | [] => cfg
  | (key, v) :: its' =>
      if str_contains ":config" key then scan_items its' v else scan_items its' cfg
  end.

(** The function on one update of the gNMI response, a dict with the keys
    "path" and "val". *)
Definition extract_config_from_device_session (session : value) : result session_config :=
  rbind (py_get "path" VNone session) (fun p =>
    match p with
    | VStr s =>
        match regex_search s with
        | None => Raise AttributeError
        | Some session_id =>
            rbind (py_get "val" VNone session) (fun v =>
            rbind (items v) (fun its =>
              Ok {| neighbor_address := session_id;
                    config := scan_items its VNone |}))
        end
    | _ => Raise TypeError
    end).

(* --------------------------------------------------------------------- *)
(* 3. Collaborators, events and the effect monad                          *)
(* --------------------------------------------------------------------- *)

(** The GraphQL documents of demo.py that the modelled commands send. *)
Inductive document : Type :=
| QUERY_GET_DEVICE_MANAGEMENT_IP
| QUERY_GET_INTERFACE
| QUERY_GET_CIRCUIT
| BRANCH_CREATE_DATA_ONLY
| BRANCH_MERGE
| INTERFACE_UPDATE_ADMIN_STATUS
| CIRCUIT_UPDATE_STATUS.

Definition document_eqb (a b : document) : bool :=
  match a, b with
  | QUERY_GET_DEVICE_MANAGEMENT_IP, QUERY_GET_DEVICE_MANAGEMENT_IP
  | QUERY_GET_INTERFACE, QUERY_GET_INTERFACE
  | QUERY_GET_CIRCUIT, QUERY_GET_CIRCUIT
  | BRANCH_CREATE_DATA_ONLY, BRANCH_CREATE_DATA_ONLY
  | BRANCH_MERGE, BRANCH_MERGE
  | INTERFACE_UPDATE_ADMIN_STATUS, INTERFACE_UPDATE_ADMIN_STATUS
  | CIRCUIT_UPDATE_STATUS, CIRCUIT_UPDATE_STATUS => true
  | _, _ => false
  end.

Definition INFRAHUB_URL : string := "http://localhost:8000".

Definition OC_BGP_BASE_PATH : string :=
  "openconfig:/network-instances/network-instance[name=default]/protocols/protocol[name=BGP]/bgp".
Definition OC_BGP_NEIGHBOR_PATH : string := OC_BGP_BASE_PATH ++ "/neighbors/neighbor".

(** [client.post(url, json={"query": .., "variables": ..}, timeout=.., params=..)]. *)
Record post_request : Type := mk_post {
  post_url : string;
  post_query : document;
  post_variables : list (string * value);
  post_timeout : Z;
  post_params : list (string * string)
}.

(** [client.get(url, timeout=.., params=..)]. *)
Record get_request : Type := mk_get {
  get_url : string;
  get_timeout : Z;
  get_params : list (string * string)
}.

(** The keyword arguments of [gNMIclient]. *)
Record device_conn : Type := mk_conn {
  target : string * string;
  username : string;
  password : string;
  insecure : bool
}.

(** [gc.set(delete=.., replace=.., update=..)]: each entry of [replace] and
    [update] is a pair of a path and a payload. *)
Record set_request : Type := mk_set {
  set_delete : list string;
  set_replace : list (string * value);
  set_update : list (string * value)
}.

(** An f-string before it is rendered: literal text and the values put in. *)
Inductive fragment : Type :=
| Lit (s : string)
| Fmt (v : value).

Definition message : Type := list fragment.

Inductive event : Type :=
| EPost (r : post_request)
| EGet (r : get_request)
| EGnmiOpen (c : device_conn)
| EGnmiGet (paths : list string) (encoding : string)
| EGnmiSet (r : set_request)
| EGnmiClose
| EPrint (m : message)
| ELog (m : message)
| ESleep (seconds : Z).

(** A computation: from the state [W] of everything outside the program (the
    source of truth, the device, the random generator) to an outcome, the
    new outer state, and the events in the order they happened. *)
Definition M (W A : Type) : Type := W -> result A * W * list event.

Section Effects.

Context {W : Type}.

Definition ret {A} (a : A) : M W A := fun w => (Ok a, w, []).

Definition bind {A B} (m : M W A) (k : A -> M W B) : M W B :=
  fun w =>
    match m w with
    | (Ok a, w1, t1) =>
        match k a w1 with
        | (r, w2, t2) => (r, w2, t1 ++ t2)
        end
    | (Raise e, w1, t1) => (Raise e, w1, t1)
    end.

Definition lift {A} (r : result A) : M W A := fun w => (r, w, []).

Definition emit (e : event) : M W unit := fun w => (Ok tt, w, [e]).

(** A call to a collaborator: the event, then its answer. *)
Definition call {A} (e : event) (f : W -> result A * W) : M W A :=
  fun w => match f w with (r, w1) => (r, w1, [e]) end.

(** [for x in xs: body], threading the local variables. *)
Fixpoint for_each {X L} (xs : list X) (body : X -> L -> M W L) (l : L) : M W L :=
  match xs with
  | [] => ret l
  | x :: xs' => bind (body x l) (for_each xs' body)
  end.

End Effects.

(** A list comprehension whose element expression can raise. *)
Fixpoint map_result {X Y} (f : X -> result Y) (xs : list X) : result (list Y) :=
  match xs with
  | [] => Ok []
  | x :: xs' => rbind (f x) (fun y => rbind (map_result f xs') (fun ys => Ok (y :: ys)))
  end.

Declare Scope prog_scope.
Delimit Scope prog_scope with prog.
Notation "x <- m ;; k" := (bind m (fun x => k))
  (at level 100, m at next level, right associativity) : prog_scope.
Open Scope prog_scope.

(* --------------------------------------------------------------------- *)
(* 4. The branch-scoped changes                                           *)
(* --------------------------------------------------------------------- *)

(** [str(rebase)]. *)
Definition str_of_bool (b : bool) : string := if b then "True" else "False".

Definition has_key (k : string) (params : list (string * string)) : bool :=
  existsb (fun kv => String.eqb k (fst kv)) params.

(** The parameters execute_query sends: the caller's (none, or an empty
    dict, give the empty dict), with "at" when it is given and not there
    yet, and with "rebase" when it is not there yet. *)
Definition query_params (at_ : option string) (rebase : bool)
    (params : list (string * string)) : list (string * string) :=
  let p1 :=
    match at_ with
    | Some a =>
        if negb (String.eqb a "") && negb (has_key "at" params)
        then params ++ [("at", a)] else params
    | None => params
    end in
  if negb (has_key "rebase" p1) then p1 ++ [("rebase", str_of_bool rebase)] else p1.

(** The request execute_query posts. *)
Definition graphql_post (query : document) (branch : string) (at_ : option string)
    (rebase : bool) (variables : list (string * value)) (timeout : Z)
    (params : list (string * string)) : post_request :=
  {| post_url := INFRAHUB_URL ++ "/graphql/" ++ branch;
     post_query := query;
     post_variables := variables;
     post_timeout := timeout;
     post_params := query_params at_ rebase params |}.

Section Changes.

Context {W : Type}.

(** [client.post] followed by [raise_for_status] and [json]: an exception,
    or the decoded body. *)
Variable http_post : post_request -> W -> result value * W.

(** [str(uuid.uuid4())]. *)
Variable uuid4 : W -> string * W.

Definition execute_query (query : document) (branch : string) (at_ : option string)
    (rebase : bool) (variables : list (string * value)) (timeout : Z)
    (params : list (string * string)) : M W value :=
  let r := graphql_post query branch at_ rebase variables timeout params in
  call (EPost r) (http_post r).

Definition console_print (m : message) : M W unit := emit (EPrint m).

Definition random_uuid : M W string :=
  fun w => match uuid4 w with (u, w1) => (Ok u, w1, []) end.

(** [response["data"]["device"][0]["interfaces"][0]]. *)
Definition first_interface (response : value) : result value :=
  rbind (getitem "data" response) (fun d =>
  rbind (getitem "device" d) (fun ds =>
  rbind (getitem0 ds) (fun d0 =>
  rbind (getitem "interfaces" d0) getitem0))).

(** The report on the answer to the merge, shared by the two commands:
    every error message, or the success line when the merge is ok. *)
Definition report_merge (response : value) (success : M W unit) : M W unit :=
  has_errors <- lift (py_in "errors" response) ;;
  if (has_errors : bool)
  then
    errors <- lift (rbind (getitem "errors" response) py_iter) ;;
    for_each errors
      (fun error (_ : unit) =>
         m <- lift (getitem "message" error) ;;
         console_print [Lit "[red]ERROR[/] "; Fmt m]) tt
  else
    ok <- lift (rbind (getitem "data" response) (fun d =>
                rbind (getitem "branch_merge" d) (getitem "ok"))) ;;
    if truthy ok then success else ret tt.

Definition _change_admin_status (device interface branch : string) : M W value :=
  response <- execute_query QUERY_GET_INTERFACE branch None false
                [("device", VStr device); ("interface", VStr interface)] 10 [] ;;
  interface_id <- lift (rbind (first_interface response) (getitem "id")) ;;
  interface_status <- lift (rbind (first_interface response) (fun i =>
                            rbind (getitem "enabled" i) (getitem "value"))) ;;
  let interface_status_text :=
    if truthy interface_status then "enabled" else "disabled" in
  id8 <- lift (slice8 interface_id) ;;
  _ <- console_print [Lit "Interface '"; Fmt (VStr interface); Lit "' ("; Fmt id8;
                      Lit ") on '"; Fmt (VStr device); Lit "', is currently '";
                      Fmt (VStr interface_status_text); Lit "'"] ;;
  u <- random_uuid ;;
  let new_branch_name := ("update-intf-" ++ str_take 8 u)%string in
  response <- execute_query BRANCH_CREATE_DATA_ONLY "main" None false
                [("branch", VStr new_branch_name)] 60 [] ;;
  _ <- console_print [Lit "Created the branch '"; Fmt (VStr new_branch_name);
                      Lit "' for this change"] ;;
  response <- execute_query INTERFACE_UPDATE_ADMIN_STATUS new_branch_name None false
                [("interface_id", interface_id);
                 ("admin_status", VBool (negb (truthy interface_status)))] 10 [] ;;
  _ <- console_print [Lit "Updated the admin status of the interface to ";
                      Fmt (VBool (negb (truthy interface_status)));
                      Lit " in "; Fmt (VStr new_branch_name)] ;;
  response <- execute_query BRANCH_MERGE "main" None false
                [("branch", VStr new_branch_name)] 60 [] ;;
  _ <- report_merge response (
         id8 <- lift (slice8 interface_id) ;;
         console_print [Lit "[green]SUCCESS[/] Interface '"; Fmt (VStr interface);
                        Lit "' ("; Fmt id8; Lit ") on '"; Fmt (VStr device);
                        Lit "' successfully updated"]) ;;
  ret VNone.

(** [response["data"]["circuit"][0]]. *)
Definition first_circuit (response : value) : result value :=
  rbind (getitem "data" response) (fun d =>
  rbind (getitem "circuit" d) getitem0).

Definition _change_circuit_status (circuit status branch : string) : M W value :=
  response <- execute_query QUERY_GET_CIRCUIT branch None false
                [("circuit", VStr circuit)] 10 [] ;;
  circuit_id <- lift (rbind (first_circuit response) (getitem "id")) ;;
  current_status <- lift (rbind (first_circuit response) (fun c =>
                          rbind (getitem "status" c) (fun s =>
                          rbind (getitem "name" s) (getitem "value")))) ;;
  if py_eqb current_status (VStr status)
  then
    id8 <- lift (slice8 circuit_id) ;;
    _ <- console_print [Lit "Circuit '"; Fmt (VStr circuit); Lit "' ("; Fmt id8;
                        Lit ") status is already '"; Fmt current_status;
                        Lit "', nothing to do"] ;;
    ret (VBool false)
  else
    id8 <- lift (slice8 circuit_id) ;;
    _ <- console_print [Lit "Circuit '"; Fmt (VStr circuit); Lit "' ("; Fmt id8;
                        Lit "), is currently '"; Fmt current_status; Lit "'"] ;;
    u <- random_uuid ;;
    let new_branch_name := ("update-circuit-" ++ str_take 8 u)%string in
    response <- execute_query BRANCH_CREATE_DATA_ONLY "main" None false
                  [("branch", VStr new_branch_name)] 60 [] ;;
    _ <- console_print [Lit "Created the branch '"; Fmt (VStr new_branch_name);
                        Lit "' for this change"] ;;
    response <- execute_query CIRCUIT_UPDATE_STATUS new_branch_name None false
                  [("circuit_id", circuit_id); ("status", VStr status)] 10 [] ;;
    _ <- console_print [Lit "Updated the status of the Circuit to `";
                        Fmt (VStr status); Lit "` in `";
                        Fmt (VStr new_branch_name); Lit "`"] ;;
    response <- execute_query BRANCH_MERGE "main" None false
                  [("branch", VStr new_branch_name)] 60 [] ;;
    _ <- report_merge response (
           id8 <- lift (slice8 circuit_id) ;;
           console_print [Lit "[green]SUCCESS[/] Circuit '"; Fmt (VStr circuit);
                          Lit "' ("; Fmt id8; Lit ") successfully updated"]) ;;
    ret VNone.

End Changes.

(* --------------------------------------------------------------------- *)
(* 5. The reconciler: _manage_bgp_session                                 *)
(* --------------------------------------------------------------------- *)

(** The local variables of one pass of the [while True] body that the
    comparison reads and writes.  [update] starts as the empty list and is
    rebound to a (path, payload) pair; [create] stays the empty list. *)
Record locals : Type := mk_locals {
  infrahub_bgp_config : list session_config;
  device_bgp_config : list session_config;
  update : option (string * value);
  create : list (string * value);
  found : bool;
  result_var : option value
}.

Definition with_found (b : bool) (l : locals) : locals :=
  {| infrahub_bgp_config := infrahub_bgp_config l;
     device_bgp_config := device_bgp_config l;
     update := update l; create := create l;
     found := b; result_var := result_var l |}.

Definition with_update (u : string * value) (l : locals) : locals :=
  {| infrahub_bgp_config := infrahub_bgp_config l;
     device_bgp_config := device_bgp_config l;
     update := Some u; create := create l;
     found := found l; result_var := result_var l |}.

Definition with_result (v : value) (l : locals) : locals :=
  {| infrahub_bgp_config := infrahub_bgp_config l;
     device_bgp_config := device_bgp_config l;
     update := update l; create := create l;
     found := found l; result_var := Some v |}.

(** The f-string that names one neighbour on the device. *)
Definition session_path (address : string) : string :=
  OC_BGP_NEIGHBOR_PATH ++ "[neighbor-address=" ++ address ++ "]".

(** The pair bound to [update] for an intended session. *)
Definition update_for (intended_session : session_config) : string * value :=
  (session_path (neighbor_address intended_session),
   VDict [("config", config intended_session)]).

(** [gc.set(update=[update])]. *)
Definition set_of (u : string * value) : set_request :=
  {| set_delete := []; set_replace := []; set_update := [u] |}.

Definition msg_updated (address : string) : message :=
  [Lit "[orange]UPDATED[/] Session '"; Fmt (VStr address); Lit "'"].
Definition msg_added (address : string) : message :=
  [Lit "[orange]ADDED[/] Session '"; Fmt (VStr address); Lit "'"].
Definition msg_all_present : message :=
  [Lit "All BGP sessions are already present"].

(** The text before the first [/]: [s.split("/")[0]]. *)
Fixpoint before_slash (s : string) : string :=
  match s with
  | "" => ""
  | String c r => if Ascii.eqb c "/"%char then "" else String c (before_slash r)
  end.

(** A list comprehension with a condition that can raise. *)
Fixpoint filter_result {X} (f : X -> result bool) (xs : list X) : result (list X) :=
  match xs with
  | [] => Ok []
  | x :: xs' =>
      rbind (f x) (fun keep =>
      rbind (filter_result f xs') (fun ys => Ok (if keep : bool then x :: ys else ys)))
  end.

(** [response["data"]["device"][0]]. *)
Definition first_device (response : value) : result value :=
  rbind (getitem "data" response) (fun d =>
  rbind (getitem "device" d) getitem0).

(** The request of get_bgp_neighbor_config for a device: the default
    timeout, and the device as the one parameter. *)
Definition neighbors_request (device : string) : get_request :=
  {| get_url := INFRAHUB_URL ++
       "/openconfig/network-instances/network-instance/protocols/protocol/bgp/neighbors";
     get_timeout := 10;
     get_params := [("device", device)] |}.

Section Reconciler.

Context {W : Type}.

(** The environment variables read when the module is loaded. *)
Variables ARISTA_PORT ARISTA_USERNAME ARISTA_PASSWORD : string.

(** The collaborators.  [http_get_neighbors] is [client.get] followed by
    [raise_for_status] and [json]: an exception, or the list under
    ["openconfig-bgp:neighbors"]["neighbor"], each entry read through the
    two keys the loop uses, its address a string.  The three others are the
    gNMI client: entering the [with] block, [gc.get] and [gc.set]. *)
Variable http_get_neighbors : get_request -> W -> result (list session_config) * W.
Variable gnmi_connect : device_conn -> W -> result unit * W.
Variable gnmi_get : list string -> string -> W -> result value * W.
Variable gnmi_set : set_request -> W -> result value * W.

(** The two collaborators of the lines before the loop: the GraphQL
    endpoint, and [str(Repo(".").active_branch)]. *)
Variable http_post : post_request -> W -> result value * W.
Variable active_branch : W -> result string * W.

Definition get_bgp_neighbor_config (device : string) : M W (list session_config) :=
  let r := neighbors_request device in
  call (EGet r) (http_get_neighbors r).

Definition gc_get (paths : list string) (encoding : string) : M W value :=
  call (EGnmiGet paths encoding) (gnmi_get paths encoding).

Definition gc_set (u : string * value) : M W value :=
  call (EGnmiSet (set_of u)) (gnmi_set (set_of u)).

Definition console_log (m : message) : M W unit := emit (ELog m).

(** [with gNMIclient(...) as gc: body]: the connection is closed when the
    block is left, also by an exception. *)
Definition with_gnmi {A} (c : device_conn) (body : M W A) : M W A :=
  _ <- call (EGnmiOpen c) (gnmi_connect c) ;;
  fun w => match body w with (r, w1, t) => (r, w1, t ++ [EGnmiClose]) end.

(** The body of the inner [for existing_session in ...]. *)
Definition on_existing (intended_session existing_session : session_config)
    (l : locals) : M W locals :=
  if negb (String.eqb (neighbor_address intended_session)
                      (neighbor_address existing_session))
  then ret l
  else
    let l1 :=
      if String.eqb (neighbor_address intended_session)
                    (neighbor_address existing_session)
      then with_found true l else l in
    if py_neb (config intended_session) (config existing_session)
    then
      let l2 := with_update (update_for intended_session) l1 in
      r <- gc_set (update_for intended_session) ;;
      _ <- console_log (msg_updated (neighbor_address intended_session)) ;;
      ret (with_result r l2)
    else ret l1.

(** The body of the outer [for intended_session in ...]. *)
Definition on_intended (intended_session : session_config) (l : locals) : M W locals :=
  let l0 := with_found false l in
  l1 <- for_each (device_bgp_config l0) (on_existing intended_session) l0 ;;
  if negb (found l1)
  then
    let l2 := with_update (update_for intended_session) l1 in
    r <- gc_set (update_for intended_session) ;;
    _ <- console_log (msg_added (neighbor_address intended_session)) ;;
    ret (with_result r l2)
  else ret l1.

(** From [update = []] to the closing message: the comparison of the two
    collections and the pushes it makes. *)
Definition compare_and_push (intended actual : list session_config) : M W locals :=
  let l := {| infrahub_bgp_config := intended;
              device_bgp_config := actual;
              update := None; create := [];
              found := false; result_var := None |} in
  l1 <- for_each (infrahub_bgp_config l) on_intended l ;;
  if negb (match create l1 with [] => false | _ => true end)
     && negb (match update l1 with None => false | Some _ => true end)
  then _ <- console_log msg_all_present ;; ret l1
  else ret l1.

(** The sessions of a gNMI answer:
    [response.get("notification")[0].get("update", [])]. *)
Definition device_sessions_of (response : value) : result (list value) :=
  rbind (py_get "notification" VNone response) (fun n =>
  rbind (getitem0 n) (fun n0 =>
  rbind (py_get "update" (VList []) n0) py_iter)).

(** One pass of the [while True] body, the sleep included. *)
Definition cycle (mgmt_ip_address device : string) (interval : Z) : M W unit :=
  let conn := {| target := (mgmt_ip_address, ARISTA_PORT);
                 username := ARISTA_USERNAME;
                 password := ARISTA_PASSWORD;
                 insecure := true |} in
  infrahub <- get_bgp_neighbor_config device ;;
  _ <- with_gnmi conn (
    response <- gc_get [OC_BGP_NEIGHBOR_PATH] "json_ietf" ;;
    device_sessions <- lift (device_sessions_of response) ;;
    neighbor <- lift (map_result extract_config_from_device_session device_sessions) ;;
    compare_and_push infrahub neighbor) ;;
  emit (ESleep interval).

(** The [while True] loop, unrolled [n] times: [Ok] says the loop is still
    running after [n] passes, [Raise] that an exception left it. *)
Fixpoint manage_loop (n : nat) (mgmt_ip_address device : string) (interval : Z)
    : M W unit :=
  match n with
  | O => ret tt
  | S n' =>
      _ <- cycle mgmt_ip_address device interval ;;
      manage_loop n' mgmt_ip_address device interval
  end.

(** [intf["role"]["name"]["value"] == "management"]. *)
Definition is_management (intf : value) : result bool :=
  rbind (getitem "role" intf) (fun r =>
  rbind (getitem "name" r) (fun n =>
  rbind (getitem "value" n) (fun v => Ok (py_eqb v (VStr "management"))))).

(** [mgmt_interface["ip_addresses"][0]["address"]["value"].split("/")[0]]. *)
Definition management_address (mgmt_interface : value) : result string :=
  rbind (getitem "ip_addresses" mgmt_interface) (fun ips =>
  rbind (getitem0 ips) (fun ip =>
  rbind (getitem "address" ip) (fun a =>
  rbind (getitem "value" a) (fun v =>
    match v with
    | VStr s => Ok (before_slash s)
    | _ => Raise AttributeError
    end)))).

(** The whole command, its loop unrolled [n] times: the branch, the
    management address of the device, then the loop. *)
Definition _manage_bgp_session (n : nat) (device : string) (branch : option string)
    (interval : Z) : M W unit :=
  branch <- match branch with
            | Some b => if String.eqb b "" then fun w =>
                          match active_branch w with (r, w1) => (r, w1, []) end
                        else ret b
            | None => fun w => match active_branch w with (r, w1) => (r, w1, []) end
            end ;;
  _ <- console_log [Lit "-- Manage BGP Sessions for '"; Fmt (VStr device);
                    Lit "' (interval: "; Fmt (VInt interval); Lit ") --"] ;;
  response <- execute_query http_post QUERY_GET_DEVICE_MANAGEMENT_IP branch None false
                [("device", VStr device)] 10 [] ;;
  interfaces <- lift (rbind (first_device response) (fun d =>
                      rbind (getitem "interfaces" d) py_iter)) ;;
  management <- lift (filter_result is_management interfaces) ;;
  mgmt_interface <- lift (match management with
                          | x :: _ => Ok x
                          | [] => Raise IndexError
                          end) ;;
  mgmt_ip_address <- lift (management_address mgmt_interface) ;;
  manage_loop n mgmt_ip_address device interval.

End Reconciler.


(* --------------------------------------------------------------------- *)
(* 6. What the two loops decide, read off their conditions                *)
(* --------------------------------------------------------------------- *)

(** The test [intended["neighbor-address"] == existing["neighbor-address"]]. *)
Definition same_address (i e : session_config) : bool :=
  String.eqb (neighbor_address i) (neighbor_address e).

(** The existing session is one at which the inner loop pushes an update:
    same address, and [intended["config"] != existing["config"]]. *)
Definition hit (i e : session_config) : bool :=
  same_address i e && py_neb (config i) (config e).

(** The value of [found] when the inner loop is over. *)
Definition found_after (i : session_config) (actual : list session_config) : bool :=
  existsb (same_address i) actual.

(** The three outcomes for an intended session: ADDED is logged, UPDATED is
    logged, nothing is done. *)
Definition is_missing (actual : list session_config) (i : session_config) : bool :=
  negb (found_after i actual).
Definition is_updated (actual : list session_config) (i : session_config) : bool :=
  existsb (hit i) actual.
Definition is_matched (actual : list session_config) (i : session_config) : bool :=
  found_after i actual && negb (existsb (hit i) actual).

(** A push is made for the session: it is updated or added. *)
Definition needs_push (actual : list session_config) (i : session_config) : bool :=
  is_updated actual i || is_missing actual i.

(** The variables a pass through a loop body leaves as they were. *)
Definition same_frame (l l' : locals) : Prop :=
  infrahub_bgp_config l' = infrahub_bgp_config l /\
  device_bgp_config l' = device_bgp_config l /\
  create l' = create l.

(** [update] is bound to a pair (and so is true in [if not update]). *)
Definition is_set (o : option (string * value)) : bool :=
  match o with Some _ => true | None => false end.

Definition addresses (l : list session_config) : list string :=
  map neighbor_address l.

(** The sets of addresses of the comparison. *)
Definition missing (intended actual : list session_config) : gset string :=
  list_to_set (addresses (List.filter (is_missing actual) intended)).
Definition updated (intended actual : list session_config) : gset string :=
  list_to_set (addresses (List.filter (is_updated actual) intended)).
Definition matched (intended actual : list session_config) : gset string :=
  list_to_set (addresses (List.filter (is_matched actual) intended)).

(** The events of one push. *)
Definition push_events (i : session_config) (m : string -> message) : list event :=
  [EGnmiSet (set_of (update_for i)); ELog (m (neighbor_address i))].

(** The events of the outer loop's body for one intended session when no
    push fails: an update at each hit, then the addition when nothing was
    found. *)
Definition pushes_for (actual : list session_config) (i : session_config) : list event :=
  flat_map (fun e => if hit i e then push_events i msg_updated else []) actual
  ++ (if found_after i actual then [] else push_events i msg_added).

Definition planned (intended actual : list session_config) : list event :=
  flat_map (pushes_for actual) intended.

(** The event belongs to a push for an intended session, or is the closing
    line of the comparison. *)
Definition event_of (intended : list session_config) (ev : event) : Prop :=
  ev = ELog msg_all_present \/
  exists i, In i intended /\
    (ev = EGnmiSet (set_of (update_for i))
     \/ ev = ELog (msg_updated (neighbor_address i))
     \/ ev = ELog (msg_added (neighbor_address i))).


(** The requests sent through [gc.set], in order. *)
Fixpoint set_requests (t : list event) : list set_request :=
  match t with
  | [] => []
  | EGnmiSet r :: t' => r :: set_requests t'
  | _ :: t' => set_requests t'
  end.

(** The posts of a trace whose document is [q]. *)
Definition posts_of (q : document) (t : list event) : list post_request :=
  flat_map (fun ev =>
    match ev with
    | EPost r => if document_eqb (post_query r) q then [r] else []
    | _ => []
    end) t.


(** The keys of a [val] mapping that supply the config, in iteration order. *)
Definition config_items (its : list (string * value)) : list (string * value) :=
  List.filter (fun kv => str_contains ":config" (fst kv)) its.

(* --------------------------------------------------------------------- *)
(* 7. A scripted outside world, for running the programme on examples     *)
(* --------------------------------------------------------------------- *)

Module Scripted.

(** Each collaborator answers with the next entry of its script. *)
Record world : Type := mk_world {
  posts : list (result value);
  neighbors : list (result (list session_config));
  connects : list (result unit);
  gets : list (result value);
  sets : list (result value);
  uuids : list string
}.

Definition http_post (_ : post_request) (w : world) : result value * world :=
  match posts w with
  | [] => (Raise HTTPError, w)
  | r :: rest =>
      (r, {| posts := rest; neighbors := neighbors w; connects := connects w;
             gets := gets w; sets := sets w; uuids := uuids w |})
  end.

Definition http_get_neighbors (_ : get_request) (w : world)
    : result (list session_config) * world :=
  match neighbors w with
  | [] => (Raise HTTPError, w)
  | r :: rest =>
      (r, {| posts := posts w; neighbors := rest; connects := connects w;
             gets := gets w; sets := sets w; uuids := uuids w |})
  end.

Definition gnmi_connect (_ : device_conn) (w : world) : result unit * world :=
  match connects w with
  | [] => (Ok tt, w)
  | r :: rest =>
      (r, {| posts := posts w; neighbors := neighbors w; connects := rest;
             gets := gets w; sets := sets w; uuids := uuids w |})
  end.

Definition gnmi_get (_ : list string) (_ : string) (w : world) : result value * world :=
  match gets w with
  | [] => (Raise GnmiError, w)
  | r :: rest =>
      (r, {| posts := posts w; neighbors := neighbors w; connects := connects w;
             gets := rest; sets := sets w; uuids := uuids w |})
  end.

Definition gnmi_set (_ : set_request) (w : world) : result value * world :=
  match sets w with
  | [] => (Ok VNone, w)
  | r :: rest =>
      (r, {| posts := posts w; neighbors := neighbors w; connects := connects w;
             gets := gets w; sets := rest; uuids := uuids w |})
  end.

Definition uuid4 (w : world) : string * world :=
  match uuids w with
  | [] => ("00000000-0000-4000-8000-000000000000", w)
  | u :: rest =>
      (u, {| posts := posts w; neighbors := neighbors w; connects := connects w;
             gets := gets w; sets := sets w; uuids := rest |})
  end.

Definition quiet : world :=
  {| posts := []; neighbors := []; connects := []; gets := []; sets := [];
     uuids := [] |}.

(** A gNMI answer with one notification carrying the given updates. *)
Definition answer (updates : list value) : value :=
  VDict [("notification", VList [VDict [("update", VList updates)]])].

(** One update, as the device reports a neighbour. *)
Definition neighbor_update (p : string) (v : list (string * value)) : value :=
  VDict [("path", VStr p); ("val", VDict v)].

Definition run_cycle (w : world) : result unit * world * list event :=
  cycle "6030" "admin" "admin" http_get_neighbors gnmi_connect gnmi_get gnmi_set
    "172.20.20.17" "atl1-edge1" 10 w.

Definition run_loop (n : nat) (w : world) : result unit * world * list event :=
  manage_loop "6030" "admin" "admin" http_get_neighbors gnmi_connect gnmi_get gnmi_set
    n "172.20.20.17" "atl1-edge1" 10 w.

Definition active_branch (w : world) : result string * world := (Ok "main", w).

Definition run_manage (n : nat) (w : world) : result unit * world * list event :=
  _manage_bgp_session "6030" "admin" "admin" http_get_neighbors gnmi_connect gnmi_get
    gnmi_set http_post active_branch n "atl1-edge1" None 10 w.

Definition run_compare (intended actual : list session_config) (w : world)
    : result locals * world * list event :=
  compare_and_push gnmi_set intended actual w.

End Scripted.

(* --------------------------------------------------------------------- *)
(* 8. Example sessions                                                    *)
(* --------------------------------------------------------------------- *)

Module Examples.

Definition peer (asn : Z) : value := VDict [("peer-as", VInt asn)].

Definition at1 (asn : Z) : session_config :=
  {| neighbor_address := "10.0.0.1"; config := peer asn |}.
Definition at2 (asn : Z) : session_config :=
  {| neighbor_address := "10.0.0.2"; config := peer asn |}.
Definition at3 (asn : Z) : session_config :=
  {| neighbor_address := "10.0.0.3"; config := peer asn |}.

Definition reported (address : string) (asn : Z) : value :=
  Scripted.neighbor_update
    ("network-instances/network-instance[name=default]/protocols/protocol[name=BGP]/bgp/neighbors/neighbor[neighbor-address="
     ++ address ++ "]")
    [("openconfig-network-instance:config", peer asn);
     ("openconfig-network-instance:state", peer asn)].

(** An update that is not a neighbour's. *)
Definition stray : value :=
  Scripted.neighbor_update
    "network-instances/network-instance[name=default]/protocols/protocol[name=BGP]/bgp/global"
    [("openconfig-network-instance:config", peer 65000)].



(** As [settled], but the device reports a stray update at the first
    pass. *)
Definition stray_reported : Scripted.world :=
  {| Scripted.posts := [];
     Scripted.neighbors := [Ok [at1 65001]; Ok [at1 65001]; Ok [at1 65001]];
     Scripted.connects := [];
     Scripted.gets := [Ok (Scripted.answer [reported "10.0.0.1" 65001; stray]);
                       Ok (Scripted.answer [reported "10.0.0.1" 65001]);
                       Ok (Scripted.answer [reported "10.0.0.1" 65001])];
     Scripted.sets := [];
     Scripted.uuids := [] |}.

(** Two sessions are missing on the device, which refuses the first
    set. *)
Definition set_refused : Scripted.world :=
  {| Scripted.posts := [];
     Scripted.neighbors := [Ok [at1 65001; at2 65002; at3 65003];
                            Ok [at1 65001; at2 65002; at3 65003]];
     Scripted.connects := [];
     Scripted.gets := [Ok (Scripted.answer [reported "10.0.0.1" 65001]);
                       Ok (Scripted.answer [reported "10.0.0.1" 65001])];
     Scripted.sets := [Raise GnmiError];
     Scripted.uuids := [] |}.

(** The answers of the source of truth to a change of admin status whose
    mutation is refused: the interface, the branch, the refusal, the
    merge. *)
Definition interface_reply : value :=
  VDict [("data", VDict [("device", VList [VDict
    [("id", VStr "5f0c4f2e-93c1-4b5a-a6d5-0d1c2b3a4e5f");
     ("interfaces", VList [VDict
        [("id", VStr "0a1b2c3d-4e5f-4a6b-8c7d-9e0f1a2b3c4d");
         ("name", VDict [("value", VStr "Ethernet1")]);
         ("enabled", VDict [("value", VBool true)])]])]])])].

Definition branch_reply : value :=
  VDict [("data", VDict [("branch_create", VDict [("ok", VBool true)])])].

Definition refusal : value :=
  VDict [("data", VNone);
         ("errors", VList [VDict [("message", VStr "Unable to update the interface")]])].

Definition merge_reply : value :=
  VDict [("data", VDict [("branch_merge", VDict [("ok", VBool true)])])].

Definition mutation_refused : Scripted.world :=
  {| Scripted.posts := [Ok interface_reply; Ok branch_reply; Ok refusal; Ok merge_reply];
     Scripted.neighbors := [];
     Scripted.connects := [];
     Scripted.gets := [];
     Scripted.sets := [];
     Scripted.uuids := ["1b4e28ba-2fa1-41d2-883f-0016d3cca427"] |}.

(** The answer of the source of truth about the interfaces of the device. *)
Definition management_reply : value :=
  VDict [("data", VDict [("device", VList [VDict
    [("id", VStr "5f0c4f2e-93c1-4b5a-a6d5-0d1c2b3a4e5f");
     ("name", VDict [("value", VStr "atl1-edge1")]);
     ("interfaces", VList
        [VDict [("id", VStr "0a1b2c3d-4e5f-4a6b-8c7d-9e0f1a2b3c4d");
                ("ip_addresses", VList [VDict [("address",
                   VDict [("value", VStr "10.0.0.0/31")])]]);
                ("role", VDict [("name", VDict [("value", VStr "backbone")])])];
         VDict [("id", VStr "9b2d7c1e-6a4f-4d3b-8e5c-1f0a2b3c4d5e");
                ("ip_addresses", VList [VDict [("address",
                   VDict [("value", VStr "172.20.20.17/24")])]]);
                ("role", VDict [("name", VDict [("value", VStr "management")])])]])]])])].

(** As [settled], with the answer to the query of the lines before the
    loop. *)
Definition settled_from_start : Scripted.world :=
  {| Scripted.posts := [Ok management_reply];
     Scripted.neighbors := [Ok [at1 65001]];
     Scripted.connects := [];
     Scripted.gets := [Ok (Scripted.answer [reported "10.0.0.1" 65001])];
     Scripted.sets := [];
     Scripted.uuids := [] |}.

(** The answer of the source of truth about a circuit that is active. *)
Definition circuit_reply : value :=
  VDict [("data", VDict [("circuit", VList [VDict
    [("id", VStr "7c9e6679-7425-40de-944b-e07fc1f90ae7");
     ("circuit_id", VDict [("value", VStr "DUFF-1543451")]);
     ("status", VDict [("name", VDict [("value", VStr "active")])])]])])].

Definition circuit_active : Scripted.world :=
  {| Scripted.posts := [Ok circuit_reply; Ok branch_reply; Ok merge_reply];
     Scripted.neighbors := [];
     Scripted.connects := [];
     Scripted.gets := [];
     Scripted.sets := [];
     Scripted.uuids := ["1b4e28ba-2fa1-41d2-883f-0016d3cca427"] |}.

End Examples.


(* --------------------------------------------------------------------- *)
(* 9. More example worlds                                                 *)
(* --------------------------------------------------------------------- *)

Module Cases.


(** The answer to a mutation that was applied. *)
Definition mutation_reply : value :=
  VDict [("data", VDict [("interface_update", VDict [("ok", VBool true)])])].

(** The answer to a merge that did not take place and reports no error. *)
Definition merge_not_ok : value :=
  VDict [("data", VDict [("branch_merge", VDict [("ok", VBool false)])])].

(** A change of admin status whose merge does not take place. *)
Definition merge_refused : Scripted.world :=
  {| Scripted.posts := [Ok Examples.interface_reply; Ok Examples.branch_reply;
                        Ok mutation_reply; Ok merge_not_ok];
     Scripted.neighbors := [];
     Scripted.connects := [];
     Scripted.gets := [];
     Scripted.sets := [];
     Scripted.uuids := ["1b4e28ba-2fa1-41d2-883f-0016d3cca427"] |}.

(** The circuit is in provisioning; every request is answered. *)
Definition circuit_provisioning_reply : value :=
  VDict [("data", VDict [("circuit", VList [VDict
    [("id", VStr "7c9e6679-7425-40de-944b-e07fc1f90ae7");
     ("circuit_id", VDict [("value", VStr "DUFF-1543451")]);
     ("status", VDict [("name", VDict [("value", VStr "provisioning")])])]])])].

Definition circuit_provisioning : Scripted.world :=
  {| Scripted.posts := [Ok circuit_provisioning_reply; Ok Examples.branch_reply;
                        Ok mutation_reply; Ok Examples.merge_reply];
     Scripted.neighbors := [];
     Scripted.connects := [];
     Scripted.gets := [];
     Scripted.sets := [];
     Scripted.uuids := ["1b4e28ba-2fa1-41d2-883f-0016d3cca427"] |}.

Definition run_admin (w : Scripted.world) : result value * Scripted.world * list event :=
  _change_admin_status Scripted.http_post Scripted.uuid4
    "atl1-edge1" "Ethernet1" "main" w.

Definition run_circuit (w : Scripted.world) : result value * Scripted.world * list event :=
  _change_circuit_status Scripted.http_post Scripted.uuid4
    "DUFF-1543451" "active" "main" w.

End Cases.

(* --------------------------------------------------------------------- *)
(* 10. Further observations on a trace                                    *)
(* --------------------------------------------------------------------- *)

(** The event is a request to the device or a line of the log: what can
    happen while the gNMI connection is open. *)
Definition in_session (ev : event) : bool :=
  match ev with
  | EGnmiGet _ _ | EGnmiSet _ | ELog _ => true
  | _ => false
  end.

(** The requests posted to the source of truth, in order. *)
Fixpoint posted (t : list event) : list post_request :=
  match t with
  | [] => []
  | EPost r :: t' => r :: posted t'
  | _ :: t' => posted t'
  end.

(** The lines printed on the console, in order. *)
Fixpoint printed (t : list event) : list message :=
  match t with
  | [] => []
  | EPrint m :: t' => m :: printed t'
  | _ :: t' => printed t'
  end.

(** The value is one that [json] can hand back: in every dict, at every
    depth, the keys are pairwise distinct. *)
Fixpoint well_formed (v : value) : bool :=
  match v with
  | VList l =>
      (fix all (l : list value) : bool :=
         match l with
         | [] => true
         | x :: l' => well_formed x && all l'
         end) l
  | VDict d =>
      (fix all (d : list (string * value)) : bool :=
         match d with
         | [] => true
         | (k, x) :: d' =>
             negb (existsb (fun kv => String.eqb k (fst kv)) d')
             && well_formed x && all d'
         end) d
  | _ => true
  end.

(** The line is the success line of a change. *)
Definition is_success (m : message) : bool :=
  match m with
  | Lit s :: _ => String.prefix "[green]SUCCESS[/]" s
  | _ => false
  end.

(** The line reports an error of the merge. *)
Definition is_error (m : message) : bool :=
  match m with
  | Lit s :: _ => String.prefix "[red]ERROR[/]" s
  | _ => false
  end.

(** The requests sent through [client.get], in order. *)
Fixpoint fetched_with (t : list event) : list get_request :=
  match t with
  | [] => []
  | EGet r :: t' => r :: fetched_with t'
  | _ :: t' => fetched_with t'
  end.

(** The gNMI connections opened, in order. *)
Fixpoint opened (t : list event) : list device_conn :=
  match t with
  | [] => []
  | EGnmiOpen c :: t' => c :: opened t'
  | _ :: t' => opened t'
  end.

(** The line printed for one error of the merge. *)
Definition error_line (m : value) : event := EPrint [Lit "[red]ERROR[/] "; Fmt m].

(* --------------------------------------------------------------------- *)
(* 11. The commands that report and save                                  *)
(* --------------------------------------------------------------------- *)

(** [s.split(sep)] for a separator of one character: the pieces between
    the separators, the empty ones included. *)
Fixpoint split_on (sep : ascii) (s : string) : list string :=
  match s with
  | "" => [""%string]
  | String c r =>
      if Ascii.eqb c sep then ""%string :: split_on sep r
      else match split_on sep r with
           | h :: t => String c h :: t
           | [] => [String c ""]
           end
  end.

(** [s * n]. *)
Fixpoint str_repeat (s : string) (n : nat) : string :=
  match n with
  | O => ""
  | S n' => s ++ str_repeat s n'
  end.

Module Reports.

(** The GraphQL documents of demo.py: those of the reconciler and of the
    branch-scoped changes, and those of the commands below. *)
Inductive doc : Type :=
| Modelled (d : document)
| INTERFACE_UPDATE_DESCRIPTION
| QUERY_GET_DEVICES
| QUERY_GET_INTERFACE_ALL
| QUERY_GET_BGP_ALL
| QUERY_GET_DEVICE_CIRCUIT.

(** [client.post(url, json={"query": .., "variables": ..}, timeout=..,
    params=..)]; [variables] is None when the caller gives none. *)
Record request : Type := mk_request {
  url : string;
  query : doc;
  variables : option (list (string * value));
  timeout : Z;
  params : list (string * string)
}.

(** [client.get(url, params=..)] of get_rfile. *)
Record rfile_request : Type := mk_rfile {
  rfile_url : string;
  rfile_params : list (string * value)
}.

(** A cell of a row of a table: a text, a value of the answer passed as
    it is, an f-string or [str(v)], or [str(v)[:8]]. *)
Inductive cell : Type :=
| CStr (s : string)
| CValue (v : value)
| CText (m : message)
| CShort (v : value).

(** A [rich] table: its title, the headers of its columns, its rows. *)
Record table : Type := mk_table {
  title : message;
  columns : list string;
  rows : list (list cell)
}.

Inductive event : Type :=
| EPost (r : request)
| EGet (r : rfile_request)
| EWrite (path : message) (content : string)
| EPrint (m : message)
| ETable (t : table)
| ELog (m : message)
| EStdout (s : string)
| ESleep (seconds : Z).

Definition M (W A : Type) : Type := W -> result A * W * list event.

Section Effects.

Context {W : Type}.

Definition ret {A} (a : A) : M W A := fun w => (Ok a, w, []).

Definition bind {A B} (m : M W A) (k : A -> M W B) : M W B :=
  fun w =>
    match m w with
    | (Ok a, w1, t1) =>
        match k a w1 with
        | (r, w2, t2) => (r, w2, t1 ++ t2)
        end
    | (Raise e, w1, t1) => (Raise e, w1, t1)
    end.

Definition lift {A} (r : result A) : M W A := fun w => (r, w, []).

Definition emit (e : event) : M W unit := fun w => (Ok tt, w, [e]).

Definition call {A} (e : event) (f : W -> result A * W) : M W A :=
  fun w => match f w with (r, w1) => (r, w1, [e]) end.

Fixpoint for_each {X L} (xs : list X) (body : X -> L -> M W L) (l : L) : M W L :=
  match xs with
  | [] => ret l
  | x :: xs' => bind (body x l) (for_each xs' body)
  end.

End Effects.

Declare Scope report_scope.
Delimit Scope report_scope with report.
Notation "x <- m ;; k" := (bind m (fun x => k))
  (at level 100, m at next level, right associativity) : report_scope.
Local Open Scope report_scope.

Section Commands.

Context {W : Type}.

(** The collaborators: [client.post] and [client.get], each followed by
    [raise_for_status] and by [json] or [text]; [str(Repo(".").active_branch)];
    opening a file for writing and writing it; and [difflib.ndiff], a
    function of its two lists of lines. *)
Variable http_post : request -> W -> result value * W.
Variable http_get_text : rfile_request -> W -> result string * W.
Variable active_branch : W -> result string * W.
Variable write_file : message -> string -> W -> result unit * W.
Variable ndiff : list string -> list string -> list string.

Definition execute_query (query : doc) (branch : string) (at_ : option string)
    (rebase : bool) (variables : option (list (string * value))) (timeout : Z)
    (params : list (string * string)) : M W value :=
  let r := {| url := INFRAHUB_URL ++ "/graphql/" ++ branch;
              query := query;
              variables := variables;
              timeout := timeout;
              params := query_params at_ rebase params |} in
  call (EPost r) (http_post r).

Definition get_rfile (rfile_name : string) (params : list (string * value))
    (branch : string) : M W string :=
  let r := {| rfile_url := INFRAHUB_URL ++ "/rfile/" ++ rfile_name
                           ++ "?branch=" ++ branch;
              rfile_params := params |} in
  call (EGet r) (http_get_text r).

(** [if not branch: branch = str(Repo(".").active_branch)]. *)
Definition resolve_branch (branch : option string) : M W string :=
  match branch with
  | Some b => if String.eqb b "" then fun w =>
                match active_branch w with (r, w1) => (r, w1, []) end
              else ret b
  | None => fun w => match active_branch w with (r, w1) => (r, w1, []) end
  end.

Definition console_print (m : message) : M W unit := emit (EPrint m).

(** The line of a diff as print_config shows it. *)
Definition diff_line (line : string) : message :=
  if String.prefix "-" line then [Lit "[red]"; Fmt (VStr line)]
  else if String.prefix "+" line then [Lit "[green]"; Fmt (VStr line)]
  else [Fmt (VStr line)].

Definition print_config (previous : option string) (new : string) : M W unit :=
  let previous :=
    match previous with
    | Some p => if negb (String.eqb p "") then p else new
    | None => new
    end in
  let diff := ndiff (split_on newline previous) (split_on newline new) in
  for_each diff (fun line (_ : unit) => console_print (diff_line line)) tt.

(** [new_config != current_config]: a text differs from None. *)
Definition config_differs (new_config : string) (current_config : option string) : bool :=
  match current_config with
  | Some c => negb (String.eqb new_config c)
  | None => true
  end.

(** One pass of the [while True] body of _watch_config; the result is the
    value of [current_config] when the pass is over. *)
Definition watch_pass (device branch : string) (interval : Z) (rfile_name : string)
    (current_config : option string) : M W (option string) :=
  new_config <- get_rfile rfile_name [("device", VStr device)] branch ;;
  _ <- (if config_differs new_config current_config
        then
          _ <- console_print [Lit "Configuration for '"; Fmt (VStr device);
                              Lit "' on branch '"; Fmt (VStr branch); Lit "'"] ;;
          _ <- emit (EStdout (str_repeat "-" 40)) ;;
          _ <- print_config current_config new_config ;;
          emit (EStdout (str_repeat "-" 40))
        else ret tt) ;;
  _ <- emit (ESleep interval) ;;
  ret (Some new_config).

(** The loop, unrolled [n] times: [Ok c] says the loop is still running
    after [n] passes with [current_config] bound to [c]. *)
Fixpoint watch_loop (n : nat) (device branch : string) (interval : Z)
    (rfile_name : string) (current_config : option string) : M W (option string) :=
  match n with
  | O => ret current_config
  | S n' =>
      c <- watch_pass device branch interval rfile_name current_config ;;
      watch_loop n' device branch interval rfile_name c
  end.


Definition _update_description (device interface description : string)
    (branch : option string) : M W unit :=
  branch <- resolve_branch branch ;;
  response <- execute_query (Modelled QUERY_GET_INTERFACE) branch None false
                (Some [("device", VStr device); ("interface", VStr interface)]) 10 [] ;;
  interface_id <- lift (rbind (first_interface response) (getitem "id")) ;;
  id8 <- lift (slice8 interface_id) ;;
  _ <- console_print [Lit "Updating description of '"; Fmt (VStr interface);
                      Lit "' ("; Fmt id8; Lit ") on '"; Fmt (VStr device);
                      Lit "', (branch '"; Fmt (VStr branch); Lit "')"] ;;
  response <- execute_query INTERFACE_UPDATE_DESCRIPTION branch None false
                (Some [("interface_id", interface_id);
                       ("description", VStr description)]) 10 [] ;;
  has_errors <- lift (py_in "errors" response) ;;
  if (has_errors : bool)
  then
    errors <- lift (rbind (getitem "errors" response) py_iter) ;;
    for_each errors
      (fun error (_ : unit) =>
         m <- lift (getitem "message" error) ;;
         console_print [Lit "[red]ERROR[/] "; Fmt m]) tt
  else
    ok <- lift (rbind (getitem "data" response) (fun d =>
                rbind (getitem "interface_update" d) (getitem "ok"))) ;;
    if truthy ok
    then
      id8 <- lift (slice8 interface_id) ;;
      console_print [Lit "[green]SUCCESS[/] Interface '"; Fmt (VStr interface);
                     Lit "' ("; Fmt id8; Lit ") on '"; Fmt (VStr device);
                     Lit "' successfully updated, (branch '"; Fmt (VStr branch);
                     Lit "')"]
    else ret tt.

(** [f"configs/startup/{device_name}.cfg"]. *)
Definition config_location (device_name : value) : message :=
  [Lit "configs/startup/"; Fmt device_name; Lit ".cfg"].

(** The body of the loop of _generate_startup_config. *)
Definition save_startup_config (branch : string) (device : value) (_ : unit) : M W unit :=
  device_name <- lift (rbind (getitem "name" device) (getitem "value")) ;;
  startup_config <- get_rfile "device_startup" [("device", device_name)] branch ;;
  _ <- call (EWrite (config_location device_name) startup_config)
            (write_file (config_location device_name) startup_config) ;;
  console_print ([Lit "Saved new config file for '"; Fmt device_name; Lit "' in '"]
                 ++ config_location device_name
                 ++ [Lit "' (branch '"; Fmt (VStr branch); Lit "')"]).

Definition _generate_startup_config (branch : option string) : M W unit :=
  branch <- resolve_branch branch ;;
  response <- execute_query QUERY_GET_DEVICES branch None false None 10 [] ;;
  devices <- lift (rbind (rbind (getitem "data" response) (getitem "device")) py_iter) ;;
  for_each devices (save_startup_config branch) tt.

(** [v[k1][k2]...]. *)
Fixpoint getitems (ks : list string) (v : value) : result value :=
  match ks with
  | [] => Ok v
  | k :: ks' => rbind (getitem k v) (getitems ks')
  end.

(** [s + v] for a text [s]: a text when [v] is one. *)
Definition str_concat (s : string) (v : value) : result string :=
  match v with
  | VStr x => Ok (s ++ x)%string
  | _ => Raise TypeError
  end.

(** The body of the loop over the sessions of a device in
    _list_bgp_session, up to [table.add_row]: the row, or None when the
    session is passed over. *)
Definition bgp_session_row (internal : bool) (device : string) (item : value)
    : result (option (list cell)) :=
  rbind (getitems ["status"; "name"; "value"] item) (fun status_value =>
  let status :=
    if py_eqb status_value (VStr "active")
    then CText [Lit "[green]"; Fmt status_value] else CValue status_value in
  rbind (getitems ["type"; "value"] item) (fun type_value =>
  let type_str :=
    if py_eqb type_value (VStr "INTERNAL")
    then CText [Lit "[blue]"; Fmt type_value]
    else CText [Lit "[cyan]"; Fmt type_value] in
  if negb internal && py_eqb type_value (VStr "INTERNAL")
  then Ok None
  else
    rbind (rbind (getitems ["local_ip"; "address"; "value"] item)
                 (str_concat "[magenta3]")) (fun local_ip =>
    rbind (getitems ["local_as"; "asn"; "value"] item) (fun local_as =>
    rbind (rbind (getitems ["remote_ip"; "address"; "value"] item)
                 (str_concat "[magenta3]")) (fun remote_ip =>
    rbind (getitems ["remote_as"; "asn"; "value"] item) (fun remote_as =>
    rbind (getitem "peer_group" item) (fun peer_group =>
    rbind (if truthy peer_group
           then rbind (getitems ["name"; "value"] peer_group)
                      (fun v => Ok (CValue v))
           else Ok (CStr "")) (fun peer_group_name =>
    rbind (getitems ["role"; "name"; "value"] item) (fun role =>
    rbind (getitem "id" item) (fun id =>
    Ok (Some [CStr device; CStr local_ip; CText [Fmt local_as];
              CStr remote_ip; CText [Fmt remote_as]; peer_group_name;
              status; CValue role; type_str; CShort id]))))))))))).

(** The loop over the sessions of a device: the rows of the table when it
    is over. *)
Fixpoint add_rows (internal : bool) (device : string) (items : list value)
    (table_rows : list (list cell)) : result (list (list cell)) :=
  match items with
  | [] => Ok table_rows
  | item :: items' =>
      rbind (bgp_session_row internal device item) (fun row =>
      add_rows internal device items'
        (match row with
         | Some r => table_rows ++ [r]
         | None => table_rows
         end))
  end.

(** The loop over the devices of _list_bgp_session: the rows of the table
    when it is over, or None when the function has returned from inside
    the loop. *)
Fixpoint list_devices (branch : string) (at_ : option string) (rebase internal : bool)
    (device_list : list string) (table_rows : list (list cell))
    : M W (option (list (list cell))) :=
  match device_list with
  | [] => ret (Some table_rows)
  | device :: device_list' =>
      response <- execute_query QUERY_GET_BGP_ALL branch at_ rebase
                    (Some [("device", VStr device)]) 10 [] ;;
      errors <- lift (py_get "errors" VNone response) ;;
      if truthy errors
      then
        errors <- lift (py_iter errors) ;;
        _ <- for_each errors
               (fun error (_ : unit) =>
                  m <- lift (getitem "message" error) ;;
                  emit (ELog [Fmt m])) tt ;;
        ret None
      else
        items <- lift (rbind (getitems ["data"; "bgp_session"] response) py_iter) ;;
        table_rows <- lift (add_rows internal device items table_rows) ;;
        list_devices branch at_ rebase internal device_list' table_rows
  end.



End Commands.

(** The requests posted and the lines printed, in order. *)
Fixpoint posted (t : list event) : list request :=
  match t with
  | [] => []
  | EPost r :: t' => r :: posted t'
  | _ :: t' => posted t'
  end.

Fixpoint printed (t : list event) : list message :=
  match t with
  | [] => []
  | EPrint m :: t' => m :: printed t'
  | _ :: t' => printed t'
  end.







(** The events of saving the startup config of one device. *)
Definition saved (branch : string) (device_name : value) (startup_config : string)
    : list event :=
  [EGet {| rfile_url := INFRAHUB_URL ++ "/rfile/" ++ "device_startup"
                        ++ "?branch=" ++ branch;
           rfile_params := [("device", device_name)] |};
   EWrite (config_location device_name) startup_config;
   EPrint ([Lit "Saved new config file for '"; Fmt device_name; Lit "' in '"]
           ++ config_location device_name
           ++ [Lit "' (branch '"; Fmt (VStr branch); Lit "')"])].

(** For each of the devices, one after the other, the name is read, the
    source of truth serves a text and the file is written: [files] holds
    the names and the texts. *)
Inductive saves {W : Type}
    (http_get_text : rfile_request -> W -> result string * W)
    (write_file : message -> string -> W -> result unit * W)
    (branch : string) : W -> list value -> list (value * string) -> W -> Prop :=
| saves_nil (w : W) : saves http_get_text write_file branch w [] [] w
| saves_cons (w w1 w2 w' : W) (device device_name : value) (text : string)
    (devices : list value) (files : list (value * string)) :
    rbind (getitem "name" device) (getitem "value") = Ok device_name ->
    http_get_text
      {| rfile_url := INFRAHUB_URL ++ "/rfile/" ++ "device_startup"
                      ++ "?branch=" ++ branch;
         rfile_params := [("device", device_name)] |} w = (Ok text, w1) ->
    write_file (config_location device_name) text w1 = (Ok tt, w2) ->
    saves http_get_text write_file branch w2 devices files w' ->
    saves http_get_text write_file branch w (device :: devices)
      ((device_name, text) :: files) w'.

End Reports.

(* --------------------------------------------------------------------- *)
(* 12. A scripted outside world for the commands that report and save     *)
(* --------------------------------------------------------------------- *)

Module ReportScript.

(** Each collaborator answers with the next entry of its script. *)
Record world : Type := mk_world {
  posts : list (result value);
  texts : list (result string);
  writes : list (result unit)
}.

Definition http_post (_ : Reports.request) (w : world) : result value * world :=
  match posts w with
  | [] => (Raise HTTPError, w)
  | r :: rest => (r, {| posts := rest; texts := texts w; writes := writes w |})
  end.

Definition http_get_text (_ : Reports.rfile_request) (w : world) : result string * world :=
  match texts w with
  | [] => (Raise HTTPError, w)
  | r :: rest => (r, {| posts := posts w; texts := rest; writes := writes w |})
  end.

Definition write_file (_ : message) (_ : string) (w : world) : result unit * world :=
  match writes w with
  | [] => (Ok tt, w)
  | r :: rest => (r, {| posts := posts w; texts := texts w; writes := rest |})
  end.

Definition active_branch (w : world) : result string * world := (Ok "main"%string, w).

(** A stand-in for [difflib.ndiff]: the lines of the first text as removed,
    those of the second as added. *)
Definition ndiff (a b : list string) : list string :=
  map (fun l => ("- " ++ l)%string) a ++ map (fun l => ("+ " ++ l)%string) b.

Definition quiet : world := {| posts := []; texts := []; writes := [] |}.


(** The description of an interface is updated. *)
Definition description_updated : world :=
  {| posts := [Ok Examples.interface_reply; Ok Cases.mutation_reply];
     texts := [];
     writes := [] |}.

(** The source of truth knows two devices and serves a text for each. *)
Definition two_devices_reply : value :=
  VDict [("data", VDict [("device", VList
    [VDict [("name", VDict [("value", VStr "atl1-edge1")])];
     VDict [("name", VDict [("value", VStr "atl1-edge2")])]])])].

Definition two_devices : world :=
  {| posts := [Ok two_devices_reply];
     texts := [Ok "hostname atl1-edge1"%string; Ok "hostname atl1-edge2"%string];
     writes := [] |}.

(** As [two_devices], but the text of the second device cannot be
    fetched. *)
Definition second_fetch_fails : world :=
  {| posts := [Ok two_devices_reply];
     texts := [Ok "hostname atl1-edge1"%string; Raise HTTPError];
     writes := [] |}.







End ReportScript.

(* ===================================================================== *)
(* Properties                                                             *)
(* ===================================================================== *)

(* --------------------------------------------------------------------- *)
(* Strings and the pattern                                                *)
(* --------------------------------------------------------------------- *)

Lemma str_app_cons (x : ascii) (a b : string) :
  (String x a ++ b = String x (a ++ b))%string.
Proof. reflexivity. Qed.

Lemma str_app_nil (b : string) : ("" ++ b = b)%string.
Proof. reflexivity. Qed.

Lemma str_app_assoc (a b c : string) : ((a ++ b) ++ c = a ++ (b ++ c))%string.
Proof.
  induction a as [|x a IH]; [reflexivity|].
  rewrite !str_app_cons. now rewrite IH.
Qed.

Lemma strip_prefix_app (p s r : string) :
  strip_prefix p s = Some r -> s = (p ++ r)%string.
Proof.
  revert s. induction p as [|a p IH]; intros s H.
  - destruct s; simpl in H; injection H as <-; reflexivity.
  - destruct s as [|b s]; simpl in H; [discriminate|].
    destruct (Ascii.eqb_spec a b) as [->|]; [|discriminate].
    rewrite str_app_cons. f_equal. now apply IH.
Qed.

Lemma prefix_app (n b : string) : String.prefix n (n ++ b) = true.
Proof.
  induction n as [|a n IH].
  - now destruct b.
  - rewrite str_app_cons. simpl.
    destruct (ascii_dec a a); [exact IH | congruence].
Qed.

Lemma str_contains_unfold (n h : string) :
  str_contains n h =
  if String.prefix n h then true
  else match h with
       | "" => false
       | String _ r => str_contains n r
       end.
Proof. destruct h; reflexivity. Qed.

Lemma str_contains_app (n a b : string) : str_contains n (a ++ n ++ b) = true.
Proof.
  induction a as [|c a IH].
  - rewrite str_app_nil, str_contains_unfold. now rewrite prefix_app.
  - rewrite str_app_cons, str_contains_unfold.
    destruct (String.prefix n _); [reflexivity | exact IH].
Qed.

Lemma prefix_true (n h : string) :
  String.prefix n h = true -> exists b, h = (n ++ b)%string.
Proof.
  revert h. induction n as [|a n IH]; intros h H.
  - now exists h.
  - destruct h as [|b h]; simpl in H; [discriminate|].
    destruct (ascii_dec a b) as [->|]; [|discriminate].
    destruct (IH _ H) as (r & ->). now exists r.
Qed.

(** [str_contains] is the substring test. *)
Lemma str_contains_spec (n h : string) :
  str_contains n h = true <-> exists a b, h = (a ++ n ++ b)%string.
Proof.
  split; [|intros (a & b & ->); apply str_contains_app].
  induction h as [|c h IH]; rewrite str_contains_unfold.
  - destruct (String.prefix n "") eqn:E; [|discriminate].
    intros _. destruct (prefix_true _ _ E) as (b & ->). now exists "", b.
  - destruct (String.prefix n (String c h)) eqn:E.
    + intros _. destruct (prefix_true _ _ E) as (b & ->). now exists "", b.
    + intros H. destruct (IH H) as (a & b & ->). now exists (String c a), b.
Qed.

Lemma str_contains_false (n h : string) :
  str_contains n h = false <-> forall a b, h <> (a ++ n ++ b)%string.
Proof.
  split.
  - intros H a b ->. now rewrite str_contains_app in H.
  - intros H. destruct (str_contains n h) eqn:E; [|reflexivity].
    apply str_contains_spec in E as (a & b & ->). now destruct (H a b).
Qed.

Lemma regex_search_unfold (s : string) :
  regex_search s =
  match match_here s with
  | Some g => Some g
  | None => match s with
            | "" => None
            | String _ r => regex_search r
            end
  end.
Proof. destruct s; reflexivity. Qed.

(** A match can only start where the literal head of the pattern stands. *)
Lemma regex_search_Some (p g : string) :
  regex_search p = Some g -> exists a r, p = (a ++ segment_open ++ r)%string.
Proof.
  induction p as [|c p IH]; rewrite regex_search_unfold; unfold match_here.
  - simpl. discriminate.
  - destruct (strip_prefix segment_open (String c p)) as [rest|] eqn:E.
    + intros _. exists "", rest. rewrite str_app_nil.
      apply strip_prefix_app. exact E.
    + intros H. destruct (IH H) as (a & r & ->). exists (String c a), r.
      now rewrite str_app_cons.
Qed.

Lemma regex_search_no_segment (p : string) :
  str_contains "neighbor-address=" p = false -> regex_search p = None.
Proof.
  intros H. destruct (regex_search p) as [g|] eqn:E; [|reflexivity].
  destruct (regex_search_Some _ _ E) as (a & r & ->).
  change segment_open with ("[" ++ "neighbor-address=")%string in H.
  rewrite (str_app_assoc "[" "neighbor-address=" r) in H.
  rewrite <- (str_app_assoc a "[" _) in H.
  now rewrite str_contains_app in H.
Qed.

(* --------------------------------------------------------------------- *)
(* The extractor                                                          *)
(* --------------------------------------------------------------------- *)

Lemma scan_items_last (its : list (string * value)) (cfg : value) :
  scan_items its cfg =
  match last (config_items its) with
  | Some kv => snd kv
  | None => cfg
  end.
Proof.
  revert cfg. induction its as [|[k v] its IH]; intros cfg; simpl; [reflexivity|].
  destruct (str_contains ":config" k).
  - rewrite last_cons, IH. now destruct (last (config_items its)).
  - apply IH.
Qed.

(** C9: with the path matched and [val] a mapping, the extractor returns the
    value of the last key, in iteration order, whose name holds [":config"]
    (a later key overwrites an earlier one), and None for the config when
    no key holds it; it does not fail. *)
Theorem extract_config_last_match (session : value) (p sid : string)
    (its : list (string * value)) :
  py_get "path" VNone session = Ok (VStr p) ->
  regex_search p = Some sid ->
  py_get "val" VNone session = Ok (VDict its) ->
  extract_config_from_device_session session =
    Ok {| neighbor_address := sid;
          config := match last (config_items its) with
                    | Some kv => snd kv
                    | None => VNone
                    end |}.
Proof.
  intros Hp Hs Hv. unfold extract_config_from_device_session.
  rewrite Hp. simpl. rewrite Hs, Hv. simpl. now rewrite scan_items_last.
Qed.

Lemma extract_config_last_match_witness :
  extract_config_from_device_session
    (Scripted.neighbor_update "bgp/neighbors/neighbor[neighbor-address=10.0.0.1]"
       [("openconfig-network-instance:config", VInt 1);
        ("openconfig-network-instance:state", VInt 2);
        ("arista-bgp-augments:config", VInt 3)])
  = Ok {| neighbor_address := "10.0.0.1"; config := VInt 3 |}
  /\ extract_config_from_device_session
       (Scripted.neighbor_update "bgp/neighbors/neighbor[neighbor-address=10.0.0.1]"
          [("openconfig-network-instance:state", VInt 2)])
     = Ok {| neighbor_address := "10.0.0.1"; config := VNone |}.
Proof.
  split.
  - apply (extract_config_last_match _
             "bgp/neighbors/neighbor[neighbor-address=10.0.0.1]" "10.0.0.1"
             [("openconfig-network-instance:config", VInt 1);
              ("openconfig-network-instance:state", VInt 2);
              ("arista-bgp-augments:config", VInt 3)]); reflexivity.
  - apply (extract_config_last_match _
             "bgp/neighbors/neighbor[neighbor-address=10.0.0.1]" "10.0.0.1"
             [("openconfig-network-instance:state", VInt 2)]); reflexivity.
Defined.

Lemma strip_prefix_self (p r : string) : strip_prefix p (p ++ r) = Some r.
Proof.
  induction p as [|a p IH]; [now destruct r|].
  rewrite str_app_cons. simpl. now rewrite Ascii.eqb_refl.
Qed.

Lemma str_mem_app (c : ascii) (a b : string) :
  str_mem c (a ++ b) = str_mem c a || str_mem c b.
Proof.
  induction a as [|d a IH]; [reflexivity|].
  rewrite str_app_cons. cbn [str_mem]. now rewrite IH, orb_assoc.
Qed.

Lemma dot_star_line (s : string) : str_mem newline s = false -> dot_star s = s.
Proof.
  induction s as [|c s IH]; [reflexivity|].
  cbn [str_mem dot_star]. intros H. apply orb_false_iff in H as [H1 H2].
  rewrite Ascii.eqb_sym in H1. now rewrite H1, IH.
Qed.

Lemma before_last_rbracket_none (s : string) :
  str_mem rbracket s = false -> before_last_rbracket s = None.
Proof.
  induction s as [|c s IH]; [reflexivity|].
  cbn [str_mem before_last_rbracket]. intros H. apply orb_false_iff in H as [H1 H2].
  rewrite Ascii.eqb_sym in H1. now rewrite H1, IH.
Qed.

Lemma before_last_rbracket_closing (x post : string) :
  str_mem rbracket post = false ->
  before_last_rbracket (x ++ String rbracket post) = Some x.
Proof.
  intros H. induction x as [|c x IH].
  - rewrite str_app_nil. cbn [before_last_rbracket].
    now rewrite (before_last_rbracket_none _ H), Ascii.eqb_refl.
  - rewrite str_app_cons. cbn [before_last_rbracket]. now rewrite IH.
Qed.

(** The head of the pattern cannot start inside [q] and run over into a
    second head: it starts with the only opening bracket it holds. *)
Lemma segment_open_no_overlap (q t r : string) :
  q <> "" ->
  strip_prefix segment_open (q ++ segment_open ++ t) = Some r ->
  String.prefix segment_open q = true.
Proof.
  unfold segment_open. intros Hq H.
  destruct q as [|c q]; [congruence|]. clear Hq.
  rewrite str_app_cons in H. cbn [strip_prefix] in H.
  destruct (Ascii.eqb_spec "[" c) as [<-|]; [|discriminate H].
  do 17 (destruct q as [|? q];
         [ rewrite ?str_app_nil, ?str_app_cons in H; cbn in H; discriminate H
         | rewrite ?str_app_cons in H; cbn [strip_prefix] in H;
           match type of H with
           | (if Ascii.eqb ?a ?b then _ else _) = _ =>
               destruct (Ascii.eqb_spec a b) as [<-|]; [|discriminate H]
           end ]).
  apply (prefix_app "[neighbor-address=" q).
Qed.

(** Where the code does return the address of the segment: the segment is
    the first of its kind, and no closing bracket and no newline follow
    it. *)
Lemma regex_search_closing_segment (pre x post : string) :
  str_contains segment_open pre = false ->
  str_mem newline x = false ->
  str_mem newline post = false ->
  str_mem rbracket post = false ->
  regex_search (pre ++ segment_open ++ x ++ String rbracket post) = Some x.
Proof.
  intros Hpre Hx Hn Hb.
  assert (Hhere : match_here (segment_open ++ x ++ String rbracket post) = Some x).
  { unfold match_here. rewrite strip_prefix_self, dot_star_line.
    - now apply before_last_rbracket_closing.
    - rewrite str_mem_app, Hx. cbn [str_mem orb]. now rewrite Hn. }
  induction pre as [|c pre IH].
  - rewrite str_app_nil, regex_search_unfold. now rewrite Hhere.
  - rewrite str_contains_unfold in Hpre.
    destruct (String.prefix segment_open (String c pre)) eqn:Ep; [discriminate|].
    rewrite str_app_cons, regex_search_unfold. unfold match_here at 1.
    destruct (strip_prefix segment_open (String c (pre ++ _))) as [r|] eqn:E.
    + rewrite <- str_app_cons in E.
      apply segment_open_no_overlap in E; [congruence | discriminate].
    + now apply IH.
Qed.

Lemma extract_address_closing_segment (session : value) (pre x post : string)
    (its : list (string * value)) :
  py_get "path" VNone session
    = Ok (VStr (pre ++ segment_open ++ x ++ String rbracket post)) ->
  py_get "val" VNone session = Ok (VDict its) ->
  str_contains segment_open pre = false ->
  str_mem newline x = false ->
  str_mem newline post = false ->
  str_mem rbracket post = false ->
  exists cfg,
    extract_config_from_device_session session
    = Ok {| neighbor_address := x; config := cfg |}.
Proof.
  intros Hp Hv H1 H2 H3 H4. eexists.
  unfold extract_config_from_device_session. rewrite Hp. simpl.
  rewrite (regex_search_closing_segment _ _ _ H1 H2 H3 H4), Hv. reflexivity.
Qed.

(** C4, the code at a path with a keyed segment after the neighbour's: the
    group runs on to the last closing bracket of the path, and the address
    returned is not the value of the neighbor-address segment. *)
Theorem extract_address_overruns_segment :
  extract_config_from_device_session
    (Scripted.neighbor_update
       "bgp/neighbors/neighbor[neighbor-address=10.0.0.1]/afi-safis/afi-safi[afi-safi-name=IPV4_UNICAST]"
       [("openconfig-network-instance:config", VDict [("enabled", VBool true)])])
  = Ok {| neighbor_address := "10.0.0.1]/afi-safis/afi-safi[afi-safi-name=IPV4_UNICAST";
          config := VDict [("enabled", VBool true)] |}.
Proof. reflexivity. Qed.

Lemma extract_no_segment (session : value) (p : string) :
  py_get "path" VNone session = Ok (VStr p) ->
  str_contains "neighbor-address=" p = false ->
  extract_config_from_device_session session = Raise AttributeError.
Proof.
  intros Hp Hn. unfold extract_config_from_device_session.
  rewrite Hp. simpl. now rewrite (regex_search_no_segment _ Hn).
Qed.

(* --------------------------------------------------------------------- *)
(* Running a computation                                                  *)
(* --------------------------------------------------------------------- *)

Section Runs.

Context {W : Type}.

Lemma bind_inv {A B} (m : M W A) (k : A -> M W B) (w : W) r w' t :
  bind m k w = (r, w', t) ->
  (exists e, m w = (Raise e, w', t) /\ r = Raise e) \/
  (exists a w1 t1 t2,
      m w = (Ok a, w1, t1) /\ k a w1 = (r, w', t2) /\ t = t1 ++ t2).
Proof.
  unfold bind. destruct (m w) as [[[a|e] w1] t1].
  - destruct (k a w1) as [[r2 w2] t2] eqn:E. intros [= <- <- <-].
    right. exists a, w1, t1, t2. auto.
  - intros [= <- <- <-]. left. exists e. auto.
Qed.

Lemma bind_ok_inv {A B} (m : M W A) (k : A -> M W B) (w : W) b w' t :
  bind m k w = (Ok b, w', t) ->
  exists a w1 t1 t2,
    m w = (Ok a, w1, t1) /\ k a w1 = (Ok b, w', t2) /\ t = t1 ++ t2.
Proof.
  intros H. destruct (bind_inv _ _ _ _ _ _ H) as [(e & _ & ?)|?]; [discriminate | assumption].
Qed.

Lemma bind_ok {A B} (m : M W A) (k : A -> M W B) (w w1 : W) a t1 :
  m w = (Ok a, w1, t1) ->
  bind m k w = (let '(r, w2, t2) := k a w1 in (r, w2, t1 ++ t2)).
Proof. intros H. unfold bind. rewrite H. reflexivity. Qed.

Lemma bind_raise {A B} (m : M W A) (k : A -> M W B) (w w1 : W) e t1 :
  m w = (Raise e, w1, t1) -> bind m k w = (Raise e, w1, t1).
Proof. intros H. unfold bind. now rewrite H. Qed.

(** What holds of the events of every pass of a loop body holds of the
    events of the loop, however it ends. *)
Lemma for_each_events {X L} (P : event -> Prop) (body : X -> L -> M W L)
    (xs : list X) :
  (forall x l w r w' t, In x xs -> body x l w = (r, w', t) -> Forall P t) ->
  forall l w r w' t, for_each xs body l w = (r, w', t) -> Forall P t.
Proof.
  induction xs as [|x xs IH]; intros Hb l w r w' t H; simpl in H.
  - injection H as <- <- <-. constructor.
  - destruct (bind_inv _ _ _ _ _ _ H) as [(e & H1 & _)|(a & w1 & t1 & t2 & H1 & H2 & ->)].
    + eapply Hb; [left; reflexivity | exact H1].
    + apply Forall_app. split.
      * eapply Hb; [left; reflexivity | exact H1].
      * eapply IH; [|exact H2]. intros; eapply Hb; [right|]; eassumption.
Qed.

End Runs.

(* --------------------------------------------------------------------- *)
(* The two loops of the comparison                                        *)
(* --------------------------------------------------------------------- *)

Section Comparison.

Context {W : Type}.
Variable gnmi_set : set_request -> W -> result value * W.

Lemma same_frame_refl l : same_frame l l.
Proof. repeat split. Qed.

Lemma same_frame_trans l1 l2 l3 :
  same_frame l1 l2 -> same_frame l2 l3 -> same_frame l1 l3.
Proof. unfold same_frame. intuition congruence. Qed.

(** One push: the set request, then the log line. *)
Lemma push_run (i : session_config) (m : string -> message) (l : locals) (w : W) :
  (r <- gc_set gnmi_set (update_for i) ;;
   _ <- console_log (m (neighbor_address i)) ;;
   ret (with_result r l)) w =
  match gnmi_set (set_of (update_for i)) w with
  | (Ok v, w1) => (Ok (with_result v l), w1, push_events i m)
  | (Raise x, w1) => (Raise x, w1, [EGnmiSet (set_of (update_for i))])
  end.
Proof.
  unfold bind, gc_set, call, console_log, emit, ret.
  destruct (gnmi_set _ w) as [[v|x] w1]; reflexivity.
Qed.

Lemma on_existing_run (i e : session_config) (l : locals) (w : W) :
  on_existing gnmi_set i e l w =
  if hit i e then
    match gnmi_set (set_of (update_for i)) w with
    | (Ok v, w1) =>
        (Ok (with_result v (with_update (update_for i) (with_found true l))),
         w1, push_events i msg_updated)
    | (Raise x, w1) => (Raise x, w1, [EGnmiSet (set_of (update_for i))])
    end
  else (Ok (if same_address i e then with_found true l else l), w, []).
Proof.
  unfold on_existing, hit, same_address.
  destruct (String.eqb _ _); simpl; [|reflexivity].
  destruct (py_neb _ _); [|reflexivity].
  apply push_run.
Qed.

(** The inner loop, when no push fails. *)
Lemma inner_ok (i : session_config) (actual : list session_config) :
  forall l w l' w' t,
    for_each actual (on_existing gnmi_set i) l w = (Ok l', w', t) ->
    t = flat_map (fun e => if hit i e then push_events i msg_updated else []) actual
    /\ found l' = found l || found_after i actual
    /\ is_set (update l') = is_set (update l) || existsb (hit i) actual
    /\ same_frame l l'.
Proof.
  induction actual as [|e actual IH]; intros l w l' w' t H; simpl in H.
  - injection H as <- <- <-. simpl. rewrite !orb_false_r. auto using same_frame_refl.
  - apply bind_ok_inv in H as (l1 & w1 & t1 & t2 & H1 & H2 & ->).
    rewrite on_existing_run in H1.
    apply IH in H2 as (-> & Hf & Hu & Hfr).
    simpl. unfold found_after in *. simpl.
    destruct (hit i e) eqn:Hh.
    + destruct (gnmi_set _ w) as [[v|x] w2]; [|discriminate].
      injection H1 as <- <- <-.
      unfold hit in Hh. apply andb_true_iff in Hh as [Hs _]. rewrite Hs.
      simpl in *. rewrite Hf, Hu, !orb_true_r.
      repeat split; try reflexivity; apply Hfr.
    + injection H1 as <- <- <-. simpl.
      destruct (same_address i e); simpl in *; rewrite Hf, Hu;
        repeat split; try reflexivity; try apply Hfr.
      now rewrite orb_true_r.
Qed.


Lemma on_intended_ok (i : session_config) (l : locals) (w : W) l' w' t :
  on_intended gnmi_set i l w = (Ok l', w', t) ->
  t = pushes_for (device_bgp_config l) i
  /\ is_set (update l') = is_set (update l) || needs_push (device_bgp_config l) i
  /\ same_frame l l'.
Proof.
  unfold on_intended. intros H.
  apply bind_ok_inv in H as (l1 & w1 & t1 & t2 & H1 & H2 & ->).
  apply inner_ok in H1 as (-> & Hf & Hu & Hfr). simpl in Hf, Hu, Hfr.
  unfold pushes_for, needs_push, is_updated, is_missing.
  change (device_bgp_config (with_found false l)) with (device_bgp_config l).
  rewrite <- Hf.
  assert (Hfr' : same_frame l l1) by exact Hfr.
  destruct (found l1) eqn:Hfd; simpl in H2.
  - injection H2 as <- <- <-. rewrite Hu, orb_false_r. auto.
  - rewrite push_run in H2.
    destruct (gnmi_set _ w1) as [[v|x] w2]; [|discriminate].
    injection H2 as <- <- <-. simpl. rewrite !orb_true_r.
    repeat split; try reflexivity; apply Hfr'.
Qed.

(** The outer loop, when no push fails. *)
Lemma outer_ok (intended : list session_config) :
  forall l w l' w' t,
    for_each intended (on_intended gnmi_set) l w = (Ok l', w', t) ->
    t = planned intended (device_bgp_config l)
    /\ is_set (update l') =
       is_set (update l) || existsb (needs_push (device_bgp_config l)) intended
    /\ same_frame l l'.
Proof.
  induction intended as [|i intended IH]; intros l w l' w' t H; simpl in H.
  - injection H as <- <- <-. simpl. rewrite orb_false_r. auto using same_frame_refl.
  - apply bind_ok_inv in H as (l1 & w1 & t1 & t2 & H1 & H2 & ->).
    apply on_intended_ok in H1 as (-> & Hu1 & Hfr1).
    apply IH in H2 as (-> & Hu2 & Hfr2).
    destruct Hfr1 as (Ha & Hb & Hc). rewrite Hb in *.
    unfold planned. simpl. rewrite Hu2, Hu1, orb_assoc.
    repeat split; try reflexivity.
    + destruct Hfr2 as (? & _ & _). congruence.
    + destruct Hfr2 as (_ & ? & _). congruence.
    + destruct Hfr2 as (_ & _ & ?). congruence.
Qed.

(** The comparison of a pass, when no push fails: the pushes in the order
    of the intended collection and then, when there was none, the closing
    line; the two collections are as they were handed in. *)
Lemma compare_and_push_ok (intended actual : list session_config) (w : W) l' w' t :
  compare_and_push gnmi_set intended actual w = (Ok l', w', t) ->
  t = planned intended actual
      ++ (if existsb (needs_push actual) intended then [] else [ELog msg_all_present])
  /\ infrahub_bgp_config l' = intended
  /\ device_bgp_config l' = actual.
Proof.
  unfold compare_and_push. intros H.
  apply bind_ok_inv in H as (l1 & w1 & t1 & t2 & H1 & H2 & ->).
  apply outer_ok in H1 as (-> & Hu & (Ha & Hb & Hc)). simpl in *.
  rewrite Hc in H2. simpl in H2.
  destruct (update l1) as [u|]; simpl in *.
  - injection H2 as <- <- <-. rewrite <- Hu. auto.
  - unfold bind, console_log, emit, ret in H2. injection H2 as <- <- <-.
    rewrite <- Hu. auto.
Qed.


Lemma push_events_of (intended : list session_config) (i : session_config)
    (m : string -> message) :
  In i intended -> (m = msg_updated \/ m = msg_added) ->
  Forall (event_of intended) (push_events i m).
Proof.
  intros Hi Hm. unfold push_events.
  constructor; [|constructor; [|constructor]]; right; exists i; split; auto.
  destruct Hm as [-> | ->]; auto.
Qed.

Lemma failed_set_event_of (intended : list session_config) (i : session_config) :
  In i intended ->
  Forall (event_of intended) [EGnmiSet (set_of (update_for i))].
Proof.
  intros Hi. constructor; [|constructor]. right. exists i. auto.
Qed.

Lemma push_run_events (intended : list session_config) (i : session_config)
    (m : string -> message) (l : locals) (w : W) r w' t :
  In i intended -> (m = msg_updated \/ m = msg_added) ->
  (r <- gc_set gnmi_set (update_for i) ;;
   _ <- console_log (m (neighbor_address i)) ;;
   ret (with_result r l)) w = (r, w', t) ->
  Forall (event_of intended) t.
Proof.
  intros Hi Hm. rewrite push_run.
  destruct (gnmi_set _ w) as [[v|x] w1]; intros [= <- <- <-].
  - now apply push_events_of.
  - now apply failed_set_event_of.
Qed.

Lemma on_intended_events (intended : list session_config) (i : session_config)
    (l : locals) (w : W) r w' t :
  In i intended ->
  on_intended gnmi_set i l w = (r, w', t) ->
  Forall (event_of intended) t.
Proof.
  intros Hi H. unfold on_intended in H.
  apply bind_inv in H as [(e & H1 & _)|(l1 & w1 & t1 & t2 & H1 & H2 & ->)].
  - revert H1. apply for_each_events. intros x l0 w0 r0 w0' t0 _.
    rewrite on_existing_run. destruct (hit i x).
    + destruct (gnmi_set _ w0) as [[v|y] w2]; intros [= <- <- <-].
      * apply push_events_of; auto.
      * now apply failed_set_event_of.
    + intros [= <- <- <-]. constructor.
  - apply Forall_app. split.
    + revert H1. apply for_each_events. intros x l0 w0 r0 w0' t0 _.
      rewrite on_existing_run. destruct (hit i x).
      * destruct (gnmi_set _ w0) as [[v|y] w2]; intros [= <- <- <-].
        -- apply push_events_of; auto.
        -- now apply failed_set_event_of.
      * intros [= <- <- <-]. constructor.
    + destruct (found l1); simpl in H2.
      * injection H2 as <- <- <-. constructor.
      * eapply push_run_events; [exact Hi | | exact H2]. auto.
Qed.

Lemma compare_and_push_events (intended actual : list session_config) (w : W)
    r w' t :
  compare_and_push gnmi_set intended actual w = (r, w', t) ->
  Forall (event_of intended) t.
Proof.
  unfold compare_and_push. intros H.
  assert (Hl : forall l0 w0 r0 w0' t0,
    for_each intended (on_intended gnmi_set) l0 w0 = (r0, w0', t0) ->
    Forall (event_of intended) t0).
  { apply for_each_events. intros x l0 w0 r0 w0' t0 Hx.
    now apply on_intended_events. }
  apply bind_inv in H as [(e & H1 & _)|(l1 & w1 & t1 & t2 & H1 & H2 & ->)].
  - eapply Hl, H1.
  - apply Forall_app. split; [eapply Hl, H1|].
    destruct (negb _ && negb _).
    + unfold bind, console_log, emit, ret in H2. injection H2 as <- <- <-.
      constructor; [now left | constructor].
    + injection H2 as <- <- <-. constructor.
Qed.

(** When no existing session is a hit, the inner loop pushes nothing and
    cannot fail. *)
Lemma inner_quiet (i : session_config) (actual : list session_config) :
  existsb (hit i) actual = false ->
  forall l w,
    for_each actual (on_existing gnmi_set i) l w =
    (Ok (if found_after i actual then with_found true l else l), w, []).
Proof.
  induction actual as [|e actual IH]; intros Hh l w; [reflexivity|].
  simpl in Hh. apply orb_false_iff in Hh as [He Hh]. simpl.
  erewrite bind_ok; [|rewrite on_existing_run, He; reflexivity].
  rewrite (IH Hh). unfold found_after. simpl.
  destruct (same_address i e); simpl; [|reflexivity].
  now destruct (existsb (same_address i) actual).
Qed.

(** When every intended session is found and none is a hit, the outer loop
    pushes nothing, cannot fail, and leaves [update] and [create] as they
    were. *)
Lemma outer_quiet (actual intended : list session_config) :
  (forall i, In i intended ->
     found_after i actual = true /\ existsb (hit i) actual = false) ->
  forall l w, device_bgp_config l = actual ->
    exists l', for_each intended (on_intended gnmi_set) l w = (Ok l', w, [])
      /\ update l' = update l /\ create l' = create l.
Proof.
  induction intended as [|i intended IH]; intros Hq l w Hl.
  - exists l. auto.
  - destruct (Hq i (or_introl eq_refl)) as [Hf Hh].
    assert (H1 : on_intended gnmi_set i l w = (Ok (with_found true l), w, [])).
    { unfold on_intended. simpl. rewrite Hl.
      erewrite bind_ok; [|apply inner_quiet, Hh]. rewrite Hf. reflexivity. }
    destruct (IH (fun j Hj => Hq j (or_intror Hj)) (with_found true l) w Hl)
      as (l' & H2 & Hu & Hc).
    exists l'. simpl. erewrite bind_ok; [|exact H1]. rewrite H2. auto.
Qed.

End Comparison.

(* --------------------------------------------------------------------- *)
(* The classification                                                     *)
(* --------------------------------------------------------------------- *)

Lemma elem_of_class (p : session_config -> bool) (intended : list session_config)
    (a : string) :
  a ∈ (list_to_set (addresses (List.filter p intended)) : gset string) <->
  exists i, In i intended /\ p i = true /\ neighbor_address i = a.
Proof.
  rewrite elem_of_list_to_set, list_elem_of_In. unfold addresses.
  rewrite in_map_iff. split.
  - intros (i & Ha & Hi). apply filter_In in Hi as [Hi Hp]. eauto.
  - intros (i & Hi & Hp & Ha). exists i. split; [exact Ha|].
    apply filter_In. auto.
Qed.

Lemma found_after_address (i j : session_config) (actual : list session_config) :
  neighbor_address i = neighbor_address j ->
  found_after i actual = found_after j actual.
Proof.
  intros H. unfold found_after, same_address. now rewrite H.
Qed.

Lemma is_updated_found (i : session_config) (actual : list session_config) :
  is_updated actual i = true -> found_after i actual = true.
Proof.
  unfold is_updated, found_after. rewrite !existsb_exists.
  intros (e & He & Hh). exists e. split; [exact He|].
  unfold hit in Hh. now apply andb_true_iff in Hh as [? _].
Qed.

Lemma one_outcome (actual : list session_config) (i : session_config) :
  is_matched actual i || is_updated actual i || is_missing actual i = true.
Proof.
  unfold is_matched, is_updated, is_missing.
  destruct (found_after i actual), (existsb (hit i) actual); reflexivity.
Qed.

Lemma NoDup_addresses_inj (l : list session_config) (i j : session_config) :
  NoDup (addresses l) -> In i l -> In j l ->
  neighbor_address i = neighbor_address j -> i = j.
Proof.
  unfold addresses. induction l as [|x l IH]; simpl; [tauto|].
  rewrite NoDup_cons, list_elem_of_In, in_map_iff.
  intros [Hx Hnd] [->|Hi] [->|Hj] Ha; auto.
  - exfalso. apply Hx. eauto.
  - exfalso. apply Hx. eauto.
Qed.


(** The three sets cover the intended addresses and nothing else. *)
Lemma classes_cover (intended actual : list session_config) (a : string) :
  In a (addresses intended) <->
  a ∈ matched intended actual ∪ updated intended actual ∪ missing intended actual.
Proof.
  unfold matched, updated, missing.
  rewrite !elem_of_union, !elem_of_class. unfold addresses. rewrite in_map_iff.
  split.
  - intros (i & Ha & Hi). pose proof (one_outcome actual i) as Ho.
    apply orb_true_iff in Ho as [Ho|Ho]; [apply orb_true_iff in Ho as [Ho|Ho]|]; eauto 8.
  - intros [[(i & ? & _ & ?)|(i & ? & _ & ?)]|(i & ? & _ & ?)]; eauto.
Qed.

Lemma updated_missing_disjoint (intended actual : list session_config) :
  updated intended actual ## missing intended actual.
Proof.
  intros a. unfold updated, missing. rewrite !elem_of_class.
  intros (i & _ & Hu & Hi) (j & _ & Hm & Hj).
  apply is_updated_found in Hu. unfold is_missing in Hm.
  rewrite (found_after_address i j) in Hu by congruence.
  rewrite Hu in Hm. discriminate.
Qed.

Lemma matched_missing_disjoint (intended actual : list session_config) :
  matched intended actual ## missing intended actual.
Proof.
  intros a. unfold matched, missing. rewrite !elem_of_class.
  intros (i & _ & Hu & Hi) (j & _ & Hm & Hj).
  unfold is_matched in Hu. apply andb_true_iff in Hu as [Hu _].
  unfold is_missing in Hm.
  rewrite (found_after_address i j) in Hu by congruence.
  rewrite Hu in Hm. discriminate.
Qed.

Lemma matched_updated_disjoint (intended actual : list session_config) :
  NoDup (addresses intended) ->
  matched intended actual ## updated intended actual.
Proof.
  intros Hnd a. unfold matched, updated. rewrite !elem_of_class.
  intros (i & Hi & Hm & Hai) (j & Hj & Hu & Haj).
  assert (i = j) as -> by (apply (NoDup_addresses_inj intended); congruence).
  unfold is_matched, is_updated in *. rewrite Hu in Hm.
  apply andb_true_iff in Hm as [_ Hm]. discriminate.
Qed.

(* --------------------------------------------------------------------- *)
(* The pushes of a pass                                                   *)
(* --------------------------------------------------------------------- *)

Lemma set_requests_app (t1 t2 : list event) :
  set_requests (t1 ++ t2) = set_requests t1 ++ set_requests t2.
Proof.
  induction t1 as [|ev t1 IH]; simpl; [reflexivity|].
  destruct ev; simpl; now rewrite ?IH.
Qed.







(* --------------------------------------------------------------------- *)
(* The order of the device's sessions                                     *)
(* --------------------------------------------------------------------- *)





(* --------------------------------------------------------------------- *)
(* Paths and log lines name one address                                   *)
(* --------------------------------------------------------------------- *)

Lemma str_app_inv_head (p x y : string) : (p ++ x = p ++ y)%string -> x = y.
Proof.
  induction p as [|c p IH]; [now rewrite !str_app_nil|].
  rewrite !str_app_cons. intros [= H]. now apply IH.
Qed.

Lemma str_app_inv_last (c : ascii) (x y : string) :
  (x ++ String c "" = y ++ String c "")%string -> x = y.
Proof.
  revert y. induction x as [|a x IH]; intros [|b y].
  - reflexivity.
  - rewrite str_app_nil, str_app_cons. intros [= _ H]. now destruct y.
  - rewrite str_app_nil, str_app_cons. intros [= _ H]. now destruct x.
  - rewrite !str_app_cons. intros [= -> H]. f_equal. now apply IH.
Qed.

Lemma session_path_inj (a b : string) : session_path a = session_path b -> a = b.
Proof.
  unfold session_path. intros H.
  apply str_app_inv_head, str_app_inv_head in H.
  now apply str_app_inv_last in H.
Qed.

Lemma in_planned (ev : event) (intended actual : list session_config) :
  In ev (planned intended actual) <->
  exists i, In i intended /\ In ev (pushes_for actual i).
Proof. unfold planned. apply in_flat_map. Qed.

Lemma updated_logged (a : string) (actual : list session_config) (i : session_config) :
  In (ELog (msg_updated a)) (pushes_for actual i) <->
  is_updated actual i = true /\ neighbor_address i = a.
Proof.
  unfold pushes_for, is_updated. rewrite in_app_iff, in_flat_map, existsb_exists.
  split.
  - intros [(e & He & Hin)|Hin].
    + destruct (hit i e) eqn:Hh; [|destruct Hin].
      destruct Hin as [Hin|[Hin|[]]]; [discriminate|].
      injection Hin as ->. eauto.
    + destruct (found_after i actual); [destruct Hin|].
      destruct Hin as [Hin|[Hin|[]]]; discriminate.
  - intros [(e & He & Hh) <-]. left. exists e. split; [exact He|].
    rewrite Hh. right. now left.
Qed.

Lemma added_logged (a : string) (actual : list session_config) (i : session_config) :
  In (ELog (msg_added a)) (pushes_for actual i) <->
  is_missing actual i = true /\ neighbor_address i = a.
Proof.
  unfold pushes_for, is_missing. rewrite in_app_iff, in_flat_map.
  split.
  - intros [(e & He & Hin)|Hin].
    + destruct (hit i e) eqn:Hh; [|destruct Hin].
      destruct Hin as [Hin|[Hin|[]]]; discriminate.
    + destruct (found_after i actual); [destruct Hin|].
      destruct Hin as [Hin|[Hin|[]]]; [discriminate|].
      injection Hin as ->. auto.
  - intros [Hf <-]. right. destruct (found_after i actual); [discriminate|].
    right. now left.
Qed.

(** What a pass without failure logs is the classification. *)
Lemma logs_are_classes {W} (gnmi_set : set_request -> W -> result value * W)
    (intended actual : list session_config) (w : W) l' w' t (a : string) :
  compare_and_push gnmi_set intended actual w = (Ok l', w', t) ->
  (In (ELog (msg_updated a)) t <-> a ∈ updated intended actual)
  /\ (In (ELog (msg_added a)) t <-> a ∈ missing intended actual).
Proof.
  intros H. apply compare_and_push_ok in H as (-> & _ & _).
  unfold updated, missing. rewrite !elem_of_class, !in_app_iff, !in_planned.
  split; split.
  - intros [(i & Hi & Hin)|Hin].
    + apply updated_logged in Hin as [? ?]. eauto.
    + destruct (existsb _ intended); [destruct Hin|].
      destruct Hin as [Hin|[]]. discriminate.
  - intros (i & Hi & Hu & Ha). left. exists i. split; [exact Hi|].
    now apply updated_logged.
  - intros [(i & Hi & Hin)|Hin].
    + apply added_logged in Hin as [? ?]. eauto.
    + destruct (existsb _ intended); [destruct Hin|].
      destruct Hin as [Hin|[]]. discriminate.
  - intros (i & Hi & Hu & Ha). left. exists i. split; [exact Hi|].
    now apply added_logged.
Qed.

(* --------------------------------------------------------------------- *)
(* The comparison and its pushes                                          *)
(* --------------------------------------------------------------------- *)

(** Closes [NoDup l] for a list of string literals. *)
Ltac distinct_strings :=
  repeat (apply NoDup_cons_2;
          [ let H := fresh "H" in
            intros H;
            repeat (apply elem_of_cons in H as [H|H]; [discriminate H|]);
            now apply elem_of_nil in H
          | ]);
  apply NoDup_nil_2.

Lemma set_event_of (intended : list session_config) (req : set_request) :
  event_of intended (EGnmiSet req) ->
  exists i, In i intended /\
    req = {| set_delete := []; set_replace := [];
             set_update := [(session_path (neighbor_address i),
                             VDict [("config", config i)])] |}.
Proof.
  intros [H|(i & Hi & [H|[H|H]])]; try discriminate.
  injection H as ->. now exists i.
Qed.

(** C2, for intended collections with pairwise distinct addresses: the
    comparison puts every intended address in exactly one of matched,
    updated and missing (three disjoint sets that cover the intended
    addresses and nothing else); an address only the device has is in none
    of them; every request of a pass, however the pass ends, is an update
    of the path of an intended session with that session's config, without
    deletion or replacement, so no request names an address only the device
    has; and the UPDATED and ADDED lines of a pass without failure are the
    updated and the missing set. *)
Theorem comparison_partitions_intended (intended actual : list session_config) :
  NoDup (addresses intended) ->
  (forall a, In a (addresses intended) <->
     a ∈ matched intended actual ∪ updated intended actual ∪ missing intended actual)
  /\ matched intended actual ## updated intended actual
  /\ matched intended actual ## missing intended actual
  /\ updated intended actual ## missing intended actual
  /\ (forall a, In a (addresses actual) -> ~ In a (addresses intended) ->
        a ∉ matched intended actual ∪ updated intended actual ∪ missing intended actual)
  /\ (forall W (gnmi_set : set_request -> W -> result value * W) w r w' t req,
        compare_and_push gnmi_set intended actual w = (r, w', t) ->
        In (EGnmiSet req) t ->
        exists i, In i intended /\
          req = {| set_delete := []; set_replace := [];
                   set_update := [(session_path (neighbor_address i),
                                   VDict [("config", config i)])] |})
  /\ (forall W (gnmi_set : set_request -> W -> result value * W) w r w' t req a u,
        compare_and_push gnmi_set intended actual w = (r, w', t) ->
        In a (addresses actual) -> ~ In a (addresses intended) ->
        In (EGnmiSet req) t ->
        set_delete req = [] /\
        (In u (set_replace req ++ set_update req) -> fst u <> session_path a))
  /\ (forall W (gnmi_set : set_request -> W -> result value * W) w l' w' t a,
        compare_and_push gnmi_set intended actual w = (Ok l', w', t) ->
        (In (ELog (msg_updated a)) t <-> a ∈ updated intended actual)
        /\ (In (ELog (msg_added a)) t <-> a ∈ missing intended actual)).
Proof.
  intros Hnd.
  assert (Hreq : forall W (gnmi_set : set_request -> W -> result value * W)
                   w r w' t req,
    compare_and_push gnmi_set intended actual w = (r, w', t) ->
    In (EGnmiSet req) t ->
    exists i, In i intended /\
      req = {| set_delete := []; set_replace := [];
               set_update := [(session_path (neighbor_address i),
                               VDict [("config", config i)])] |}).
  { intros W gnmi_set w r w' t req H Hin.
    apply compare_and_push_events in H.
    rewrite List.Forall_forall in H. apply set_event_of. now apply H. }
  repeat split.
  - apply classes_cover.
  - apply classes_cover.
  - now apply matched_updated_disjoint.
  - apply matched_missing_disjoint.
  - apply updated_missing_disjoint.
  - intros a _ Hn Hin. apply Hn. now apply (classes_cover intended actual).
  - exact Hreq.
  - destruct (Hreq _ _ _ _ _ _ _ H H2) as (i & Hi & ->). reflexivity.
  - destruct (Hreq _ _ _ _ _ _ _ H H2) as (i & Hi & ->). simpl.
    intros [<-|[]] Hp. simpl in Hp. apply session_path_inj in Hp.
    apply H1. unfold addresses. apply in_map_iff. eauto.
  - eapply logs_are_classes; eassumption.
  - eapply logs_are_classes; eassumption.
  - eapply logs_are_classes; eassumption.
  - eapply logs_are_classes; eassumption.
Qed.

Lemma comparison_partitions_intended_witness :
  NoDup (addresses [Examples.at1 65001; Examples.at2 65002; Examples.at3 65003])
  /\ matched [Examples.at1 65001; Examples.at2 65002; Examples.at3 65003]
             [Examples.at1 65001; Examples.at2 65009]
     ## updated [Examples.at1 65001; Examples.at2 65002; Examples.at3 65003]
                [Examples.at1 65001; Examples.at2 65009].
Proof.
  assert (H : NoDup (addresses [Examples.at1 65001; Examples.at2 65002;
                                Examples.at3 65003])).
  { unfold addresses. simpl. distinct_strings. }
  split; [exact H|].
  exact (proj1 (proj2
    (comparison_partitions_intended _ [Examples.at1 65001; Examples.at2 65009] H))).
Defined.

(** C2 as stated fails when two intended sessions share an address: with
    the first as on the device and the second not, the address is matched
    by the one and updated by the other. *)
Lemma comparison_overlaps_on_duplicate_address :
  ~ (matched [Examples.at1 65001; Examples.at1 65002] [Examples.at1 65001]
     ## updated [Examples.at1 65001; Examples.at1 65002] [Examples.at1 65001])
  /\ (exists l, Scripted.run_compare [Examples.at1 65001; Examples.at1 65002]
                                     [Examples.at1 65001] Scripted.quiet
       = (Ok l, Scripted.quiet,
          [EGnmiSet (set_of (update_for (Examples.at1 65002)));
           ELog (msg_updated "10.0.0.1")])).
Proof.
  split.
  - intros H. apply (H "10.0.0.1"); unfold matched, updated; apply elem_of_class.
    + exists (Examples.at1 65001). repeat split. now left.
    + exists (Examples.at1 65002). repeat split. right. now left.
  - eexists. reflexivity.
Qed.






(* --------------------------------------------------------------------- *)
(* A pass of the loop, and the loop                                       *)
(* --------------------------------------------------------------------- *)

Lemma map_result_app_raise {X Y} (f : X -> result Y) (pre post : list X) (x : X)
    (ys : list Y) (e : exn) :
  map_result f pre = Ok ys -> f x = Raise e ->
  map_result f (pre ++ x :: post) = Raise e.
Proof.
  revert ys. induction pre as [|p pre IH]; intros ys Hpre Hx; simpl.
  - now rewrite Hx.
  - simpl in Hpre. destruct (f p) as [y|e']; simpl in *; [|discriminate].
    destruct (map_result f pre) as [ys'|e']; simpl in *; [|discriminate].
    now rewrite (IH ys').
Qed.


Section Passes.

Context {W : Type}.
Variables ARISTA_PORT ARISTA_USERNAME ARISTA_PASSWORD : string.
Variable http_get_neighbors : get_request -> W -> result (list session_config) * W.
Variable gnmi_connect : device_conn -> W -> result unit * W.
Variable gnmi_get : list string -> string -> W -> result value * W.
Variable gnmi_set : set_request -> W -> result value * W.
Variables mgmt_ip_address device : string.
Variable interval : Z.

Let conn : device_conn :=
  {| target := (mgmt_ip_address, ARISTA_PORT);
     username := ARISTA_USERNAME;
     password := ARISTA_PASSWORD;
     insecure := true |}.

Let pass : M W unit :=
  cycle ARISTA_PORT ARISTA_USERNAME ARISTA_PASSWORD
    http_get_neighbors gnmi_connect gnmi_get gnmi_set
    mgmt_ip_address device interval.

Let loop (n : nat) : M W unit :=
  manage_loop ARISTA_PORT ARISTA_USERNAME ARISTA_PASSWORD
    http_get_neighbors gnmi_connect gnmi_get gnmi_set
    n mgmt_ip_address device interval.

(** The events of a pass up to the comparison. *)
Let fetched : list event :=
  [EGet (neighbors_request device); EGnmiOpen conn;
   EGnmiGet [OC_BGP_NEIGHBOR_PATH] "json_ietf"].

(** A pass whose two fetches succeed. *)
Lemma pass_fetched (w w1 w2 w3 : W) (intended : list session_config)
    (response : value) :
  http_get_neighbors (neighbors_request device) w = (Ok intended, w1) ->
  gnmi_connect conn w1 = (Ok tt, w2) ->
  gnmi_get [OC_BGP_NEIGHBOR_PATH] "json_ietf" w2 = (Ok response, w3) ->
  pass w =
  match rbind (device_sessions_of response)
              (map_result extract_config_from_device_session) with
  | Raise e => (Raise e, w3, fetched ++ [EGnmiClose])
  | Ok actual =>
      match compare_and_push gnmi_set intended actual w3 with
      | (Ok _, w4, t) => (Ok tt, w4, fetched ++ t ++ [EGnmiClose; ESleep interval])
      | (Raise e, w4, t) => (Raise e, w4, fetched ++ t ++ [EGnmiClose])
      end
  end.
Proof.
  intros H1 H2 H3. unfold pass, cycle, get_bgp_neighbor_config, with_gnmi, gc_get.
  fold conn. unfold bind at 1. unfold call at 1.
  rewrite H1. unfold bind at 1. unfold bind at 1. unfold call at 1. rewrite H2.
  unfold bind at 1. unfold call at 1. rewrite H3.
  unfold bind at 1. unfold lift at 1.
  destruct (device_sessions_of response) as [sessions|e]; simpl; [|reflexivity].
  unfold bind at 1. unfold lift at 1.
  destruct (map_result _ sessions) as [actual|e]; simpl; [|reflexivity].
  destruct (compare_and_push gnmi_set intended actual w3) as [[[l|e] w4] t];
    simpl; unfold emit; simpl; [|reflexivity].
  now rewrite <- !app_assoc.
Qed.


(** A comparison in which every intended session is found and none is a
    hit pushes nothing and logs the closing line. *)
Lemma compare_quiet (intended actual : list session_config) (w : W) :
  (forall i, In i intended ->
     found_after i actual = true /\ existsb (hit i) actual = false) ->
  exists l', compare_and_push gnmi_set intended actual w
             = (Ok l', w, [ELog msg_all_present]).
Proof.
  intros Hq. unfold compare_and_push.
  destruct (outer_quiet gnmi_set actual intended Hq
              {| infrahub_bgp_config := intended; device_bgp_config := actual;
                 update := None; create := []; found := false;
                 result_var := None |} w eq_refl) as (l' & H & Hu & Hc).
  exists l'. simpl in *. erewrite bind_ok; [|exact H]. rewrite Hu, Hc. reflexivity.
Qed.


(** C5, as the code has it: an update whose path holds no
    [neighbor-address=] makes the extractor raise AttributeError (the
    absent match has no group), and a pass that meets such an update, the
    ones before it being extracted, ends with that error after closing
    the connection: no set request, no sleep, and the loop is left. *)
Theorem missing_segment_raises (session : value) (p : string) :
  py_get "path" VNone session = Ok (VStr p) ->
  (forall a b, p <> (a ++ "neighbor-address=" ++ b)%string) ->
  extract_config_from_device_session session = Raise AttributeError
  /\ forall (w w1 w2 w3 : W) (intended before : list session_config)
        (response : value) (pre post : list value) (n : nat),
      http_get_neighbors (neighbors_request device) w = (Ok intended, w1) ->
      gnmi_connect conn w1 = (Ok tt, w2) ->
      gnmi_get [OC_BGP_NEIGHBOR_PATH] "json_ietf" w2 = (Ok response, w3) ->
      device_sessions_of response = Ok (pre ++ session :: post) ->
      map_result extract_config_from_device_session pre = Ok before ->
      loop (S n) w =
        (Raise AttributeError, w3,
         [EGet (neighbors_request device); EGnmiOpen conn;
          EGnmiGet [OC_BGP_NEIGHBOR_PATH] "json_ietf"; EGnmiClose]).
Proof.
  intros Hp Hn. apply str_contains_false in Hn.
  pose proof (extract_no_segment _ _ Hp Hn) as He.
  split; [exact He|].
  intros w w1 w2 w3 intended before response pre post n H1 H2 H3 H4 H5.
  unfold loop. simpl. apply bind_raise. fold pass.
  rewrite (pass_fetched _ _ _ _ _ _ H1 H2 H3), H4. simpl.
  now rewrite (map_result_app_raise _ _ _ _ _ _ H5 He).
Qed.






End Passes.

(** The whole command on a settled device, for one pass. *)
Example manage_bgp_session_settled :
  Scripted.run_manage 1 Examples.settled_from_start
  = (Ok tt, Scripted.quiet,
     [ELog [Lit "-- Manage BGP Sessions for '"; Fmt (VStr "atl1-edge1");
            Lit "' (interval: "; Fmt (VInt 10); Lit ") --"];
      EPost (graphql_post QUERY_GET_DEVICE_MANAGEMENT_IP "main" None false
               [("device", VStr "atl1-edge1")] 10 []);
      EGet (neighbors_request "atl1-edge1");
      EGnmiOpen {| target := ("172.20.20.17", "6030"); username := "admin";
                   password := "admin"; insecure := true |};
      EGnmiGet [OC_BGP_NEIGHBOR_PATH] "json_ietf";
      ELog msg_all_present; EGnmiClose; ESleep 10]).
Proof. reflexivity. Qed.


Lemma missing_segment_raises_witness :
  extract_config_from_device_session Examples.stray = Raise AttributeError.
Proof.
  refine (proj1 (missing_segment_raises "6030" "admin" "admin"
    Scripted.http_get_neighbors Scripted.gnmi_connect Scripted.gnmi_get
    Scripted.gnmi_set "172.20.20.17" "atl1-edge1" 10 Examples.stray
    "network-instances/network-instance[name=default]/protocols/protocol[name=BGP]/bgp/global"
    _ _)); [reflexivity | apply str_contains_false; reflexivity].
Defined.

(** C5 as stated fails: the error is the AttributeError of the absent
    match, and it is not confined to the pass; the loop, asked for three
    passes with answers ready for each, is left in the first, before any
    sleep. *)
Lemma stray_update_ends_the_loop :
  extract_config_from_device_session Examples.stray = Raise AttributeError
  /\ exists w,
       Scripted.run_loop 3 Examples.stray_reported
       = (Raise AttributeError, w,
          [EGet (neighbors_request "atl1-edge1");
           EGnmiOpen {| target := ("172.20.20.17", "6030"); username := "admin";
                        password := "admin"; insecure := true |};
           EGnmiGet [OC_BGP_NEIGHBOR_PATH] "json_ietf";
           EGnmiClose])
       /\ Scripted.neighbors w = [Ok [Examples.at1 65001]; Ok [Examples.at1 65001]].
Proof.
  split; [reflexivity|]. eexists. split; reflexivity.
Qed.



(* --------------------------------------------------------------------- *)
(* The branch-scoped changes                                              *)
(* --------------------------------------------------------------------- *)

Section AdminStatus.

Context {W : Type}.
Variable http_post : post_request -> W -> result value * W.
Variable uuid4 : W -> string * W.
Variables device interface branch : string.
Variables (w w1 w2 w3 : W) (r1 r2 : value) (iid u : string) (st : value).

Let q_interface : post_request :=
  graphql_post QUERY_GET_INTERFACE branch None false
    [("device", VStr device); ("interface", VStr interface)] 10 [].
Let new_branch : string := ("update-intf-" ++ str_take 8 u)%string.
Let q_create : post_request :=
  graphql_post BRANCH_CREATE_DATA_ONLY "main" None false
    [("branch", VStr new_branch)] 60 [].
Let q_mutation : post_request :=
  graphql_post INTERFACE_UPDATE_ADMIN_STATUS new_branch None false
    [("interface_id", VStr iid); ("admin_status", VBool (negb (truthy st)))] 10 [].
Let q_merge : post_request :=
  graphql_post BRANCH_MERGE "main" None false [("branch", VStr new_branch)] 60 [].

Hypothesis interface_answered : http_post q_interface w = (Ok r1, w1).
Hypothesis interface_id_read :
  rbind (first_interface r1) (getitem "id") = Ok (VStr iid).
Hypothesis interface_status_read :
  rbind (first_interface r1) (fun i =>
    rbind (getitem "enabled" i) (getitem "value")) = Ok st.
Hypothesis uuid_drawn : uuid4 w1 = (u, w2).
Hypothesis branch_answered : http_post q_create w2 = (Ok r2, w3).

(** The command up to the mutation, and what follows. *)
Lemma change_admin_status_run :
  _change_admin_status http_post uuid4 device interface branch w =
  match http_post q_mutation w3 with
  | (Raise e, w4) =>
      (Raise e, w4,
       [EPost q_interface;
        EPrint [Lit "Interface '"; Fmt (VStr interface); Lit "' (";
                Fmt (VStr (str_take 8 iid)); Lit ") on '"; Fmt (VStr device);
                Lit "', is currently '";
                Fmt (VStr (if truthy st then "enabled" else "disabled")); Lit "'"];
        EPost q_create;
        EPrint [Lit "Created the branch '"; Fmt (VStr new_branch);
                Lit "' for this change"];
        EPost q_mutation])
  | (Ok r3, w4) =>
      match (response <- execute_query http_post BRANCH_MERGE "main" None false
                           [("branch", VStr new_branch)] 60 [] ;;
             _ <- report_merge response (
                    id8 <- lift (slice8 (VStr iid)) ;;
                    console_print [Lit "[green]SUCCESS[/] Interface '";
                                   Fmt (VStr interface); Lit "' ("; Fmt id8;
                                   Lit ") on '"; Fmt (VStr device);
                                   Lit "' successfully updated"]) ;;
             ret VNone) w4 with
      | (r, w5, t) =>
          (r, w5,
           [EPost q_interface;
            EPrint [Lit "Interface '"; Fmt (VStr interface); Lit "' (";
                    Fmt (VStr (str_take 8 iid)); Lit ") on '"; Fmt (VStr device);
                    Lit "', is currently '";
                    Fmt (VStr (if truthy st then "enabled" else "disabled")); Lit "'"];
            EPost q_create;
            EPrint [Lit "Created the branch '"; Fmt (VStr new_branch);
                    Lit "' for this change"];
            EPost q_mutation;
            EPrint [Lit "Updated the admin status of the interface to ";
                    Fmt (VBool (negb (truthy st))); Lit " in "; Fmt (VStr new_branch)]]
           ++ t)
      end
  end.
Proof.
  unfold _change_admin_status.
  erewrite bind_ok;
    [|unfold execute_query, call; fold q_interface; rewrite interface_answered; reflexivity].
  rewrite interface_id_read, interface_status_read.
  unfold lift at 1. unfold bind at 1. unfold lift at 1. unfold bind at 1.
  unfold slice8 at 1. unfold lift at 1. unfold bind at 1.
  unfold console_print at 1, emit at 1. unfold bind at 1.
  unfold random_uuid at 1. unfold bind at 1. rewrite uuid_drawn.
  fold new_branch.
  unfold execute_query at 1, call at 1. unfold bind at 1. fold q_create.
  rewrite branch_answered.
  unfold console_print at 1, emit at 1. unfold bind at 1.
  unfold execute_query at 1, call at 1. unfold bind at 1. fold q_mutation.
  destruct (http_post q_mutation w3) as [[r3|e] w4]; [|reflexivity].
  unfold console_print at 1, emit at 1. unfold bind at 1.
  destruct (bind _ _ w4) as [[r w5] t]. reflexivity.
Qed.

(** When the post of the mutation itself raises (a transport error, a
    status that [raise_for_status] refuses), the command stops there: no
    merge is posted. *)
Lemma no_merge_after_failed_post (e : exn) (w4 : W) :
  http_post q_mutation w3 = (Raise e, w4) ->
  exists t,
    _change_admin_status http_post uuid4 device interface branch w = (Raise e, w4, t)
    /\ posts_of BRANCH_MERGE t = [].
Proof.
  intros H. rewrite change_admin_status_run, H. eexists. split; reflexivity.
Qed.

(** When the post of the mutation is answered, the merge is posted next,
    whatever the answer holds. *)
Lemma merge_posted_whatever_the_answer (r3 : value) (w4 : W) :
  http_post q_mutation w3 = (Ok r3, w4) ->
  exists r w5 t,
    _change_admin_status http_post uuid4 device interface branch w = (r, w5, t)
    /\ In (EPost q_merge) t.
Proof.
  intros H. rewrite change_admin_status_run, H.
  unfold execute_query at 1, call at 1. unfold bind at 1. fold q_merge.
  destruct (http_post q_merge w4) as [[r4|e] w5].
  - destruct (bind _ _ w5) as [[r w6] t]. exists r, w6. eexists. split; [reflexivity|].
    apply in_app_iff. right. now left.
  - do 3 eexists. split; [reflexivity|]. apply in_app_iff. right. now left.
Qed.

End AdminStatus.

(** C1, the code where the mutation on the new branch is answered with
    errors: the answer is not looked at, the merge of the branch is posted
    all the same, and the success line is printed. *)
Theorem merge_posted_after_refused_mutation :
  exists w,
    _change_admin_status Scripted.http_post Scripted.uuid4
      "atl1-edge1" "Ethernet1" "main" Examples.mutation_refused
    = (Ok VNone, w,
       [EPost (graphql_post QUERY_GET_INTERFACE "main" None false
                 [("device", VStr "atl1-edge1"); ("interface", VStr "Ethernet1")] 10 []);
        EPrint [Lit "Interface '"; Fmt (VStr "Ethernet1"); Lit "' (";
                Fmt (VStr "0a1b2c3d"); Lit ") on '"; Fmt (VStr "atl1-edge1");
                Lit "', is currently '"; Fmt (VStr "enabled"); Lit "'"];
        EPost (graphql_post BRANCH_CREATE_DATA_ONLY "main" None false
                 [("branch", VStr "update-intf-1b4e28ba")] 60 []);
        EPrint [Lit "Created the branch '"; Fmt (VStr "update-intf-1b4e28ba");
                Lit "' for this change"];
        EPost (graphql_post INTERFACE_UPDATE_ADMIN_STATUS "update-intf-1b4e28ba"
                 None false
                 [("interface_id", VStr "0a1b2c3d-4e5f-4a6b-8c7d-9e0f1a2b3c4d");
                  ("admin_status", VBool false)] 10 []);
        EPrint [Lit "Updated the admin status of the interface to ";
                Fmt (VBool false); Lit " in "; Fmt (VStr "update-intf-1b4e28ba")];
        EPost (graphql_post BRANCH_MERGE "main" None false
                 [("branch", VStr "update-intf-1b4e28ba")] 60 []);
        EPrint [Lit "[green]SUCCESS[/] Interface '"; Fmt (VStr "Ethernet1");
                Lit "' ("; Fmt (VStr "0a1b2c3d"); Lit ") on '";
                Fmt (VStr "atl1-edge1"); Lit "' successfully updated"]])
    /\ Scripted.posts w = [].
Proof. eexists. split; reflexivity. Qed.

(** C10: when the status the source of truth reports for the circuit
    equals the one asked for, the command returns False after its one
    query: it prints that there is nothing to do, posts nothing else (no
    branch creation, no mutation, no merge), and leaves the outer state as
    the query left it. *)
Theorem circuit_status_already_set {W}
    (http_post : post_request -> W -> result value * W) (uuid4 : W -> string * W)
    (circuit status branch : string) (w w1 : W) (response current : value)
    (cid : string) :
  http_post (graphql_post QUERY_GET_CIRCUIT branch None false
               [("circuit", VStr circuit)] 10 []) w = (Ok response, w1) ->
  rbind (first_circuit response) (getitem "id") = Ok (VStr cid) ->
  rbind (first_circuit response) (fun c =>
    rbind (getitem "status" c) (fun s =>
    rbind (getitem "name" s) (getitem "value"))) = Ok current ->
  py_eqb current (VStr status) = true ->
  exists t,
    _change_circuit_status http_post uuid4 circuit status branch w
    = (Ok (VBool false), w1, t)
    /\ t = [EPost (graphql_post QUERY_GET_CIRCUIT branch None false
                     [("circuit", VStr circuit)] 10 []);
            EPrint [Lit "Circuit '"; Fmt (VStr circuit); Lit "' (";
                    Fmt (VStr (str_take 8 cid)); Lit ") status is already '";
                    Fmt current; Lit "', nothing to do"]]
    /\ posts_of BRANCH_CREATE_DATA_ONLY t = []
    /\ posts_of CIRCUIT_UPDATE_STATUS t = []
    /\ posts_of BRANCH_MERGE t = [].
Proof.
  intros H1 H2 H3 H4. eexists. split; [|split; [reflexivity|]].
  - unfold _change_circuit_status, execute_query.
    erewrite bind_ok; [|unfold call; rewrite H1; reflexivity].
    rewrite H2. unfold lift at 1. unfold bind at 1.
    rewrite H3. unfold lift at 1. unfold bind at 1.
    rewrite H4. reflexivity.
  - repeat split; reflexivity.
Qed.

Lemma circuit_status_already_set_witness :
  exists t,
    _change_circuit_status Scripted.http_post Scripted.uuid4
      "DUFF-1543451" "active" "main" Examples.circuit_active
    = (Ok (VBool false),
       {| Scripted.posts := [Ok Examples.branch_reply; Ok Examples.merge_reply];
          Scripted.neighbors := [];
          Scripted.connects := [];
          Scripted.gets := [];
          Scripted.sets := [];
          Scripted.uuids := ["1b4e28ba-2fa1-41d2-883f-0016d3cca427"] |}, t)
    /\ posts_of BRANCH_MERGE t = [].
Proof.
  destruct (circuit_status_already_set Scripted.http_post Scripted.uuid4
              "DUFF-1543451" "active" "main" Examples.circuit_active
              _ Examples.circuit_reply (VStr "active")
              "7c9e6679-7425-40de-944b-e07fc1f90ae7"
              eq_refl eq_refl eq_refl eq_refl) as (t & H & _ & _ & _ & Hm).
  exists t. split; [exact H | exact Hm].
Defined.

(* ===================================================================== *)
(* Further properties of the code                                         *)
(* ===================================================================== *)

(* --------------------------------------------------------------------- *)
(* The parameters of a request                                            *)
(* --------------------------------------------------------------------- *)

Lemma has_key_app (k : string) (a b : list (string * string)) :
  has_key k (a ++ b) = has_key k a || has_key k b.
Proof. unfold has_key. apply existsb_app. Qed.

(** X1: the request execute_query posts goes to the graphql endpoint of the
    branch; its parameters are the caller's, kept in place and never
    overwritten, followed only by entries for keys the caller did not give;
    "rebase" is always among them, with the text of the flag when the
    caller gave none; "at" is among them exactly when the caller's
    parameters hold it or a non-empty [at] was passed. *)
Theorem execute_query_params (query : document) (branch : string)
    (at_ : option string) (rebase : bool) (variables : list (string * value))
    (timeout : Z) (params : list (string * string)) :
  let r := graphql_post query branch at_ rebase variables timeout params in
  post_url r = (INFRAHUB_URL ++ "/graphql/" ++ branch)%string
  /\ (exists added, post_params r = params ++ added
        /\ Forall (fun kv => has_key (fst kv) params = false) added)
  /\ has_key "rebase" (post_params r) = true
  /\ (has_key "rebase" params = false ->
        In ("rebase", str_of_bool rebase) (post_params r))
  /\ (has_key "at" (post_params r) = true <->
        has_key "at" params = true \/ exists a, at_ = Some a /\ a <> ""%string).
Proof.
  cbn [graphql_post post_url post_params]. split; [reflexivity|].
  unfold query_params.
  set (p1 := match at_ with
             | Some a => if negb (String.eqb a "") && negb (has_key "at" params)
                         then params ++ [("at", a)] else params
             | None => params
             end).
  assert (H1 : exists added1, p1 = params ++ added1
             /\ Forall (fun kv => has_key (fst kv) params = false) added1
             /\ has_key "rebase" added1 = false
             /\ (has_key "at" p1 = true <->
                 has_key "at" params = true \/ exists a, at_ = Some a /\ a <> ""%string)).
  { subst p1. destruct at_ as [a|].
    - destruct (String.eqb_spec a "") as [->|Ha]; simpl.
      + exists []. rewrite app_nil_r. repeat split; auto.
        intros [H|(a & [= <-] & Ha)]; [exact H | congruence].
      + destruct (has_key "at" params) eqn:Hat; simpl.
        * exists []. rewrite app_nil_r. repeat split; auto.
        * exists [("at", a)]. repeat split; auto.
          -- intros _. right. now exists a.
          -- intros _. now rewrite has_key_app, Hat.
    - exists []. rewrite app_nil_r. repeat split; auto.
      intros [H|(a & [=] & _)]. exact H. }
  destruct H1 as (added1 & Hp1 & Hadd & Hreb & Hat).
  destruct (has_key "rebase" p1) eqn:Hr; simpl.
  - split; [exists added1; auto|]. split; [exact Hr|]. split; [|exact Hat].
    intros Hn. rewrite Hp1, has_key_app, Hn, Hreb in Hr. discriminate.
  - assert (Hrp : has_key "rebase" params = false).
    { rewrite Hp1, has_key_app in Hr. now apply orb_false_iff in Hr as [? _]. }
    split.
    { exists (added1 ++ [("rebase", str_of_bool rebase)]).
      split; [now rewrite Hp1, app_assoc|].
      apply Forall_app. split; [exact Hadd|]. constructor; [exact Hrp | constructor]. }
    split; [rewrite has_key_app; simpl; now rewrite orb_true_r|].
    split; [intros _; apply in_or_app; right; now left|].
    rewrite has_key_app. simpl. rewrite orb_false_r. exact Hat.
Qed.

(* --------------------------------------------------------------------- *)
(* The address the extractor returns                                      *)
(* --------------------------------------------------------------------- *)

Lemma before_last_rbracket_Some (s g : string) :
  before_last_rbracket s = Some g ->
  exists b, s = (g ++ String rbracket b)%string /\ str_mem rbracket b = false.
Proof.
  revert g. induction s as [|c s IH]; intros g H; [discriminate|].
  cbn [before_last_rbracket] in H.
  destruct (before_last_rbracket s) as [g'|] eqn:E.
  - injection H as <-. destruct (IH _ eq_refl) as (b & -> & Hb).
    exists b. now rewrite str_app_cons.
  - destruct (Ascii.eqb_spec c rbracket) as [->|]; [|discriminate].
    injection H as <-. exists s. split; [reflexivity|].
    destruct (str_mem rbracket s) eqn:Em; [|reflexivity].
    exfalso. clear IH. induction s as [|d s IHs]; [discriminate|].
    cbn [before_last_rbracket] in E. cbn [str_mem] in Em.
    destruct (before_last_rbracket s); [discriminate|].
    destruct (Ascii.eqb_spec d rbracket) as [->|Hd]; [discriminate|].
    apply orb_true_iff in Em as [Em|Em]; [|now apply IHs].
    apply Ascii.eqb_eq in Em. congruence.
Qed.

Lemma before_last_rbracket_app (a s g : string) :
  before_last_rbracket s = Some g ->
  before_last_rbracket (a ++ s) = Some (a ++ g)%string.
Proof.
  intros H. induction a as [|c a IH]; [exact H|].
  rewrite !str_app_cons. cbn [before_last_rbracket]. now rewrite IH.
Qed.

Lemma before_last_rbracket_mem (s : string) :
  str_mem rbracket s = true -> exists g, before_last_rbracket s = Some g.
Proof.
  intros H. destruct (before_last_rbracket s) as [g|] eqn:E; [now exists g|].
  exfalso. induction s as [|d s IH]; [discriminate|].
  cbn [before_last_rbracket] in E. cbn [str_mem] in H.
  destruct (before_last_rbracket s); [discriminate|].
  destruct (Ascii.eqb_spec d rbracket) as [->|Hd]; [discriminate|].
  apply orb_true_iff in H as [H|H]; [|now apply IH].
  apply Ascii.eqb_eq in H. congruence.
Qed.

(** The span of the greedy group: the text up to the first newline. *)
Lemma dot_star_split (s : string) :
  exists r, s = (dot_star s ++ r)%string
    /\ str_mem newline (dot_star s) = false
    /\ dot_star r = ""%string.
Proof.
  induction s as [|c s (r & Hs & Hn & Hr)]; [now exists ""%string|].
  cbn [dot_star]. destruct (Ascii.eqb_spec c newline) as [->|Hc].
  - exists (String newline s). repeat split.
  - exists r. rewrite str_app_cons. split; [now rewrite <- Hs|].
    split; [|exact Hr]. cbn [str_mem]. rewrite Hn, orb_false_r.
    apply Ascii.eqb_neq. congruence.
Qed.

Lemma dot_star_app (a b : string) :
  str_mem newline a = false -> dot_star (a ++ b) = (a ++ dot_star b)%string.
Proof.
  induction a as [|c a IH]; [reflexivity|].
  cbn [str_mem]. intros H. apply orb_false_iff in H as [H1 H2].
  rewrite !str_app_cons. cbn [dot_star]. rewrite Ascii.eqb_sym in H1.
  now rewrite H1, IH.
Qed.

Lemma str_mem_app_false (c : ascii) (a b : string) :
  str_mem c (a ++ b) = false -> str_mem c a = false /\ str_mem c b = false.
Proof. rewrite str_mem_app. apply orb_false_iff. Qed.

Lemma match_here_Some (s g : string) :
  match_here s = Some g ->
  exists b, s = (segment_open ++ g ++ String rbracket b)%string
    /\ str_mem newline g = false
    /\ str_mem rbracket (dot_star b) = false.
Proof.
  unfold match_here. destruct (strip_prefix segment_open s) as [rest|] eqn:E;
    [|discriminate].
  intros H. apply strip_prefix_app in E as ->.
  destruct (dot_star_split rest) as (r & Hrest & Hn & Hr).
  apply before_last_rbracket_Some in H as (b0 & Hd & Hb0).
  rewrite Hd in Hn. apply str_mem_app_false in Hn as [Hg Hn0].
  cbn [str_mem] in Hn0. apply orb_false_iff in Hn0 as [_ Hn0].
  exists (b0 ++ r)%string. split.
  - rewrite Hrest at 1. rewrite Hd, str_app_assoc, str_app_cons. reflexivity.
  - split; [exact Hg|]. rewrite (dot_star_app _ _ Hn0), Hr.
    rewrite str_mem_app, Hb0. reflexivity.
Qed.

Lemma regex_search_sound (p g : string) :
  regex_search p = Some g ->
  exists a b, p = (a ++ segment_open ++ g ++ String rbracket b)%string
    /\ str_mem newline g = false
    /\ str_mem rbracket (dot_star b) = false.
Proof.
  induction p as [|c p IH]; rewrite regex_search_unfold.
  - destruct (match_here "") as [g'|] eqn:E; [|discriminate].
    intros [= ->]. apply match_here_Some in E as (b & E & ?). now exists ""%string, b.
  - destruct (match_here (String c p)) as [g'|] eqn:E.
    + intros [= ->]. apply match_here_Some in E as (b & E & ?).
      now exists ""%string, b.
    + intros H. destruct (IH H) as (a & b & -> & ?).
      exists (String c a), b. now rewrite str_app_cons.
Qed.

(** X2: whatever the extractor returns as the address stands in the path of
    the update between the text [neighbor-address=] in brackets and a
    closing bracket; it holds no newline, and the closing bracket is the
    last of its line. *)
Theorem extract_address_in_path (session : value) (c : session_config) :
  extract_config_from_device_session session = Ok c ->
  exists p a b,
    py_get "path" VNone session = Ok (VStr p)
    /\ p = (a ++ "[neighbor-address=" ++ neighbor_address c ++ "]" ++ b)%string
    /\ str_mem newline (neighbor_address c) = false
    /\ str_mem rbracket (dot_star b) = false.
Proof.
  unfold extract_config_from_device_session.
  destruct (py_get "path" VNone session) as [v|e]; [|discriminate]. simpl.
  destruct v as [| | |p| |]; try discriminate.
  destruct (regex_search p) as [g|] eqn:E; [|discriminate].
  destruct (py_get "val" VNone session) as [v|e]; [|discriminate]. simpl.
  destruct (items v) as [its|e]; [|discriminate]. simpl.
  intros [= <-]. simpl.
  apply regex_search_sound in E as (a & b & -> & Hn & Hb).
  eexists. exists a, b. repeat split; assumption || reflexivity.
Qed.

Lemma extract_address_in_path_witness :
  exists p a b,
    py_get "path" VNone (Examples.reported "10.0.0.1" 65001) = Ok (VStr p)
    /\ p = (a ++ "[neighbor-address=" ++ "10.0.0.1" ++ "]" ++ b)%string
    /\ str_mem newline "10.0.0.1" = false
    /\ str_mem rbracket (dot_star b) = false.
Proof.
  exact (extract_address_in_path (Examples.reported "10.0.0.1" 65001)
           {| neighbor_address := "10.0.0.1"; config := Examples.peer 65001 |}
           eq_refl).
Defined.

(** The first place where the head of the pattern stands is where the
    search matches, when it matches there. *)
Lemma regex_search_first (pre rest g : string) :
  str_contains segment_open pre = false ->
  match_here (segment_open ++ rest) = Some g ->
  regex_search (pre ++ segment_open ++ rest) = Some g.
Proof.
  intros Hpre Hhere. induction pre as [|c pre IH].
  - rewrite str_app_nil, regex_search_unfold. now rewrite Hhere.
  - rewrite str_contains_unfold in Hpre.
    destruct (String.prefix segment_open (String c pre)) eqn:Ep; [discriminate|].
    rewrite str_app_cons, regex_search_unfold. unfold match_here at 1.
    destruct (strip_prefix segment_open (String c (pre ++ _))) as [r|] eqn:E.
    + rewrite <- str_app_cons in E.
      apply segment_open_no_overlap in E; [congruence | discriminate].
    + now apply IH.
Qed.

Lemma str_app_nil_r (a : string) : (a ++ "")%string = a.
Proof. induction a as [|c a IH]; [reflexivity|]. now rewrite str_app_cons, IH. Qed.

Lemma str_app_fixed (a s : string) : (a ++ s)%string = a -> s = ""%string.
Proof.
  induction a as [|c a IH]; [now rewrite str_app_nil|].
  rewrite str_app_cons. intros [= H]. now apply IH.
Qed.

(** The group at a segment with the value [x]: [x] itself, or [x] and the
    text up to the last closing bracket of the line. *)
Lemma match_here_segment (x post : string) :
  str_mem newline x = false ->
  match_here (segment_open ++ x ++ String rbracket post) =
  Some (match before_last_rbracket (dot_star post) with
        | Some g => (x ++ String rbracket g)%string
        | None => x
        end).
Proof.
  intros Hx. unfold match_here. rewrite strip_prefix_self, (dot_star_app _ _ Hx).
  cbn [dot_star]. change (Ascii.eqb rbracket newline) with false. cbv iota.
  destruct (before_last_rbracket (dot_star post)) as [g|] eqn:E.
  - apply before_last_rbracket_app. cbn [before_last_rbracket]. now rewrite E.
  - rewrite <- (str_app_nil_r x) at 2. apply before_last_rbracket_app.
    cbn [before_last_rbracket]. now rewrite E, Ascii.eqb_refl.
Qed.

(** X3: for an update whose path holds a neighbor-address segment with the
    value [x], no such segment before it, and whose [val] is a mapping, the
    extractor returns an address that starts with [x]; the address is [x]
    itself exactly when no closing bracket follows the segment on its
    line. *)
Theorem extract_address_exact (session : value) (pre x post : string)
    (its : list (string * value)) :
  py_get "path" VNone session
    = Ok (VStr (pre ++ "[neighbor-address=" ++ x ++ "]" ++ post)) ->
  py_get "val" VNone session = Ok (VDict its) ->
  str_contains "[neighbor-address=" pre = false ->
  str_mem newline x = false ->
  exists c,
    extract_config_from_device_session session = Ok c
    /\ (exists rest, neighbor_address c = (x ++ rest)%string)
    /\ (neighbor_address c = x <-> str_mem rbracket (dot_star post) = false).
Proof.
  intros Hp Hv Hpre Hx.
  pose proof (regex_search_first pre (x ++ String rbracket post) _ Hpre
                (match_here_segment x post Hx)) as Hs.
  eexists. split.
  { unfold extract_config_from_device_session.
    change ("[neighbor-address=" ++ x ++ "]" ++ post)%string
      with (segment_open ++ x ++ String rbracket post)%string in Hp.
    rewrite Hp. cbn [rbind]. rewrite Hs, Hv. reflexivity. }
  cbn [neighbor_address].
  destruct (before_last_rbracket (dot_star post)) as [g|] eqn:E.
  - split; [now exists (String rbracket g)|]. split.
    + intros H. apply str_app_fixed in H. discriminate.
    + intros H. now rewrite (before_last_rbracket_none _ H) in E.
  - split; [exists ""%string; now rewrite str_app_nil_r|]. split; [|reflexivity].
    intros _. destruct (str_mem rbracket (dot_star post)) eqn:Em; [|reflexivity].
    apply before_last_rbracket_mem in Em as (g & Hg). congruence.
Qed.

Lemma extract_address_exact_witness :
  (exists c,
     extract_config_from_device_session (Examples.reported "10.0.0.1" 65001) = Ok c
     /\ (exists rest, neighbor_address c = ("10.0.0.1" ++ rest)%string)
     /\ (neighbor_address c = "10.0.0.1"%string <->
         str_mem rbracket (dot_star "") = false))
  /\ (exists c,
     extract_config_from_device_session
       (Scripted.neighbor_update
          "bgp/neighbors/neighbor[neighbor-address=10.0.0.1]/afi-safis/afi-safi[afi-safi-name=IPV4_UNICAST]"
          [("openconfig-network-instance:config", VDict [("enabled", VBool true)])])
       = Ok c
     /\ (exists rest, neighbor_address c = ("10.0.0.1" ++ rest)%string)
     /\ (neighbor_address c = "10.0.0.1"%string <->
         str_mem rbracket
           (dot_star "/afi-safis/afi-safi[afi-safi-name=IPV4_UNICAST]") = false)).
Proof.
  split.
  - exact (extract_address_exact (Examples.reported "10.0.0.1" 65001)
             "network-instances/network-instance[name=default]/protocols/protocol[name=BGP]/bgp/neighbors/neighbor"
             "10.0.0.1" ""
             [("openconfig-network-instance:config", Examples.peer 65001);
              ("openconfig-network-instance:state", Examples.peer 65001)]
             eq_refl eq_refl eq_refl eq_refl).
  - exact (extract_address_exact
             (Scripted.neighbor_update
                "bgp/neighbors/neighbor[neighbor-address=10.0.0.1]/afi-safis/afi-safi[afi-safi-name=IPV4_UNICAST]"
                [("openconfig-network-instance:config", VDict [("enabled", VBool true)])])
             "bgp/neighbors/neighbor" "10.0.0.1"
             "/afi-safis/afi-safi[afi-safi-name=IPV4_UNICAST]"
             [("openconfig-network-instance:config", VDict [("enabled", VBool true)])]
             eq_refl eq_refl eq_refl eq_refl).
Defined.

(** X4: the extractor returns exactly when the update is a mapping whose
    path is a string in which the pattern matches and whose [val] is a
    mapping.  Otherwise it raises: TypeError exactly when the update is a
    mapping whose path is absent or not a string, and AttributeError in
    every other case (the update is no mapping, the pattern does not match,
    [val] is absent or no mapping). *)
Theorem extract_outcome (session : value) :
  ((exists c, extract_config_from_device_session session = Ok c) <->
   exists d p g its,
     session = VDict d /\ dict_get "path" d = Some (VStr p)
     /\ regex_search p = Some g /\ dict_get "val" d = Some (VDict its))
  /\ (extract_config_from_device_session session = Raise TypeError <->
      exists d, session = VDict d /\ forall p, dict_get "path" d <> Some (VStr p))
  /\ (forall e, extract_config_from_device_session session = Raise e ->
        e = TypeError \/ e = AttributeError).
Proof.
  unfold extract_config_from_device_session.
  destruct session as [| | | | |d]; simpl;
    try (split; [split; [intros (c & [=]) | intros (d & p & g & its & [=] & _)]
                |split; [split; [intros [=] | intros (d & [=] & _)]
                        |intros e [= <-]; now right]]).
  destruct (dict_get "path" d) as [v|] eqn:Ep.
  2:{ split; [split; [intros (c & [=]) | intros (d' & p & g & its & [= <-] & H & _);
                                          congruence]|].
      split; [split; [intros _; exists d; split; [reflexivity | congruence]
                     | reflexivity]|].
      intros e [= <-]. now left. }
  destruct v as [| | |p| |];
    try (split; [split; [intros (c & [=]) | intros (d' & p & g & its & [= <-] & H & _);
                                            congruence]|];
         split; [split; [intros _; exists d; split; [reflexivity | congruence]
                        | reflexivity]|];
         intros e [= <-]; now left).
  destruct (regex_search p) as [g|] eqn:Es.
  2:{ split; [split; [intros (c & [=])
                     | intros (d' & p' & g & its & [= <-] & H & H' & _); congruence]|].
      split; [split; [intros [=] | intros (d' & [= <-] & H); now destruct (H p)]|].
      intros e [= <-]. now right. }
  destruct (dict_get "val" d) as [v|] eqn:Ev.
  2:{ simpl. split; [split; [intros (c & [=])
                     | intros (d' & p' & g' & its & [= <-] & _ & _ & H); congruence]|].
      split; [split; [intros [=] | intros (d' & [= <-] & H); now destruct (H p)]|].
      intros e [= <-]. now right. }
  destruct v as [| | | | |its]; simpl;
    try (split; [split; [intros (c & [=])
                        | intros (d' & p' & g' & its & [= <-] & _ & _ & H); congruence]|];
         split; [split; [intros [=] | intros (d' & [= <-] & H); now destruct (H p)]|];
         intros e [= <-]; now right).
  split; [split; [intros _; exists d, p, g, its; auto | intros _; eauto]|].
  split; [split; [intros [=] | intros (d' & [= <-] & H); now destruct (H p)]|].
  intros e [=].
Qed.

(* --------------------------------------------------------------------- *)
(* The comparison, however it ends                                        *)
(* --------------------------------------------------------------------- *)

Section ComparisonRuns.

Context {W : Type}.
Variable gnmi_set : set_request -> W -> result value * W.

(** The inner loop can only be left by a refused update. *)
Lemma inner_raise (i : session_config) (actual : list session_config) :
  forall l w e w' t,
    for_each actual (on_existing gnmi_set i) l w = (Raise e, w', t) ->
    exists t0 rest w0,
      t = t0 ++ [EGnmiSet (set_of (update_for i))]
      /\ flat_map (fun x => if hit i x then push_events i msg_updated else []) actual
         = t0 ++ EGnmiSet (set_of (update_for i)) :: rest
      /\ gnmi_set (set_of (update_for i)) w0 = (Raise e, w').
Proof.
  induction actual as [|x actual IH]; intros l w e w' t H; simpl in H; [discriminate|].
  apply bind_inv in H as [(e' & H & [= <-])|(l1 & w1 & t1 & t2 & H1 & H2 & ->)].
  - rewrite on_existing_run in H. simpl.
    destruct (hit i x); [|discriminate].
    destruct (gnmi_set _ w) as [[v|y] w2] eqn:Hs; [discriminate|].
    injection H as <- <- <-.
    exists [], (ELog (msg_updated (neighbor_address i))
                :: flat_map (fun x => if hit i x then push_events i msg_updated else [])
                     actual), w.
    auto.
  - rewrite on_existing_run in H1.
    apply IH in H2 as (t0 & rest & w0 & -> & Hf & Hs).
    exists (t1 ++ t0), rest, w0. simpl. rewrite Hf.
    split; [now rewrite app_assoc|]. split; [|exact Hs].
    destruct (hit i x).
    + destruct (gnmi_set _ w) as [[v|y] w2]; [|discriminate].
      injection H1 as _ _ <-. now rewrite <- app_assoc.
    + injection H1 as _ _ <-. reflexivity.
Qed.

Lemma on_intended_raise (i : session_config) (l : locals) (w : W) e w' t :
  on_intended gnmi_set i l w = (Raise e, w', t) ->
  exists t0 rest w0,
    t = t0 ++ [EGnmiSet (set_of (update_for i))]
    /\ pushes_for (device_bgp_config l) i
       = t0 ++ EGnmiSet (set_of (update_for i)) :: rest
    /\ gnmi_set (set_of (update_for i)) w0 = (Raise e, w').
Proof.
  unfold on_intended. intros H.
  change (device_bgp_config (with_found false l)) with (device_bgp_config l) in H.
  apply bind_inv in H as [(e' & H & [= <-])|(l1 & w1 & t1 & t2 & H1 & H2 & ->)].
  - apply inner_raise in H as (t0 & rest & w0 & -> & Hf & Hs).
    exists t0, (rest ++ if found_after i (device_bgp_config l) then []
                        else push_events i msg_added), w0.
    unfold pushes_for. rewrite Hf, <- app_assoc. auto.
  - apply inner_ok in H1 as (-> & Hf & _ & _). simpl in Hf.
    destruct (found l1) eqn:Hfd; simpl in H2; [discriminate|].
    rewrite push_run in H2.
    destruct (gnmi_set _ w1) as [[v|y] w2] eqn:Hs; [discriminate|].
    injection H2 as <- <- <-.
    eexists _, [ELog (msg_added (neighbor_address i))], w1.
    unfold pushes_for. rewrite <- Hf. auto.
Qed.

Lemma outer_raise (intended : list session_config) :
  forall l w e w' t,
    for_each intended (on_intended gnmi_set) l w = (Raise e, w', t) ->
    exists t0 rest i w0,
      In i intended
      /\ t = t0 ++ [EGnmiSet (set_of (update_for i))]
      /\ planned intended (device_bgp_config l)
         = t0 ++ EGnmiSet (set_of (update_for i)) :: rest
      /\ gnmi_set (set_of (update_for i)) w0 = (Raise e, w').
Proof.
  induction intended as [|i intended IH]; intros l w e w' t H; simpl in H;
    [discriminate|].
  apply bind_inv in H as [(e' & H & [= <-])|(l1 & w1 & t1 & t2 & H1 & H2 & ->)].
  - apply on_intended_raise in H as (t0 & rest & w0 & -> & Hp & Hs).
    exists t0, (rest ++ planned intended (device_bgp_config l)), i, w0.
    unfold planned. simpl. rewrite Hp, <- app_assoc.
    repeat split; auto.
  - apply on_intended_ok in H1 as (-> & _ & (_ & Hd & _)).
    apply IH in H2 as (t0 & rest & j & w0 & Hj & -> & Hp & Hs).
    rewrite Hd in Hp.
    exists (pushes_for (device_bgp_config l) i ++ t0), rest, j, w0.
    unfold planned in *. simpl. rewrite Hp, <- !app_assoc.
    repeat split; auto.
Qed.

(** A comparison that fails has failed in its outer loop: the closing line
    cannot. *)
Lemma compare_and_push_raise (intended actual : list session_config)
    (w : W) e w' t :
  compare_and_push gnmi_set intended actual w = (Raise e, w', t) ->
  for_each intended (on_intended gnmi_set)
    {| infrahub_bgp_config := intended; device_bgp_config := actual;
       update := None; create := []; found := false; result_var := None |} w
  = (Raise e, w', t).
Proof.
  unfold compare_and_push. intros H.
  apply bind_inv in H as [(e' & H & [= <-])|(l1 & w1 & t1 & t2 & H1 & H2 & ->)].
  - exact H.
  - exfalso. destruct (negb _ && negb _).
    + unfold bind, console_log, emit, ret in H2. discriminate.
    + discriminate.
Qed.


Lemma planned_logs (intended actual : list session_config) :
  ~ In (ELog msg_all_present) (planned intended actual).
Proof.
  unfold planned. rewrite in_flat_map. intros (i & _ & H).
  unfold pushes_for in H. apply in_app_or in H as [H|H].
  - apply in_flat_map in H as (x & _ & H).
    destruct (hit i x); [|exact H].
    destruct H as [H|[H|[]]]; discriminate.
  - destruct (found_after i actual); [exact H|].
    destruct H as [H|[H|[]]]; discriminate.
Qed.

Lemma pushes_for_requests (actual : list session_config) (i : session_config) :
  set_requests (pushes_for actual i) =
  repeat (set_of (update_for i))
    (length (List.filter (hit i) actual) + (if found_after i actual then 0 else 1)).
Proof.
  unfold pushes_for. rewrite set_requests_app, repeat_app. f_equal.
  - induction actual as [|x actual IH]; simpl; [reflexivity|].
    rewrite set_requests_app, IH. now destruct (hit i x).
  - now destruct (found_after i actual).
Qed.

Lemma planned_requests (intended actual : list session_config) :
  set_requests (planned intended actual) =
  flat_map (fun i =>
    repeat (set_of (update_for i))
      (length (List.filter (hit i) actual) + (if found_after i actual then 0 else 1)))
    intended.
Proof.
  unfold planned. induction intended as [|i intended IH]; simpl; [reflexivity|].
  now rewrite set_requests_app, IH, pushes_for_requests.
Qed.

Lemma planned_pushes (intended actual : list session_config) :
  existsb (needs_push actual) intended = true ->
  set_requests (planned intended actual) <> [].
Proof.
  unfold planned. induction intended as [|i intended IH]; simpl; [discriminate|].
  intros H. rewrite set_requests_app. intros Hn. apply app_eq_nil in Hn as [Hi Hn].
  apply orb_true_iff in H as [H|H]; [|now apply IH].
  rewrite pushes_for_requests in Hi. unfold needs_push, is_updated, is_missing in H.
  apply orb_true_iff in H as [H|H].
  - apply existsb_exists in H as (x & Hx & Hh).
    assert (Hl : In x (List.filter (hit i) actual)) by (apply filter_In; auto).
    destruct (List.filter (hit i) actual); [destruct Hl | discriminate].
  - apply negb_true_iff in H. rewrite H, Nat.add_comm in Hi. discriminate.
Qed.

(** X6: the line "All BGP sessions are already present" is logged exactly
    by the comparisons that send no set request; such a comparison has
    succeeded and that line is all it does. *)
Theorem closing_line_iff_no_push (intended actual : list session_config)
    (w : W) r w' t :
  compare_and_push gnmi_set intended actual w = (r, w', t) ->
  (In (ELog msg_all_present) t <-> set_requests t = [])
  /\ (set_requests t = [] ->
        t = [ELog msg_all_present] /\ w' = w /\ exists l', r = Ok l').
Proof.
  intros H. destruct r as [l'|e].
  - destruct (existsb (needs_push actual) intended) eqn:E.
    + apply compare_and_push_ok in H as (-> & _ & _). rewrite E, app_nil_r.
      pose proof (planned_pushes _ _ E) as Hp.
      pose proof (planned_logs intended actual) as Hl.
      split; [split; intros; contradiction | intros; contradiction].
    + assert (Hq : forall i, In i intended ->
                found_after i actual = true /\ existsb (hit i) actual = false).
      { intros i Hi. destruct (found_after i actual) eqn:Hf, (existsb (hit i) actual) eqn:Hh;
          auto; exfalso;
          (assert (Hn : existsb (needs_push actual) intended = true);
           [apply existsb_exists; exists i; split; [exact Hi|];
            unfold needs_push, is_updated, is_missing; rewrite Hf, Hh; reflexivity
           | congruence]). }
      destruct (compare_quiet gnmi_set intended actual w Hq) as (l0 & Hc).
      rewrite Hc in H. injection H as <- <- <-.
      split; [split; [reflexivity | intros _; now left]|].
      intros _. eauto.
  - apply compare_and_push_raise in H.
    apply outer_raise in H as (t0 & rest & i & w0 & _ & -> & Hp & _).
    cbn [device_bgp_config] in Hp.
    assert (Hs : set_requests (t0 ++ [EGnmiSet (set_of (update_for i))]) <> []).
    { rewrite set_requests_app. simpl. intros Hn. apply app_eq_nil in Hn as [_ Hn].
      discriminate. }
    split; [|intros; contradiction].
    split; [|intros; contradiction].
    intros Hin. exfalso. apply (planned_logs intended actual). rewrite Hp.
    apply in_app_or in Hin as [Hin|[Hin|[]]]; [|discriminate].
    apply in_or_app. now left.
Qed.

(** X7: a comparison that does not fail sends, for each intended session in
    the order of the intended collection, one set request for every session
    of the device with the same address and a config that differs, and one
    when the device has no session with that address; it sends nothing
    else.  This holds with or without repeated addresses on either side. *)
Theorem requests_of_any_comparison (intended actual : list session_config)
    (w : W) l' w' t :
  compare_and_push gnmi_set intended actual w = (Ok l', w', t) ->
  set_requests t =
  flat_map (fun i =>
    repeat (set_of (update_for i))
      (length (List.filter (hit i) actual) + (if found_after i actual then 0 else 1)))
    intended.
Proof.
  intros H. apply compare_and_push_ok in H as (-> & _ & _).
  rewrite set_requests_app, planned_requests.
  destruct (existsb _ intended); simpl; now rewrite app_nil_r.
Qed.

End ComparisonRuns.


Lemma closing_line_iff_no_push_witness :
  (In (ELog msg_all_present) [ELog msg_all_present] <->
   set_requests [ELog msg_all_present] = [])
  /\ (set_requests [ELog msg_all_present] = [] ->
        [ELog msg_all_present] = [ELog msg_all_present]
        /\ Scripted.quiet = Scripted.quiet
        /\ exists l', Ok {| infrahub_bgp_config := [Examples.at1 65001];
                            device_bgp_config := [Examples.at1 65001];
                            update := None; create := [];
                            found := true; result_var := None |} = Ok l').
Proof.
  exact (closing_line_iff_no_push Scripted.gnmi_set
           [Examples.at1 65001] [Examples.at1 65001] Scripted.quiet _ _ _ eq_refl).
Defined.

Lemma requests_of_any_comparison_witness :
  set_requests
    [EGnmiSet (set_of (update_for (Examples.at1 65001)));
     ELog (msg_updated "10.0.0.1");
     EGnmiSet (set_of (update_for (Examples.at1 65001)));
     ELog (msg_updated "10.0.0.1");
     EGnmiSet (set_of (update_for (Examples.at2 65002)));
     ELog (msg_added "10.0.0.2")]
  = flat_map (fun i =>
      repeat (set_of (update_for i))
        (length (List.filter (hit i) [Examples.at1 65009; Examples.at1 65001;
                                      Examples.at1 65008])
         + (if found_after i [Examples.at1 65009; Examples.at1 65001;
                              Examples.at1 65008] then 0 else 1)))
      [Examples.at1 65001; Examples.at2 65002].
Proof.
  exact (requests_of_any_comparison Scripted.gnmi_set
           [Examples.at1 65001; Examples.at2 65002]
           [Examples.at1 65009; Examples.at1 65001; Examples.at1 65008]
           Scripted.quiet _ _ _ eq_refl).
Defined.

(* --------------------------------------------------------------------- *)
(* One pass of the loop, however it ends                                  *)
(* --------------------------------------------------------------------- *)

Section PassRuns.

Context {W : Type}.
Variables ARISTA_PORT ARISTA_USERNAME ARISTA_PASSWORD : string.
Variable http_get_neighbors : get_request -> W -> result (list session_config) * W.
Variable gnmi_connect : device_conn -> W -> result unit * W.
Variable gnmi_get : list string -> string -> W -> result value * W.
Variable gnmi_set : set_request -> W -> result value * W.
Variables mgmt_ip_address device : string.
Variable interval : Z.

Let conn : device_conn :=
  {| target := (mgmt_ip_address, ARISTA_PORT);
     username := ARISTA_USERNAME;
     password := ARISTA_PASSWORD;
     insecure := true |}.

Let pass : M W unit :=
  cycle ARISTA_PORT ARISTA_USERNAME ARISTA_PASSWORD
    http_get_neighbors gnmi_connect gnmi_get gnmi_set
    mgmt_ip_address device interval.

(** A pass, outcome by outcome of its collaborators. *)
Lemma pass_run (w : W) :
  pass w =
  match http_get_neighbors (neighbors_request device) w with
  | (Raise e, w1) => (Raise e, w1, [EGet (neighbors_request device)])
  | (Ok intended, w1) =>
      match gnmi_connect conn w1 with
      | (Raise e, w2) =>
          (Raise e, w2, [EGet (neighbors_request device); EGnmiOpen conn])
      | (Ok _, w2) =>
          match gnmi_get [OC_BGP_NEIGHBOR_PATH] "json_ietf" w2 with
          | (Raise e, w3) =>
              (Raise e, w3,
               [EGet (neighbors_request device); EGnmiOpen conn;
                EGnmiGet [OC_BGP_NEIGHBOR_PATH] "json_ietf"; EGnmiClose])
          | (Ok response, w3) =>
              match rbind (device_sessions_of response)
                          (map_result extract_config_from_device_session) with
              | Raise e =>
                  (Raise e, w3,
                   [EGet (neighbors_request device); EGnmiOpen conn;
                    EGnmiGet [OC_BGP_NEIGHBOR_PATH] "json_ietf"; EGnmiClose])
              | Ok actual =>
                  match compare_and_push gnmi_set intended actual w3 with
                  | (Ok _, w4, t) =>
                      (Ok tt, w4,
                       [EGet (neighbors_request device); EGnmiOpen conn;
                        EGnmiGet [OC_BGP_NEIGHBOR_PATH] "json_ietf"]
                       ++ t ++ [EGnmiClose; ESleep interval])
                  | (Raise e, w4, t) =>
                      (Raise e, w4,
                       [EGet (neighbors_request device); EGnmiOpen conn;
                        EGnmiGet [OC_BGP_NEIGHBOR_PATH] "json_ietf"]
                       ++ t ++ [EGnmiClose])
                  end
              end
          end
      end
  end.
Proof.
  destruct (http_get_neighbors (neighbors_request device) w) as [[intended|e] w1] eqn:H1.
  2:{ unfold pass, cycle, get_bgp_neighbor_config. apply bind_raise.
      unfold call. now rewrite H1. }
  destruct (gnmi_connect conn w1) as [[[]|e] w2] eqn:H2.
  2:{ unfold pass, cycle, get_bgp_neighbor_config, with_gnmi. fold conn.
      unfold bind at 1. unfold call at 1. rewrite H1.
      unfold bind at 1. unfold bind at 1. unfold call at 1. now rewrite H2. }
  destruct (gnmi_get [OC_BGP_NEIGHBOR_PATH] "json_ietf" w2) as [[response|e] w3] eqn:H3.
  - apply (pass_fetched ARISTA_PORT ARISTA_USERNAME ARISTA_PASSWORD
             http_get_neighbors gnmi_connect gnmi_get gnmi_set
             mgmt_ip_address device interval w w1 w2 w3 intended response H1 H2 H3).
  - unfold pass, cycle, get_bgp_neighbor_config, with_gnmi, gc_get. fold conn.
    unfold bind at 1. unfold call at 1. rewrite H1.
    unfold bind at 1. unfold bind at 1. unfold call at 1. rewrite H2.
    unfold bind at 1. unfold call at 1. now rewrite H3.
Qed.

Lemma comparison_in_session (intended actual : list session_config) (w : W) r w' t :
  compare_and_push gnmi_set intended actual w = (r, w', t) ->
  forallb in_session t = true.
Proof.
  intros H. apply compare_and_push_events in H.
  induction H as [|ev t Hev _ IH]; [reflexivity|]. simpl. rewrite IH.
  now destruct Hev as [->|(i & _ & [->|[->| ->]])].
Qed.

(** X8: a pass has one of three shapes.  The fetch of the intended sessions
    fails and nothing else happens; or the gNMI connection cannot be opened
    and nothing else happens; or the connection is opened and then closed
    exactly once, however the pass ends: only requests to the device and
    log lines lie between the opening and the closing, and the sleep
    follows the closing when the pass ends well and only then. *)
Theorem pass_shape (w : W) r w' t :
  pass w = (r, w', t) ->
  (exists e,
     http_get_neighbors (neighbors_request device) w = (Raise e, w')
     /\ r = Raise e /\ t = [EGet (neighbors_request device)])
  \/ (exists intended w1 e,
        http_get_neighbors (neighbors_request device) w = (Ok intended, w1)
        /\ gnmi_connect conn w1 = (Raise e, w')
        /\ r = Raise e
        /\ t = [EGet (neighbors_request device); EGnmiOpen conn])
  \/ (exists intended w1 w2 body,
        http_get_neighbors (neighbors_request device) w = (Ok intended, w1)
        /\ gnmi_connect conn w1 = (Ok tt, w2)
        /\ forallb in_session body = true
        /\ t = [EGet (neighbors_request device); EGnmiOpen conn] ++ body
               ++ EGnmiClose :: match r with
                                | Ok _ => [ESleep interval]
                                | Raise _ => []
                                end).
Proof.
  rewrite pass_run.
  destruct (http_get_neighbors _ w) as [[intended|e] w1] eqn:H1.
  2:{ intros [= <- <- <-]. left. now exists e. }
  destruct (gnmi_connect conn w1) as [[[]|e] w2] eqn:H2.
  2:{ intros [= <- <- <-]. right. left. now exists intended, w1, e. }
  intros H. right. right. exists intended, w1, w2.
  destruct (gnmi_get _ _ w2) as [[response|e] w3].
  2:{ injection H as <- <- <-.
      exists [EGnmiGet [OC_BGP_NEIGHBOR_PATH] "json_ietf"]. auto. }
  destruct (rbind _ _) as [actual|e].
  2:{ injection H as <- <- <-.
      exists [EGnmiGet [OC_BGP_NEIGHBOR_PATH] "json_ietf"]. auto. }
  destruct (compare_and_push gnmi_set intended actual w3) as [[[l|e] w4] t0] eqn:Hc;
    injection H as <- <- <-;
    exists (EGnmiGet [OC_BGP_NEIGHBOR_PATH] "json_ietf" :: t0);
    (split; [reflexivity || assumption|]); (split; [reflexivity || assumption|]);
    (split; [simpl; eapply comparison_in_session, Hc|]);
    simpl; now rewrite <- ?app_assoc.
Qed.

(** X9: a pass sends a set request only when the intended sessions were
    fetched, the connection was opened, the device's sessions were read
    and every update of the answer was extracted: the requests are those
    of the comparison of the two collections.  A failure of any of these
    steps, one unreadable update included, ends the pass before anything
    is pushed. *)
Theorem pushes_need_full_read (w : W) r w' t :
  pass w = (r, w', t) ->
  set_requests t <> [] ->
  exists intended w1 w2 response w3 sessions actual r0 t0,
    http_get_neighbors (neighbors_request device) w = (Ok intended, w1)
    /\ gnmi_connect conn w1 = (Ok tt, w2)
    /\ gnmi_get [OC_BGP_NEIGHBOR_PATH] "json_ietf" w2 = (Ok response, w3)
    /\ device_sessions_of response = Ok sessions
    /\ map_result extract_config_from_device_session sessions = Ok actual
    /\ compare_and_push gnmi_set intended actual w3 = (r0, w', t0)
    /\ set_requests t = set_requests t0.
Proof.
  rewrite pass_run.
  destruct (http_get_neighbors _ w) as [[intended|e] w1] eqn:H1.
  2:{ intros [= <- <- <-] Hs. now destruct Hs. }
  destruct (gnmi_connect conn w1) as [[[]|e] w2] eqn:H2.
  2:{ intros [= <- <- <-] Hs. now destruct Hs. }
  destruct (gnmi_get _ _ w2) as [[response|e] w3] eqn:H3.
  2:{ intros [= <- <- <-] Hs. now destruct Hs. }
  destruct (device_sessions_of response) as [sessions|e] eqn:H4; simpl.
  2:{ intros [= <- <- <-] Hs. now destruct Hs. }
  destruct (map_result _ sessions) as [actual|e] eqn:H5.
  2:{ intros [= <- <- <-] Hs. now destruct Hs. }
  destruct (compare_and_push gnmi_set intended actual w3) as [[r0 w4] t0] eqn:Hc.
  intros H _.
  assert (H' : w' = w4 /\ set_requests t = set_requests t0).
  { destruct r0 as [l|e]; injection H as <- <- <-; split; try reflexivity;
      simpl; rewrite set_requests_app; simpl; now rewrite app_nil_r. }
  destruct H' as [-> Ht].
  exists intended, w1, w2, response, w3, sessions, actual, r0, t0. auto 10.
Qed.

End PassRuns.

Lemma pass_shape_witness :
  exists body,
    forallb in_session body = true
    /\ snd (Scripted.run_cycle Examples.set_refused)
       = [EGet (neighbors_request "atl1-edge1");
          EGnmiOpen {| target := ("172.20.20.17", "6030"); username := "admin";
                       password := "admin"; insecure := true |}]
         ++ body ++ [EGnmiClose].
Proof.
  destruct (pass_shape "6030" "admin" "admin"
              Scripted.http_get_neighbors Scripted.gnmi_connect Scripted.gnmi_get
              Scripted.gnmi_set "172.20.20.17" "atl1-edge1" 10
              Examples.set_refused (Raise GnmiError) _ _ eq_refl)
    as [(e & _ & _ & H)|[(i & w1 & e & _ & _ & _ & H)
                        |(i & w1 & w2 & body & _ & _ & Hb & Ht)]].
  - discriminate H.
  - discriminate H.
  - exists body. split; [exact Hb | exact Ht].
Defined.

Lemma pushes_need_full_read_witness :
  exists intended actual r0 t0 w3 w4,
    compare_and_push Scripted.gnmi_set intended actual w3 = (r0, w4, t0)
    /\ set_requests (snd (Scripted.run_cycle Examples.set_refused)) = set_requests t0.
Proof.
  destruct (pushes_need_full_read "6030" "admin" "admin"
              Scripted.http_get_neighbors Scripted.gnmi_connect Scripted.gnmi_get
              Scripted.gnmi_set "172.20.20.17" "atl1-edge1" 10
              Examples.set_refused (Raise GnmiError) _ _ eq_refl
              ltac:(discriminate))
    as (intended & w1 & w2 & response & w3 & sessions & actual & r0 & t0
        & _ & _ & _ & _ & _ & Hc & Ht).
  exists intended, actual, r0, t0, w3. eexists. split; [exact Hc | exact Ht].
Defined.

(* --------------------------------------------------------------------- *)
(* The branch-scoped changes, however they end                            *)
(* --------------------------------------------------------------------- *)

Lemma posted_error_lines (msgs : list value) : posted (map error_line msgs) = [].
Proof. induction msgs as [|m msgs IH]; [reflexivity | exact IH]. Qed.

Lemma printed_error_lines (msgs : list value) :
  printed (map error_line msgs) = map (fun m => [Lit "[red]ERROR[/] "; Fmt m]) msgs.
Proof. induction msgs as [|m msgs IH]; [reflexivity | simpl; now rewrite IH]. Qed.

Section MergeReport.

Context {W : Type}.

(** The loop over the errors of a merge prints the messages up to the
    first entry that has none. *)
Lemma error_lines_run (errors : list value) (w : W) :
  exists msgs,
    for_each errors
      (fun error (_ : unit) =>
         m <- lift (getitem "message" error) ;;
         console_print [Lit "[red]ERROR[/] "; Fmt m]) tt w
    = (match map_result (getitem "message") errors with
       | Ok _ => Ok tt
       | Raise e => Raise e
       end, w, map error_line msgs)
    /\ (forall all, map_result (getitem "message") errors = Ok all -> msgs = all).
Proof.
  induction errors as [|x errors (msgs & IH & Hall)].
  - exists []. split; [reflexivity|]. now intros all [= <-].
  - cbn [for_each map_result].
    destruct (getitem "message" x) as [m|e] eqn:Em; cbn [rbind].
    + exists (m :: msgs).
      erewrite bind_ok;
        [|unfold bind, lift, console_print, emit; reflexivity].
      rewrite IH.
      destruct (map_result _ errors) as [ms|e]; cbn [rbind]; (split; [reflexivity|]).
      * intros all [= <-]. f_equal. now apply Hall.
      * discriminate.
    + exists [].
      erewrite bind_raise; [|unfold bind, lift; reflexivity].
      split; [reflexivity | discriminate].
Qed.

(** The report, case by case of the answer. *)
Lemma report_merge_run (response : value) (success : M W unit) (w : W) :
  report_merge response success w =
  match py_in "errors" response with
  | Raise e => (Raise e, w, [])
  | Ok true =>
      match rbind (getitem "errors" response) py_iter with
      | Raise e => (Raise e, w, [])
      | Ok errors =>
          for_each errors
            (fun error (_ : unit) =>
               m <- lift (getitem "message" error) ;;
               console_print [Lit "[red]ERROR[/] "; Fmt m]) tt w
      end
  | Ok false =>
      match rbind (getitem "data" response) (fun d =>
            rbind (getitem "branch_merge" d) (getitem "ok")) with
      | Raise e => (Raise e, w, [])
      | Ok ok => if truthy ok then success w else (Ok tt, w, [])
      end
  end.
Proof.
  unfold report_merge. unfold bind at 1. unfold lift at 1.
  destruct (py_in "errors" response) as [[|]|e]; [| |reflexivity].
  - unfold bind at 1. unfold lift at 1.
    destruct (rbind (getitem "errors" response) py_iter) as [errors|e]; [|reflexivity].
    destruct (for_each _ _ _ w) as [[r w1] t]. reflexivity.
  - unfold bind at 1. unfold lift at 1.
    destruct (rbind (getitem "data" response) _) as [ok|e]; [|reflexivity].
    destruct (truthy ok); [|reflexivity].
    destruct (success w) as [[r w1] t]. reflexivity.
Qed.

(** What a report prints: error lines only, or what the success branch
    prints, and in that case the answer has no errors key and its
    data.branch_merge.ok is true. *)
Lemma report_merge_lines (response : value) (success : M W unit) (w : W) r w' t :
  report_merge response success w = (r, w', t) ->
  (exists msgs, t = map error_line msgs /\ w' = w)
  \/ (py_in "errors" response = Ok false
      /\ (exists ok, rbind (getitem "data" response) (fun d =>
                     rbind (getitem "branch_merge" d) (getitem "ok")) = Ok ok
                     /\ truthy ok = true)
      /\ success w = (r, w', t)).
Proof.
  rewrite report_merge_run.
  destruct (py_in "errors" response) as [[|]|e].
  - destruct (rbind (getitem "errors" response) py_iter) as [errors|e].
    + destruct (error_lines_run errors w) as (msgs & -> & _).
      intros [= <- <- <-]. left. now exists msgs.
    + intros [= <- <- <-]. left. now exists [].
  - destruct (rbind (getitem "data" response) _) as [ok|e] eqn:Eok.
    + destruct (truthy ok) eqn:Et.
      * intros H. right. split; [reflexivity|]. split; [now exists ok | exact H].
      * intros [= <- <- <-]. left. now exists [].
    + intros [= <- <- <-]. left. now exists [].
  - intros [= <- <- <-]. left. now exists [].
Qed.

End MergeReport.

Section AdminStatusRuns.

Context {W : Type}.
Variable http_post : post_request -> W -> result value * W.
Variable uuid4 : W -> string * W.
Variables device interface branch : string.

Let q_interface : post_request :=
  graphql_post QUERY_GET_INTERFACE branch None false
    [("device", VStr device); ("interface", VStr interface)] 10 [].
Let new_branch (u : string) : string := ("update-intf-" ++ str_take 8 u)%string.
Let q_create (u : string) : post_request :=
  graphql_post BRANCH_CREATE_DATA_ONLY "main" None false
    [("branch", VStr (new_branch u))] 60 [].
Let q_mutation (u : string) (iid st : value) : post_request :=
  graphql_post INTERFACE_UPDATE_ADMIN_STATUS (new_branch u) None false
    [("interface_id", iid); ("admin_status", VBool (negb (truthy st)))] 10 [].
Let q_merge (u : string) : post_request :=
  graphql_post BRANCH_MERGE "main" None false [("branch", VStr (new_branch u))] 60 [].

Let line_current (id8 st : value) : message :=
  [Lit "Interface '"; Fmt (VStr interface); Lit "' ("; Fmt id8;
   Lit ") on '"; Fmt (VStr device); Lit "', is currently '";
   Fmt (VStr (if truthy st then "enabled" else "disabled")); Lit "'"].
Let line_created (u : string) : message :=
  [Lit "Created the branch '"; Fmt (VStr (new_branch u)); Lit "' for this change"].
Let line_updated (u : string) (st : value) : message :=
  [Lit "Updated the admin status of the interface to ";
   Fmt (VBool (negb (truthy st))); Lit " in "; Fmt (VStr (new_branch u))].
Let line_success (id8 : value) : message :=
  [Lit "[green]SUCCESS[/] Interface '"; Fmt (VStr interface);
   Lit "' ("; Fmt id8; Lit ") on '"; Fmt (VStr device);
   Lit "' successfully updated"].

(** What the command reads in the answer to its first query. *)
Let read (r1 : value) : result (value * value * value) :=
  rbind (rbind (first_interface r1) (getitem "id")) (fun iid =>
  rbind (rbind (first_interface r1) (fun i =>
           rbind (getitem "enabled" i) (getitem "value"))) (fun st =>
  rbind (slice8 iid) (fun id8 => Ok (iid, st, id8)))).

(** The command, outcome by outcome of its requests. *)
Lemma change_admin_status_cases (w : W) :
  _change_admin_status http_post uuid4 device interface branch w =
  match http_post q_interface w with
  | (Raise e, w1) => (Raise e, w1, [EPost q_interface])
  | (Ok r1, w1) =>
      match read r1 with
      | Raise e => (Raise e, w1, [EPost q_interface])
      | Ok (iid, st, id8) =>
          match uuid4 w1 with
          | (u, w2) =>
              match http_post (q_create u) w2 with
              | (Raise e, w3) =>
                  (Raise e, w3,
                   [EPost q_interface; EPrint (line_current id8 st);
                    EPost (q_create u)])
              | (Ok _, w3) =>
                  match http_post (q_mutation u iid st) w3 with
                  | (Raise e, w4) =>
                      (Raise e, w4,
                       [EPost q_interface; EPrint (line_current id8 st);
                        EPost (q_create u); EPrint (line_created u);
                        EPost (q_mutation u iid st)])
                  | (Ok _, w4) =>
                      match http_post (q_merge u) w4 with
                      | (Raise e, w5) =>
                          (Raise e, w5,
                           [EPost q_interface; EPrint (line_current id8 st);
                            EPost (q_create u); EPrint (line_created u);
                            EPost (q_mutation u iid st);
                            EPrint (line_updated u st); EPost (q_merge u)])
                      | (Ok r4, w5) =>
                          match report_merge r4
                                  (console_print (line_success id8)) w5 with
                          | (r, w6, t) =>
                              (match r with
                               | Ok _ => Ok VNone
                               | Raise e => Raise e
                               end, w6,
                               [EPost q_interface; EPrint (line_current id8 st);
                                EPost (q_create u); EPrint (line_created u);
                                EPost (q_mutation u iid st);
                                EPrint (line_updated u st); EPost (q_merge u)]
                               ++ t)
                          end
                      end
                  end
              end
          end
      end
  end.
Proof.
  unfold _change_admin_status, read.
  unfold execute_query at 1. unfold bind at 1. unfold call at 1. fold q_interface.
  destruct (http_post q_interface w) as [[r1|e] w1]; [|reflexivity].
  unfold bind at 1. unfold lift at 1.
  destruct (rbind (first_interface r1) (getitem "id")) as [iid|e]; [|reflexivity].
  cbn [rbind].
  unfold bind at 1. unfold lift at 1.
  destruct (rbind (first_interface r1) _) as [st|e]; [|reflexivity].
  cbn [rbind].
  unfold bind at 1. unfold lift at 1.
  destruct (slice8 iid) as [id8|e] eqn:Eid; [|reflexivity].
  cbn [rbind].
  unfold bind at 1. unfold console_print at 1. unfold emit at 1.
  unfold bind at 1. unfold random_uuid at 1.
  destruct (uuid4 w1) as [u w2].
  unfold bind at 1. unfold execute_query at 1. unfold call at 1.
  fold (new_branch u). fold (q_create u).
  destruct (http_post (q_create u) w2) as [[r2|e] w3]; [|reflexivity].
  unfold bind at 1. unfold console_print at 1. unfold emit at 1.
  unfold bind at 1. unfold execute_query at 1. unfold call at 1.
  fold (q_mutation u iid st).
  destruct (http_post (q_mutation u iid st) w3) as [[r3|e] w4]; [|reflexivity].
  unfold bind at 1. unfold console_print at 1. unfold emit at 1.
  unfold bind at 1. unfold execute_query at 1. unfold call at 1.
  fold (q_merge u).
  destruct (http_post (q_merge u) w4) as [[r4|e] w5]; [|reflexivity].
  unfold bind at 1.
  assert (Hs : (x <- lift (Ok id8) ;;
                console_print
                  [Lit "[green]SUCCESS[/] Interface '"; Fmt (VStr interface);
                   Lit "' ("; Fmt x; Lit ") on '"; Fmt (VStr device);
                   Lit "' successfully updated"])
               = (console_print (line_success id8) : M W unit)).
  { reflexivity. }
  rewrite Hs.
  destruct (report_merge r4 _ w5) as [[[[]|e] w6] t]; [|reflexivity].
  unfold ret. cbn [app]. now rewrite app_nil_r.
Qed.

Lemma report_merge_posts (r4 : value) (success : M W unit) (w5 : W) r w6 t :
  (forall w, exists m, success w = (Ok tt, w, [EPrint m]) /\ is_success m = true) ->
  report_merge r4 success w5 = (r, w6, t) ->
  posted t = [] /\ w6 = w5
  /\ (existsb is_success (printed t) = true ->
        py_in "errors" r4 = Ok false
        /\ (exists ok, rbind (getitem "data" r4) (fun d =>
                        rbind (getitem "branch_merge" d) (getitem "ok")) = Ok ok
                        /\ truthy ok = true)
        /\ r = Ok tt /\ existsb is_error (printed t) = false).
Proof.
  intros Hs H. apply report_merge_lines in H as [(msgs & -> & ->)|(He & Hok & H)].
  - split; [apply posted_error_lines|]. split; [reflexivity|].
    rewrite printed_error_lines. intros Hp. exfalso.
    induction msgs as [|m msgs IH]; [discriminate|]. exact (IH Hp).
  - destruct (Hs w5) as (m & Hm & Hsm). rewrite Hm in H. injection H as <- <- <-.
    split; [reflexivity|]. split; [reflexivity|]. intros _.
    split; [exact He|]. split; [exact Hok|]. split; [reflexivity|].
    simpl. rewrite orb_false_r.
    destruct m as [|[s|v] m]; try discriminate. unfold is_success in Hsm.
    destruct (prefix_true _ _ Hsm) as (b & ->). reflexivity.
Qed.

(** X10: the requests a change of admin status posts, however it ends.  The
    first is the query for the interface on the branch given.  No branch is
    created unless that query is answered and the answer holds the id and
    the enabled value of the first interface of the first device.  Then the
    posts are, in this order and each only when the one before was
    answered: the creation of a branch named update-intf- and the first
    eight characters of a fresh uuid, on main; the mutation on the new
    branch, with the id read and the negation of the status read; the merge
    of the new branch, on main. *)
Theorem change_admin_status_posts (w : W) r w' t :
  _change_admin_status http_post uuid4 device interface branch w = (r, w', t) ->
  posted t = [q_interface]
  \/ exists r1 w1 iid st u w2 rest k,
       http_post q_interface w = (Ok r1, w1)
       /\ rbind (first_interface r1) (getitem "id") = Ok iid
       /\ rbind (first_interface r1) (fun i =>
            rbind (getitem "enabled" i) (getitem "value")) = Ok st
       /\ uuid4 w1 = (u, w2)
       /\ posted t = q_interface :: q_create u :: rest
       /\ [q_mutation u iid st; q_merge u] = rest ++ k.
Proof.
  rewrite change_admin_status_cases.
  destruct (http_post q_interface w) as [[r1|e] w1] eqn:H1.
  2:{ intros [= <- <- <-]. now left. }
  unfold read.
  destruct (rbind (first_interface r1) (getitem "id")) as [iid|e] eqn:Hid;
    cbn [rbind].
  2:{ intros [= <- <- <-]. now left. }
  destruct (rbind (first_interface r1) (fun i =>
              rbind (getitem "enabled" i) (getitem "value"))) as [st|e] eqn:Hst;
    cbn [rbind].
  2:{ intros [= <- <- <-]. now left. }
  destruct (slice8 iid) as [id8|e]; cbn [rbind].
  2:{ intros [= <- <- <-]. now left. }
  destruct (uuid4 w1) as [u w2] eqn:Hu.
  intros H. right. exists r1, w1, iid, st, u, w2.
  destruct (http_post (q_create u) w2) as [[r2|e] w3].
  2:{ injection H as <- <- <-. exists [], [q_mutation u iid st; q_merge u]. auto 10. }
  destruct (http_post (q_mutation u iid st) w3) as [[r3|e] w4].
  2:{ injection H as <- <- <-. exists [q_mutation u iid st], [q_merge u]. auto 10. }
  destruct (http_post (q_merge u) w4) as [[r4|e] w5].
  2:{ injection H as <- <- <-. exists [q_mutation u iid st; q_merge u], []. auto 10. }
  destruct (report_merge r4 _ w5) as [[r0 w6] t0] eqn:Hr.
  injection H as <- <- <-.
  apply report_merge_posts in Hr as (Hp & _); [|intros w0; eexists; split; reflexivity].
  exists [q_mutation u iid st; q_merge u], [].
  repeat split; try assumption; try reflexivity.
  cbn [posted app]. now rewrite Hp.
Qed.

(** X11: the success line of a change of admin status is printed only when
    all four requests were answered and the answer to the merge has no
    errors key and a true data.branch_merge.ok; the command then returns
    normally and prints no error line.  Nothing in the answers to the
    creation of the branch or to the mutation can prevent or cause it. *)
Theorem admin_success_needs_merge_ok (w : W) r w' t :
  _change_admin_status http_post uuid4 device interface branch w = (r, w', t) ->
  existsb is_success (printed t) = true ->
  exists u iid st w4 r4 ok,
    posted t = [q_interface; q_create u; q_mutation u iid st; q_merge u]
    /\ http_post (q_merge u) w4 = (Ok r4, w')
    /\ py_in "errors" r4 = Ok false
    /\ rbind (getitem "data" r4) (fun d =>
         rbind (getitem "branch_merge" d) (getitem "ok")) = Ok ok
    /\ truthy ok = true
    /\ r = Ok VNone
    /\ existsb is_error (printed t) = false.
Proof.
  rewrite change_admin_status_cases.
  destruct (http_post q_interface w) as [[r1|e] w1].
  2:{ intros [= <- <- <-]. discriminate. }
  destruct (read r1) as [[[iid st] id8]|e].
  2:{ intros [= <- <- <-]. discriminate. }
  destruct (uuid4 w1) as [u w2].
  destruct (http_post (q_create u) w2) as [[r2|e] w3].
  2:{ intros [= <- <- <-]. discriminate. }
  destruct (http_post (q_mutation u iid st) w3) as [[r3|e] w4].
  2:{ intros [= <- <- <-]. discriminate. }
  destruct (http_post (q_merge u) w4) as [[r4|e] w5] eqn:H4.
  2:{ intros [= <- <- <-]. discriminate. }
  destruct (report_merge r4 _ w5) as [[r0 w6] t0] eqn:Hr.
  intros [= <- <- <-] Hs.
  apply report_merge_posts in Hr as (Hp & -> & Hl);
    [|intros w0; eexists; split; reflexivity].
  cbn [posted printed app] in *.
  change (existsb is_success (printed t0) = true) in Hs.
  destruct (Hl Hs) as (He & (ok & Hok & Ht) & -> & Hne).
  exists u, iid, st, w4, r4, ok. rewrite Hp. repeat split; assumption || reflexivity.
Qed.

(** X12: when the merge of a change of admin status is answered without an
    errors key and with a false data.branch_merge.ok, or with an empty list
    of errors, the command returns normally having printed its three
    progress lines and no line about the outcome: neither success nor
    error. *)
Theorem admin_merge_refused_in_silence (w w1 w2 w3 w4 w5 : W)
    (r1 r2 r3 r4 iid st id8 : value) (u : string) :
  http_post q_interface w = (Ok r1, w1) ->
  rbind (first_interface r1) (getitem "id") = Ok iid ->
  rbind (first_interface r1) (fun i =>
    rbind (getitem "enabled" i) (getitem "value")) = Ok st ->
  slice8 iid = Ok id8 ->
  uuid4 w1 = (u, w2) ->
  http_post (q_create u) w2 = (Ok r2, w3) ->
  http_post (q_mutation u iid st) w3 = (Ok r3, w4) ->
  http_post (q_merge u) w4 = (Ok r4, w5) ->
  (py_in "errors" r4 = Ok false
   /\ exists ok, rbind (getitem "data" r4) (fun d =>
                 rbind (getitem "branch_merge" d) (getitem "ok")) = Ok ok
                 /\ truthy ok = false)
  \/ (py_in "errors" r4 = Ok true /\ getitem "errors" r4 = Ok (VList [])) ->
  exists t,
    _change_admin_status http_post uuid4 device interface branch w = (Ok VNone, w5, t)
    /\ printed t = [line_current id8 st; line_created u; line_updated u st]
    /\ posted t = [q_interface; q_create u; q_mutation u iid st; q_merge u].
Proof.
  intros H1 Hid Hst H8 Hu H2 H3 H4 Hr4.
  rewrite change_admin_status_cases, H1. unfold read. rewrite Hid, Hst. cbn [rbind].
  rewrite H8. cbn [rbind]. rewrite Hu, H2, H3, H4, report_merge_run.
  destruct Hr4 as [(-> & ok & -> & ->)|(-> & ->)]; cbn [rbind py_iter for_each];
    eexists; (split; [reflexivity|]); split; reflexivity.
Qed.

End AdminStatusRuns.

Section CircuitStatusRuns.

Context {W : Type}.
Variable http_post : post_request -> W -> result value * W.
Variable uuid4 : W -> string * W.
Variables circuit status branch : string.

Let q_circuit : post_request :=
  graphql_post QUERY_GET_CIRCUIT branch None false [("circuit", VStr circuit)] 10 [].
Let new_branch (u : string) : string := ("update-circuit-" ++ str_take 8 u)%string.
Let q_create (u : string) : post_request :=
  graphql_post BRANCH_CREATE_DATA_ONLY "main" None false
    [("branch", VStr (new_branch u))] 60 [].
Let q_mutation (u : string) (cid : value) : post_request :=
  graphql_post CIRCUIT_UPDATE_STATUS (new_branch u) None false
    [("circuit_id", cid); ("status", VStr status)] 10 [].
Let q_merge (u : string) : post_request :=
  graphql_post BRANCH_MERGE "main" None false [("branch", VStr (new_branch u))] 60 [].

Let line_nothing (id8 current : value) : message :=
  [Lit "Circuit '"; Fmt (VStr circuit); Lit "' ("; Fmt id8;
   Lit ") status is already '"; Fmt current; Lit "', nothing to do"].
Let line_current (id8 current : value) : message :=
  [Lit "Circuit '"; Fmt (VStr circuit); Lit "' ("; Fmt id8;
   Lit "), is currently '"; Fmt current; Lit "'"].
Let line_created (u : string) : message :=
  [Lit "Created the branch '"; Fmt (VStr (new_branch u)); Lit "' for this change"].
Let line_updated (u : string) : message :=
  [Lit "Updated the status of the Circuit to `"; Fmt (VStr status); Lit "` in `";
   Fmt (VStr (new_branch u)); Lit "`"].
Let line_success (id8 : value) : message :=
  [Lit "[green]SUCCESS[/] Circuit '"; Fmt (VStr circuit);
   Lit "' ("; Fmt id8; Lit ") successfully updated"].

(** The command, outcome by outcome of its requests. *)
Lemma change_circuit_status_cases (w : W) :
  _change_circuit_status http_post uuid4 circuit status branch w =
  match http_post q_circuit w with
  | (Raise e, w1) => (Raise e, w1, [EPost q_circuit])
  | (Ok r1, w1) =>
      match rbind (first_circuit r1) (getitem "id") with
      | Raise e => (Raise e, w1, [EPost q_circuit])
      | Ok cid =>
          match rbind (first_circuit r1) (fun c =>
                  rbind (getitem "status" c) (fun s =>
                  rbind (getitem "name" s) (getitem "value"))) with
          | Raise e => (Raise e, w1, [EPost q_circuit])
          | Ok current =>
              match slice8 cid with
              | Raise e => (Raise e, w1, [EPost q_circuit])
              | Ok id8 =>
                  if py_eqb current (VStr status)
                  then (Ok (VBool false), w1,
                        [EPost q_circuit; EPrint (line_nothing id8 current)])
                  else
                    match uuid4 w1 with
                    | (u, w2) =>
                        match http_post (q_create u) w2 with
                        | (Raise e, w3) =>
                            (Raise e, w3,
                             [EPost q_circuit; EPrint (line_current id8 current);
                              EPost (q_create u)])
                        | (Ok _, w3) =>
                            match http_post (q_mutation u cid) w3 with
                            | (Raise e, w4) =>
                                (Raise e, w4,
                                 [EPost q_circuit; EPrint (line_current id8 current);
                                  EPost (q_create u); EPrint (line_created u);
                                  EPost (q_mutation u cid)])
                            | (Ok _, w4) =>
                                match http_post (q_merge u) w4 with
                                | (Raise e, w5) =>
                                    (Raise e, w5,
                                     [EPost q_circuit;
                                      EPrint (line_current id8 current);
                                      EPost (q_create u); EPrint (line_created u);
                                      EPost (q_mutation u cid);
                                      EPrint (line_updated u); EPost (q_merge u)])
                                | (Ok r4, w5) =>
                                    match report_merge r4
                                            (console_print (line_success id8)) w5 with
                                    | (r, w6, t) =>
                                        (match r with
                                         | Ok _ => Ok VNone
                                         | Raise e => Raise e
                                         end, w6,
                                         [EPost q_circuit;
                                          EPrint (line_current id8 current);
                                          EPost (q_create u); EPrint (line_created u);
                                          EPost (q_mutation u cid);
                                          EPrint (line_updated u); EPost (q_merge u)]
                                         ++ t)
                                    end
                                end
                            end
                        end
                    end
              end
          end
      end
  end.
Proof.
  unfold _change_circuit_status.
  unfold execute_query at 1. unfold bind at 1. unfold call at 1. fold q_circuit.
  destruct (http_post q_circuit w) as [[r1|e] w1]; [|reflexivity].
  unfold bind at 1. unfold lift at 1.
  destruct (rbind (first_circuit r1) (getitem "id")) as [cid|e]; [|reflexivity].
  unfold bind at 1. unfold lift at 1.
  destruct (rbind (first_circuit r1) _) as [current|e]; [|reflexivity].
  destruct (py_eqb current (VStr status)).
  - unfold bind at 1. unfold lift at 1.
    destruct (slice8 cid) as [id8|e]; reflexivity.
  - unfold bind at 1. unfold lift at 1.
    destruct (slice8 cid) as [id8|e]; [|reflexivity].
    unfold bind at 1. unfold console_print at 1. unfold emit at 1.
    unfold bind at 1. unfold random_uuid at 1.
    destruct (uuid4 w1) as [u w2].
    unfold bind at 1. unfold execute_query at 1. unfold call at 1.
    fold (new_branch u). fold (q_create u).
    destruct (http_post (q_create u) w2) as [[r2|e] w3]; [|reflexivity].
    unfold bind at 1. unfold console_print at 1. unfold emit at 1.
    unfold bind at 1. unfold execute_query at 1. unfold call at 1.
    fold (q_mutation u cid).
    destruct (http_post (q_mutation u cid) w3) as [[r3|e] w4]; [|reflexivity].
    unfold bind at 1. unfold console_print at 1. unfold emit at 1.
    unfold bind at 1. unfold execute_query at 1. unfold call at 1.
    fold (q_merge u).
    destruct (http_post (q_merge u) w4) as [[r4|e] w5]; [|reflexivity].
    unfold bind at 1.
    assert (Hs : (x <- lift (Ok id8) ;;
                  console_print
                    [Lit "[green]SUCCESS[/] Circuit '"; Fmt (VStr circuit);
                     Lit "' ("; Fmt x; Lit ") successfully updated"])
                 = (console_print (line_success id8) : M W unit)).
    { reflexivity. }
    rewrite Hs.
    destruct (report_merge r4 _ w5) as [[[[]|e] w6] t]; [|reflexivity].
    unfold ret. cbn [app]. now rewrite app_nil_r.
Qed.

(** X13: the requests a change of circuit status posts, however it ends.
    The first is the query for the circuit on the branch given.  No branch
    is created unless that query is answered, the answer holds the id and
    the status of the first circuit, and that status differs from the one
    asked for.  Then the posts are, in this order and each only when the
    one before was answered: the creation of a branch named
    update-circuit- and the first eight characters of a fresh uuid, on
    main; the mutation on the new branch, with the id read and the status
    asked for; the merge of the new branch, on main. *)
Theorem change_circuit_status_posts (w : W) r w' t :
  _change_circuit_status http_post uuid4 circuit status branch w = (r, w', t) ->
  posted t = [q_circuit]
  \/ exists r1 w1 cid current u w2 rest k,
       http_post q_circuit w = (Ok r1, w1)
       /\ rbind (first_circuit r1) (getitem "id") = Ok cid
       /\ rbind (first_circuit r1) (fun c =>
            rbind (getitem "status" c) (fun s =>
            rbind (getitem "name" s) (getitem "value"))) = Ok current
       /\ py_eqb current (VStr status) = false
       /\ uuid4 w1 = (u, w2)
       /\ posted t = q_circuit :: q_create u :: rest
       /\ [q_mutation u cid; q_merge u] = rest ++ k.
Proof.
  rewrite change_circuit_status_cases.
  destruct (http_post q_circuit w) as [[r1|e] w1] eqn:H1.
  2:{ intros [= <- <- <-]. now left. }
  destruct (rbind (first_circuit r1) (getitem "id")) as [cid|e] eqn:Hid.
  2:{ intros [= <- <- <-]. now left. }
  destruct (rbind (first_circuit r1) (fun c =>
              rbind (getitem "status" c) (fun s =>
              rbind (getitem "name" s) (getitem "value")))) as [current|e] eqn:Hst.
  2:{ intros [= <- <- <-]. now left. }
  destruct (slice8 cid) as [id8|e].
  2:{ intros [= <- <- <-]. now left. }
  destruct (py_eqb current (VStr status)) eqn:Heq.
  { intros [= <- <- <-]. now left. }
  destruct (uuid4 w1) as [u w2] eqn:Hu.
  intros H. right. exists r1, w1, cid, current, u, w2.
  destruct (http_post (q_create u) w2) as [[r2|e] w3].
  2:{ injection H as <- <- <-. exists [], [q_mutation u cid; q_merge u]. auto 10. }
  destruct (http_post (q_mutation u cid) w3) as [[r3|e] w4].
  2:{ injection H as <- <- <-. exists [q_mutation u cid], [q_merge u]. auto 10. }
  destruct (http_post (q_merge u) w4) as [[r4|e] w5].
  2:{ injection H as <- <- <-. exists [q_mutation u cid; q_merge u], []. auto 10. }
  destruct (report_merge r4 _ w5) as [[r0 w6] t0] eqn:Hr.
  injection H as <- <- <-.
  apply report_merge_posts in Hr as (Hp & _); [|intros w0; eexists; split; reflexivity].
  exists [q_mutation u cid; q_merge u], [].
  repeat split; try assumption; try reflexivity.
  cbn [posted app]. now rewrite Hp.
Qed.

End CircuitStatusRuns.

Lemma change_admin_status_posts_witness :
  exists u rest k,
    posted (snd (Cases.run_admin Examples.mutation_refused))
    = graphql_post QUERY_GET_INTERFACE "main" None false
        [("device", VStr "atl1-edge1"); ("interface", VStr "Ethernet1")] 10 []
      :: graphql_post BRANCH_CREATE_DATA_ONLY "main" None false
           [("branch", VStr ("update-intf-" ++ str_take 8 u))] 60 []
      :: rest
    /\ length (rest ++ k) = 2.
Proof.
  destruct (change_admin_status_posts Scripted.http_post Scripted.uuid4
              "atl1-edge1" "Ethernet1" "main" Examples.mutation_refused _ _ _ eq_refl)
    as [H|(r1 & w1 & iid & st & u & w2 & rest & k & _ & _ & _ & _ & Hp & Hk)].
  - discriminate H.
  - exists u, rest, k. split; [exact Hp|]. now rewrite <- Hk.
Defined.

Lemma admin_success_needs_merge_ok_witness :
  exists r4 ok,
    py_in "errors" r4 = Ok false
    /\ rbind (getitem "data" r4) (fun d =>
         rbind (getitem "branch_merge" d) (getitem "ok")) = Ok ok
    /\ truthy ok = true
    /\ existsb is_error (printed (snd (Cases.run_admin Examples.mutation_refused)))
       = false.
Proof.
  destruct (admin_success_needs_merge_ok Scripted.http_post Scripted.uuid4
              "atl1-edge1" "Ethernet1" "main" Examples.mutation_refused _ _ _
              eq_refl eq_refl)
    as (u & iid & st & w4 & r4 & ok & _ & _ & He & Hok & Ht & _ & Hn).
  exists r4, ok. auto.
Defined.

Lemma admin_merge_refused_in_silence_witness :
  exists t,
    Cases.run_admin Cases.merge_refused = (Ok VNone, Scripted.quiet, t)
    /\ existsb (fun m => is_success m || is_error m) (printed t) = false.
Proof.
  destruct (admin_merge_refused_in_silence Scripted.http_post Scripted.uuid4
              "atl1-edge1" "Ethernet1" "main"
              Cases.merge_refused _ _ _ _ Scripted.quiet
              Examples.interface_reply Examples.branch_reply
              Cases.mutation_reply Cases.merge_not_ok
              (VStr "0a1b2c3d-4e5f-4a6b-8c7d-9e0f1a2b3c4d") (VBool true)
              (VStr "0a1b2c3d") "1b4e28ba-2fa1-41d2-883f-0016d3cca427"
              eq_refl eq_refl eq_refl eq_refl eq_refl eq_refl eq_refl eq_refl
              (or_introl (conj eq_refl
                 (ex_intro _ (VBool false) (conj eq_refl eq_refl)))))
    as (t & Hrun & Hp & _).
  exists t. split; [exact Hrun|]. now rewrite Hp.
Defined.

Lemma change_circuit_status_posts_witness :
  exists u rest k,
    posted (snd (Cases.run_circuit Cases.circuit_provisioning))
    = graphql_post QUERY_GET_CIRCUIT "main" None false
        [("circuit", VStr "DUFF-1543451")] 10 []
      :: graphql_post BRANCH_CREATE_DATA_ONLY "main" None false
           [("branch", VStr ("update-circuit-" ++ str_take 8 u))] 60 []
      :: rest
    /\ length (rest ++ k) = 2.
Proof.
  destruct (change_circuit_status_posts Scripted.http_post Scripted.uuid4
              "DUFF-1543451" "active" "main" Cases.circuit_provisioning _ _ _ eq_refl)
    as [H|(r1 & w1 & cid & current & u & w2 & rest & k
           & _ & _ & _ & _ & _ & Hp & Hk)].
  - discriminate H.
  - exists u, rest, k. split; [exact Hp|]. now rewrite <- Hk.
Defined.

(* --------------------------------------------------------------------- *)
(* The command as a whole: where the loop connects                        *)
(* --------------------------------------------------------------------- *)

Lemma opened_app (t1 t2 : list event) : opened (t1 ++ t2) = opened t1 ++ opened t2.
Proof.
  induction t1 as [|ev t1 IH]; simpl; [reflexivity|].
  destruct ev; simpl; now rewrite ?IH.
Qed.

Lemma opened_in_session (t : list event) : forallb in_session t = true -> opened t = [].
Proof.
  induction t as [|ev t IH]; [reflexivity|]. simpl. intros H.
  apply andb_true_iff in H as [Hev H]. destruct ev; try discriminate; now apply IH.
Qed.

Lemma before_slash_no_slash (s : string) : str_mem "/" (before_slash s) = false.
Proof.
  induction s as [|c s IH]; [reflexivity|]. cbn [before_slash].
  destruct (Ascii.eqb_spec c "/") as [->|Hc]; [reflexivity|].
  cbn [str_mem]. rewrite IH, orb_false_r. apply Ascii.eqb_neq. congruence.
Qed.

Section ManageRuns.

Context {W : Type}.
Variables ARISTA_PORT ARISTA_USERNAME ARISTA_PASSWORD : string.
Variable http_get_neighbors : get_request -> W -> result (list session_config) * W.
Variable gnmi_connect : device_conn -> W -> result unit * W.
Variable gnmi_get : list string -> string -> W -> result value * W.
Variable gnmi_set : set_request -> W -> result value * W.
Variable http_post : post_request -> W -> result value * W.
Variable active_branch : W -> result string * W.
Variable device : string.
Variable interval : Z.

Let conn (address : string) : device_conn :=
  {| target := (address, ARISTA_PORT);
     username := ARISTA_USERNAME;
     password := ARISTA_PASSWORD;
     insecure := true |}.

Let loop (n : nat) (address : string) : M W unit :=
  manage_loop ARISTA_PORT ARISTA_USERNAME ARISTA_PASSWORD
    http_get_neighbors gnmi_connect gnmi_get gnmi_set
    n address device interval.

Let q_management (b : string) : post_request :=
  graphql_post QUERY_GET_DEVICE_MANAGEMENT_IP b None false
    [("device", VStr device)] 10 [].

Let banner : message :=
  [Lit "-- Manage BGP Sessions for '"; Fmt (VStr device);
   Lit "' (interval: "; Fmt (VInt interval); Lit ") --"].

(** The branch the command works on: the one given, or the active branch
    of the repository when none, or the empty string, is given. *)
Let resolve (branch : option string) (w : W) : result string * W :=
  match branch with
  | Some b => if String.eqb b "" then active_branch w else (Ok b, w)
  | None => active_branch w
  end.

(** The address the command reads in the answer to its query. *)
Let address_of (response : value) : result string :=
  rbind (rbind (first_device response) (fun d =>
                rbind (getitem "interfaces" d) py_iter)) (fun interfaces =>
  rbind (filter_result is_management interfaces) (fun management =>
  rbind (match management with
         | x :: _ => Ok x
         | [] => Raise IndexError
         end) management_address)).

Lemma pass_opens (address : string) (w : W) r w' t :
  loop 1 address w = (r, w', t) ->
  Forall (fun c => c = conn address) (opened t).
Proof.
  unfold loop. cbn [manage_loop]. intros H.
  assert (Hp : exists r0 w0 t0,
    cycle ARISTA_PORT ARISTA_USERNAME ARISTA_PASSWORD
      http_get_neighbors gnmi_connect gnmi_get gnmi_set
      address device interval w = (r0, w0, t0) /\ t = t0).
  { apply bind_inv in H as [(e & H & _)|(u & w1 & t1 & t2 & H1 & H2 & ->)].
    - eauto.
    - injection H2 as _ _ <-. rewrite app_nil_r. eauto. }
  destruct Hp as (r0 & w0 & t0 & Hc & ->). clear H.
  rewrite (pass_run ARISTA_PORT ARISTA_USERNAME ARISTA_PASSWORD
             http_get_neighbors gnmi_connect gnmi_get gnmi_set
             address device interval) in Hc.
  fold (conn address) in Hc.
  destruct (http_get_neighbors _ w) as [[intended|e] w1].
  2:{ injection Hc as _ _ <-. constructor. }
  destruct (gnmi_connect (conn address) w1) as [[[]|e] w2].
  2:{ injection Hc as _ _ <-. repeat constructor. }
  destruct (gnmi_get _ _ w2) as [[response|e] w3].
  2:{ injection Hc as _ _ <-. repeat constructor. }
  destruct (rbind _ _) as [actual|e].
  2:{ injection Hc as _ _ <-. repeat constructor. }
  destruct (compare_and_push gnmi_set intended actual w3) as [[[l|e] w4] t1] eqn:Hcmp;
    injection Hc as _ _ <-;
    apply (comparison_in_session gnmi_set) in Hcmp; apply opened_in_session in Hcmp;
    cbn [app opened]; rewrite opened_app, Hcmp; repeat constructor.
Qed.

Lemma loop_opens (address : string) (n : nat) :
  forall (w : W) r w' t,
    loop n address w = (r, w', t) ->
    Forall (fun c => c = conn address) (opened t).
Proof.
  induction n as [|n IH]; intros w r w' t H.
  - injection H as _ _ <-. constructor.
  - unfold loop in H. cbn [manage_loop] in H.
    apply bind_inv in H as [(e & H & _)|(u & w1 & t1 & t2 & H1 & H2 & ->)].
    + apply (pass_opens address w (Raise e) w' t).
      unfold loop. cbn [manage_loop]. now apply bind_raise.
    + rewrite opened_app. apply Forall_app. split.
      * apply (pass_opens address w (Ok tt) w1 t1).
        unfold loop. cbn [manage_loop]. erewrite bind_ok; [|exact H1].
        unfold ret. now rewrite app_nil_r.
      * eapply IH. exact H2.
Qed.

(** The command, outcome by outcome of the lines before the loop. *)
Lemma manage_bgp_session_cases (n : nat) (branch : option string) (w : W) :
  _manage_bgp_session ARISTA_PORT ARISTA_USERNAME ARISTA_PASSWORD
    http_get_neighbors gnmi_connect gnmi_get gnmi_set http_post active_branch
    n device branch interval w =
  match resolve branch w with
  | (Raise e, w0) => (Raise e, w0, [])
  | (Ok b, w0) =>
      match http_post (q_management b) w0 with
      | (Raise e, w1) => (Raise e, w1, [ELog banner; EPost (q_management b)])
      | (Ok response, w1) =>
          match address_of response with
          | Raise e => (Raise e, w1, [ELog banner; EPost (q_management b)])
          | Ok address =>
              match loop n address w1 with
              | (r, w2, t) => (r, w2, [ELog banner; EPost (q_management b)] ++ t)
              end
          end
      end
  end.
Proof.
  unfold _manage_bgp_session, resolve, address_of.
  unfold bind at 1.
  assert (Hb : forall (m : M W string) rw,
    (forall w, m w = (fst (rw w), snd (rw w), [])) ->
    match m w with
    | (Ok a, w1, t1) =>
        let '(r, w2, t2) :=
          (_ <- console_log banner ;;
           response <- execute_query http_post QUERY_GET_DEVICE_MANAGEMENT_IP a
                         None false [("device", VStr device)] 10 [] ;;
           interfaces <- lift (rbind (first_device response) (fun d =>
                               rbind (getitem "interfaces" d) py_iter)) ;;
           management <- lift (filter_result is_management interfaces) ;;
           mgmt_interface <- lift (match management with
                                   | x :: _ => Ok x
                                   | [] => Raise IndexError
                                   end) ;;
           mgmt_ip_address <- lift (management_address mgmt_interface) ;;
           manage_loop ARISTA_PORT ARISTA_USERNAME ARISTA_PASSWORD
             http_get_neighbors gnmi_connect gnmi_get gnmi_set
             n mgmt_ip_address device interval) w1 in
        (r, w2, t1 ++ t2)
    | (Raise e, w1, t1) => (Raise e, w1, t1)
    end =
    match rw w with
    | (Raise e, w0) => (Raise e, w0, [])
    | (Ok b, w0) =>
        match http_post (q_management b) w0 with
        | (Raise e, w1) => (Raise e, w1, [ELog banner; EPost (q_management b)])
        | (Ok response, w1) =>
            match address_of response with
            | Raise e => (Raise e, w1, [ELog banner; EPost (q_management b)])
            | Ok address =>
                match loop n address w1 with
                | (r, w2, t) => (r, w2, [ELog banner; EPost (q_management b)] ++ t)
                end
            end
        end
    end).
  { intros m rw Hm. rewrite Hm. destruct (rw w) as [[b|e] w0]; [|reflexivity].
    cbn [fst snd app].
    unfold bind at 1. unfold console_log at 1. unfold emit at 1.
    unfold bind at 1. unfold execute_query at 1. unfold call at 1.
    fold (q_management b).
    destruct (http_post (q_management b) w0) as [[response|e] w1]; [|reflexivity].
    unfold address_of.
    unfold bind at 1. unfold lift at 1.
    destruct (rbind (first_device response) _) as [interfaces|e]; [|reflexivity].
    cbn [rbind].
    unfold bind at 1. unfold lift at 1.
    destruct (filter_result is_management interfaces) as [management|e]; [|reflexivity].
    cbn [rbind].
    unfold bind at 1. unfold lift at 1.
    destruct management as [|mgmt others]; [reflexivity|].
    cbn [rbind].
    unfold bind at 1. unfold lift at 1.
    destruct (management_address mgmt) as [address|e]; [|reflexivity].
    fold (loop n address).
    destruct (loop n address w1) as [[r w2] t]. reflexivity. }
  destruct branch as [b|].
  - destruct (String.eqb b "") eqn:Eb.
    + apply (Hb (fun w => match active_branch w with (r, w1) => (r, w1, []) end)
                active_branch).
      intros w0. now destruct (active_branch w0).
    + apply (Hb (ret b) (fun w => (Ok b, w))). reflexivity.
  - apply (Hb (fun w => match active_branch w with (r, w1) => (r, w1, []) end)
              active_branch).
    intros w0. now destruct (active_branch w0).
Qed.

(** X14: every gNMI connection the command opens, in any pass, goes to the
    port, user and password of the environment, with [insecure] set, at
    one address: the one the source of truth gave, on the branch asked
    for (the active branch of the repository when none is given), for the
    first interface of the device whose role is management, cut before the
    prefix length.  No connection is opened when that query fails or the
    device has no such interface. *)
Theorem connections_go_to_management_address (n : nat) (branch : option string)
    (w : W) r w' t (c : device_conn) :
  _manage_bgp_session ARISTA_PORT ARISTA_USERNAME ARISTA_PASSWORD
    http_get_neighbors gnmi_connect gnmi_get gnmi_set http_post active_branch
    n device branch interval w = (r, w', t) ->
  In c (opened t) ->
  exists b w0 response w1 interfaces mgmt others address,
    ((exists given, branch = Some given /\ given <> ""%string
                    /\ b = given /\ w0 = w)
     \/ ((branch = None \/ branch = Some ""%string)
         /\ active_branch w = (Ok b, w0)))
    /\ http_post (q_management b) w0 = (Ok response, w1)
    /\ rbind (first_device response) (fun d =>
         rbind (getitem "interfaces" d) py_iter) = Ok interfaces
    /\ filter_result is_management interfaces = Ok (mgmt :: others)
    /\ management_address mgmt = Ok address
    /\ str_mem "/" address = false
    /\ c = {| target := (address, ARISTA_PORT);
              username := ARISTA_USERNAME;
              password := ARISTA_PASSWORD;
              insecure := true |}.
Proof.
  rewrite manage_bgp_session_cases.
  destruct (resolve branch w) as [[b|e] w0] eqn:Hres.
  2:{ intros [= <- <- <-] []. }
  destruct (http_post (q_management b) w0) as [[response|e] w1] eqn:Hq.
  2:{ intros [= <- <- <-] []. }
  unfold address_of.
  destruct (rbind (first_device response) _) as [interfaces|e] eqn:Hi; cbn [rbind].
  2:{ intros [= <- <- <-] []. }
  destruct (filter_result is_management interfaces) as [management|e] eqn:Hm;
    cbn [rbind].
  2:{ intros [= <- <- <-] []. }
  destruct management as [|mgmt others]; cbn [rbind].
  { intros [= <- <- <-] []. }
  destruct (management_address mgmt) as [address|e] eqn:Ha.
  2:{ intros [= <- <- <-] []. }
  destruct (loop n address w1) as [[r0 w2] t0] eqn:Hl.
  intros [= <- <- <-] Hc. cbn [app opened] in Hc.
  apply loop_opens in Hl. rewrite Forall_forall in Hl.
  apply list_elem_of_In in Hc. apply Hl in Hc.
  exists b, w0, response, w1, interfaces, mgmt, others, address.
  split.
  { unfold resolve in Hres. destruct branch as [given|].
    - destruct (String.eqb_spec given "") as [->|Hg].
      + right. auto.
      + left. injection Hres as <- <-. now exists given.
    - right. auto. }
  repeat split; try assumption.
  unfold management_address in Ha.
  destruct (getitem "ip_addresses" mgmt) as [ips|]; [|discriminate]. cbn [rbind] in Ha.
  destruct (getitem0 ips) as [ip|]; [|discriminate]. cbn [rbind] in Ha.
  destruct (getitem "address" ip) as [a|]; [|discriminate]. cbn [rbind] in Ha.
  destruct (getitem "value" a) as [v|]; [|discriminate]. cbn [rbind] in Ha.
  destruct v; try discriminate. injection Ha as <-. apply before_slash_no_slash.
Qed.

Lemma fetched_with_app (t1 t2 : list event) :
  fetched_with (t1 ++ t2) = fetched_with t1 ++ fetched_with t2.
Proof.
  induction t1 as [|ev t1 IH]; simpl; [reflexivity|].
  destruct ev; simpl; now rewrite ?IH.
Qed.

Lemma fetched_with_in_session (t : list event) :
  forallb in_session t = true -> fetched_with t = [].
Proof.
  induction t as [|ev t IH]; [reflexivity|]. simpl. intros H.
  apply andb_true_iff in H as [Hev H]. destruct ev; try discriminate; now apply IH.
Qed.

Lemma pass_fetches (address : string) (w : W) r w' t :
  loop 1 address w = (r, w', t) ->
  fetched_with t = [neighbors_request device].
Proof.
  unfold loop. cbn [manage_loop]. intros H.
  assert (Hp : exists r0 w0 t0,
    cycle ARISTA_PORT ARISTA_USERNAME ARISTA_PASSWORD
      http_get_neighbors gnmi_connect gnmi_get gnmi_set
      address device interval w = (r0, w0, t0) /\ t = t0).
  { apply bind_inv in H as [(e & H & _)|(u & w1 & t1 & t2 & H1 & H2 & ->)].
    - eauto.
    - injection H2 as _ _ <-. rewrite app_nil_r. eauto. }
  destruct Hp as (r0 & w0 & t0 & Hc & ->). clear H.
  rewrite (pass_run ARISTA_PORT ARISTA_USERNAME ARISTA_PASSWORD
             http_get_neighbors gnmi_connect gnmi_get gnmi_set
             address device interval) in Hc.
  destruct (http_get_neighbors _ w) as [[intended|e] w1].
  2:{ now injection Hc as _ _ <-. }
  destruct (gnmi_connect _ w1) as [[[]|e] w2].
  2:{ now injection Hc as _ _ <-. }
  destruct (gnmi_get _ _ w2) as [[response|e] w3].
  2:{ now injection Hc as _ _ <-. }
  destruct (rbind _ _) as [actual|e].
  2:{ now injection Hc as _ _ <-. }
  destruct (compare_and_push gnmi_set intended actual w3) as [[[l|e] w4] t1] eqn:Hcmp;
    injection Hc as _ _ <-;
    apply (comparison_in_session gnmi_set) in Hcmp;
    apply fetched_with_in_session in Hcmp;
    cbn [app fetched_with]; rewrite fetched_with_app, Hcmp; reflexivity.
Qed.

Lemma loop_fetches (address : string) (n : nat) :
  forall (w : W) r w' t,
    loop n address w = (r, w', t) ->
    Forall (fun g => g = neighbors_request device) (fetched_with t).
Proof.
  induction n as [|n IH]; intros w r w' t H.
  - injection H as _ _ <-. constructor.
  - unfold loop in H. cbn [manage_loop] in H.
    apply bind_inv in H as [(e & H & _)|(u & w1 & t1 & t2 & H1 & H2 & ->)].
    + rewrite (pass_fetches address w (Raise e) w' t); [repeat constructor|].
      unfold loop. cbn [manage_loop]. now apply bind_raise.
    + rewrite fetched_with_app. apply Forall_app. split.
      * rewrite (pass_fetches address w (Ok tt) w1 t1); [repeat constructor|].
        unfold loop. cbn [manage_loop]. erewrite bind_ok; [|exact H1].
        unfold ret. now rewrite app_nil_r.
      * eapply IH. exact H2.
Qed.

(** X23: the branch given to _manage_bgp_session is used only to look up
    the management address.  Whatever the branch, and in every pass, the
    intended sessions are fetched with one and the same request: the
    openconfig endpoint of the source of truth, a timeout of ten seconds,
    and the device as the only parameter, with no branch in it. *)
Theorem intended_sessions_fetched_without_branch (n : nat) (branch : option string)
    (w : W) r w' t (g : get_request) :
  _manage_bgp_session ARISTA_PORT ARISTA_USERNAME ARISTA_PASSWORD
    http_get_neighbors gnmi_connect gnmi_get gnmi_set http_post active_branch
    n device branch interval w = (r, w', t) ->
  In g (fetched_with t) ->
  g = {| get_url := INFRAHUB_URL ++
           "/openconfig/network-instances/network-instance/protocols/protocol/bgp/neighbors";
         get_timeout := 10;
         get_params := [("device", device)] |}.
Proof.
  rewrite manage_bgp_session_cases.
  destruct (resolve branch w) as [[b|e] w0].
  2:{ intros [= <- <- <-] []. }
  destruct (http_post (q_management b) w0) as [[response|e] w1].
  2:{ intros [= <- <- <-] []. }
  destruct (address_of response) as [address|e].
  2:{ intros [= <- <- <-] []. }
  destruct (loop n address w1) as [[r0 w2] t0] eqn:Hl.
  intros [= <- <- <-] Hg. cbn [app fetched_with] in Hg.
  apply loop_fetches in Hl. rewrite Forall_forall in Hl.
  apply list_elem_of_In in Hg. exact (Hl g Hg).
Qed.

End ManageRuns.

Lemma intended_sessions_fetched_without_branch_witness :
  neighbors_request "atl1-edge1"
  = {| get_url := INFRAHUB_URL ++
         "/openconfig/network-instances/network-instance/protocols/protocol/bgp/neighbors";
       get_timeout := 10;
       get_params := [("device", "atl1-edge1"%string)] |}.
Proof.
  exact (intended_sessions_fetched_without_branch "6030" "admin" "admin"
           Scripted.http_get_neighbors Scripted.gnmi_connect Scripted.gnmi_get
           Scripted.gnmi_set Scripted.http_post Scripted.active_branch
           "atl1-edge1" 10 1 (Some "branch-of-the-day"%string)
           Examples.settled_from_start _ _ _
           (neighbors_request "atl1-edge1") eq_refl (or_introl eq_refl)).
Defined.

Lemma connections_go_to_management_address_witness :
  exists mgmt address,
    management_address mgmt = Ok address
    /\ str_mem "/" address = false
    /\ {| target := ("172.20.20.17", "6030"); username := "admin";
          password := "admin"; insecure := true |}
       = {| target := (address, "6030"); username := "admin";
            password := "admin"; insecure := true |}.
Proof.
  destruct (connections_go_to_management_address "6030" "admin" "admin"
              Scripted.http_get_neighbors Scripted.gnmi_connect Scripted.gnmi_get
              Scripted.gnmi_set Scripted.http_post Scripted.active_branch
              "atl1-edge1" 10 1 None Examples.settled_from_start _ _ _
              {| target := ("172.20.20.17", "6030"); username := "admin";
                 password := "admin"; insecure := true |}
              eq_refl (or_introl eq_refl))
    as (b & w0 & response & w1 & interfaces & mgmt & others & address
        & _ & _ & _ & _ & Ha & Hs & Hc).
  exists mgmt, address. auto.
Defined.

(* --------------------------------------------------------------------- *)
(* The commands that report and save                                      *)
(* --------------------------------------------------------------------- *)

Section ReportRuns.

Context {W : Type}.

Lemma report_bind_ok {A B} (m : Reports.M W A) (k : A -> Reports.M W B)
    (w w1 : W) a t1 :
  m w = (Ok a, w1, t1) ->
  Reports.bind m k w = (let '(r, w2, t2) := k a w1 in (r, w2, t1 ++ t2)).
Proof. intros H. unfold Reports.bind. rewrite H. reflexivity. Qed.

Lemma report_bind_raise {A B} (m : Reports.M W A) (k : A -> Reports.M W B)
    (w w1 : W) e t1 :
  m w = (Raise e, w1, t1) -> Reports.bind m k w = (Raise e, w1, t1).
Proof. intros H. unfold Reports.bind. now rewrite H. Qed.


End ReportRuns.

Section WatchConfig.

Context {W : Type}.
Variable http_get_text : Reports.rfile_request -> W -> result string * W.
Variable ndiff : list string -> list string -> list string.
Variables device branch : string.
Variable interval : Z.
Variable rfile_name : string.

Let req : Reports.rfile_request :=
  {| Reports.rfile_url := INFRAHUB_URL ++ "/rfile/" ++ rfile_name
                          ++ "?branch=" ++ branch;
     Reports.rfile_params := [("device", VStr device)] |}.

Let loop (n : nat) : option string -> Reports.M W (option string) :=
  Reports.watch_loop http_get_text ndiff n device branch interval rfile_name.




End WatchConfig.

Section WatchConfigCommand.

Context {W : Type}.
Variable http_get_text : Reports.rfile_request -> W -> result string * W.
Variable active_branch : W -> result string * W.
Variable ndiff : list string -> list string -> list string.


End WatchConfigCommand.


Lemma report_posted_print_each {X} (f : X -> message) (xs : list X) :
  Reports.posted (map (fun x => Reports.EPrint (f x)) xs) = [].
Proof. induction xs as [|x xs IH]; [reflexivity | exact IH]. Qed.

Lemma report_printed_print_each {X} (f : X -> message) (xs : list X) :
  Reports.printed (map (fun x => Reports.EPrint (f x)) xs) = map f xs.
Proof. induction xs as [|x xs IH]; [reflexivity | simpl; now rewrite IH]. Qed.

Lemma error_lines_no_success (msgs : list value) :
  existsb is_success (map (fun m => [Lit "[red]ERROR[/] "; Fmt m]) msgs) = false.
Proof. induction msgs as [|m msgs IH]; [reflexivity | exact IH]. Qed.

Section UpdateDescription.

Context {W : Type}.
Variable http_post : Reports.request -> W -> result value * W.
Variable active_branch : W -> result string * W.
Variables device interface description : string.

Let q_interface (b : string) : Reports.request :=
  {| Reports.url := INFRAHUB_URL ++ "/graphql/" ++ b;
     Reports.query := Reports.Modelled QUERY_GET_INTERFACE;
     Reports.variables := Some [("device", VStr device); ("interface", VStr interface)];
     Reports.timeout := 10;
     Reports.params := [("rebase", "False")] |}.

Let q_mutation (b : string) (iid : value) : Reports.request :=
  {| Reports.url := INFRAHUB_URL ++ "/graphql/" ++ b;
     Reports.query := Reports.INTERFACE_UPDATE_DESCRIPTION;
     Reports.variables := Some [("interface_id", iid);
                                ("description", VStr description)];
     Reports.timeout := 10;
     Reports.params := [("rebase", "False")] |}.

Let line_updating (b : string) (id8 : value) : message :=
  [Lit "Updating description of '"; Fmt (VStr interface);
   Lit "' ("; Fmt id8; Lit ") on '"; Fmt (VStr device);
   Lit "', (branch '"; Fmt (VStr b); Lit "')"].

Let line_success (b : string) (id8 : value) : message :=
  [Lit "[green]SUCCESS[/] Interface '"; Fmt (VStr interface);
   Lit "' ("; Fmt id8; Lit ") on '"; Fmt (VStr device);
   Lit "' successfully updated, (branch '"; Fmt (VStr b); Lit "')"].

Let resolve (branch : option string) (w : W) : result string * W :=
  match branch with
  | Some b => if String.eqb b "" then active_branch w else (Ok b, w)
  | None => active_branch w
  end.

Lemma resolve_branch_run (branch : option string) (w : W) :
  Reports.resolve_branch active_branch branch w =
  (fst (resolve branch w), snd (resolve branch w), []).
Proof.
  unfold Reports.resolve_branch, resolve. destruct branch as [b|].
  - destruct (String.eqb b ""); [|reflexivity]. now destruct (active_branch w).
  - now destruct (active_branch w).
Qed.

Lemma resolve_cases (branch : option string) (w : W) (b : string) (w0 : W) :
  resolve branch w = (Ok b, w0) ->
  (exists given, branch = Some given /\ given <> ""%string /\ b = given /\ w0 = w)
  \/ ((branch = None \/ branch = Some ""%string) /\ active_branch w = (Ok b, w0)).
Proof.
  unfold resolve. destruct branch as [given|]; [|auto].
  destruct (String.eqb_spec given "") as [->|Hg]; [auto|].
  intros [= <- <-]. left. now exists given.
Qed.

(** The loop over the errors of an answer prints the messages up to the
    first entry that has none, and nothing else. *)
Lemma report_error_lines_run (errors : list value) (w : W) :
  exists msgs,
    Reports.for_each errors
      (fun error (_ : unit) =>
         Reports.bind (Reports.lift (getitem "message" error)) (fun m =>
         Reports.console_print [Lit "[red]ERROR[/] "; Fmt m])) tt w
    = (match map_result (getitem "message") errors with
       | Ok _ => Ok tt
       | Raise e => Raise e
       end, w,
       map (fun m => Reports.EPrint [Lit "[red]ERROR[/] "; Fmt m]) msgs).
Proof.
  induction errors as [|x errors (msgs & IH)].
  - now exists [].
  - cbn [Reports.for_each map_result].
    destruct (getitem "message" x) as [m|e] eqn:Em; cbn [rbind].
    + exists (m :: msgs).
      erewrite report_bind_ok;
        [|unfold Reports.bind, Reports.lift, Reports.console_print, Reports.emit;
          rewrite ?Em; reflexivity].
      rewrite IH. now destruct (map_result _ errors).
    + exists [].
      erewrite report_bind_raise;
        [|unfold Reports.bind, Reports.lift; rewrite ?Em; reflexivity].
      reflexivity.
Qed.

(** The command, outcome by outcome of its requests. *)
Lemma update_description_cases (branch : option string) (w : W) :
  Reports._update_description http_post active_branch
    device interface description branch w =
  match resolve branch w with
  | (Raise e, w0) => (Raise e, w0, [])
  | (Ok b, w0) =>
      match http_post (q_interface b) w0 with
      | (Raise e, w1) => (Raise e, w1, [Reports.EPost (q_interface b)])
      | (Ok r1, w1) =>
          match rbind (rbind (first_interface r1) (getitem "id")) (fun iid =>
                rbind (slice8 iid) (fun id8 => Ok (iid, id8))) with
          | Raise e => (Raise e, w1, [Reports.EPost (q_interface b)])
          | Ok (iid, id8) =>
              match http_post (q_mutation b iid) w1 with
              | (Raise e, w2) =>
                  (Raise e, w2,
                   [Reports.EPost (q_interface b);
                    Reports.EPrint (line_updating b id8);
                    Reports.EPost (q_mutation b iid)])
              | (Ok r2, w2) =>
                  match py_in "errors" r2 with
                  | Raise e =>
                      (Raise e, w2,
                       [Reports.EPost (q_interface b);
                        Reports.EPrint (line_updating b id8);
                        Reports.EPost (q_mutation b iid)])
                  | Ok true =>
                      match rbind (getitem "errors" r2) py_iter with
                      | Raise e =>
                          (Raise e, w2,
                           [Reports.EPost (q_interface b);
                            Reports.EPrint (line_updating b id8);
                            Reports.EPost (q_mutation b iid)])
                      | Ok errors =>
                          match Reports.for_each errors
                                  (fun error (_ : unit) =>
                                     Reports.bind
                                       (Reports.lift (getitem "message" error))
                                       (fun m => Reports.console_print
                                                   [Lit "[red]ERROR[/] "; Fmt m]))
                                  tt w2 with
                          | (r, w3, t) =>
                              (r, w3,
                               [Reports.EPost (q_interface b);
                                Reports.EPrint (line_updating b id8);
                                Reports.EPost (q_mutation b iid)] ++ t)
                          end
                      end
                  | Ok false =>
                      match rbind (getitem "data" r2) (fun d =>
                            rbind (getitem "interface_update" d) (getitem "ok")) with
                      | Raise e =>
                          (Raise e, w2,
                           [Reports.EPost (q_interface b);
                            Reports.EPrint (line_updating b id8);
                            Reports.EPost (q_mutation b iid)])
                      | Ok ok =>
                          (Ok tt, w2,
                           [Reports.EPost (q_interface b);
                            Reports.EPrint (line_updating b id8);
                            Reports.EPost (q_mutation b iid)]
                           ++ if truthy ok
                              then [Reports.EPrint (line_success b id8)] else [])
                      end
                  end
              end
          end
      end
  end.
Proof.
  unfold Reports._update_description.
  unfold Reports.bind at 1. rewrite resolve_branch_run.
  destruct (resolve branch w) as [[b|e] w0]; [|reflexivity]. cbn [fst snd].
  unfold Reports.execute_query at 1. unfold Reports.bind at 1.
  unfold Reports.call at 1.
  change (query_params None false []) with [("rebase", "False")].
  fold (q_interface b).
  destruct (http_post (q_interface b) w0) as [[r1|e] w1]; [|reflexivity].
  unfold Reports.bind at 1. unfold Reports.lift at 1.
  destruct (rbind (first_interface r1) (getitem "id")) as [iid|e]; [|reflexivity].
  cbn [rbind].
  unfold Reports.bind at 1. unfold Reports.lift at 1.
  destruct (slice8 iid) as [id8|e] eqn:Eid; [|reflexivity].
  cbn [rbind].
  unfold Reports.bind at 1. unfold Reports.console_print at 1.
  unfold Reports.emit at 1.
  unfold Reports.bind at 1. unfold Reports.execute_query at 1.
  unfold Reports.call at 1.
  change (query_params None false []) with [("rebase", "False")].
  fold (q_mutation b iid).
  destruct (http_post (q_mutation b iid) w1) as [[r2|e] w2]; [|reflexivity].
  unfold Reports.bind at 1. unfold Reports.lift at 1.
  destruct (py_in "errors" r2) as [[|]|e]; [| |reflexivity].
  - unfold Reports.bind at 1. unfold Reports.lift at 1.
    destruct (rbind (getitem "errors" r2) py_iter) as [errors|e]; [|reflexivity].
    destruct (Reports.for_each errors _ tt w2) as [[r w3] t]. reflexivity.
  - unfold Reports.bind at 1. unfold Reports.lift at 1.
    destruct (rbind (getitem "data" r2) _) as [ok|e]; [|reflexivity].
    destruct (truthy ok); [|reflexivity].
    unfold Reports.bind, Reports.lift, Reports.console_print, Reports.emit.
    reflexivity.
Qed.

(** X17: _update_description changes the interface on the working branch
    itself: the branch given, or the active branch of the repository when
    none is given.  However it ends, it posts at most two requests, both on
    that branch: the query for the interface and, only when the answer
    holds the id of the first interface, the mutation with that id and the
    description; it creates no branch and merges none.  Its success line is
    printed only when the mutation was answered without an errors key and
    with a true data.interface_update.ok. *)
Theorem update_description_outcome (branch : option string) (w : W) r w' t :
  Reports._update_description http_post active_branch
    device interface description branch w = (r, w', t) ->
  Reports.posted t = []
  \/ exists b w0,
       ((exists given, branch = Some given /\ given <> ""%string
                       /\ b = given /\ w0 = w)
        \/ ((branch = None \/ branch = Some ""%string)
            /\ active_branch w = (Ok b, w0)))
       /\ (Reports.posted t = [q_interface b]
           \/ exists r1 w1 iid,
                http_post (q_interface b) w0 = (Ok r1, w1)
                /\ rbind (first_interface r1) (getitem "id") = Ok iid
                /\ Reports.posted t = [q_interface b; q_mutation b iid]
                /\ (existsb is_success (Reports.printed t) = true ->
                    exists r2 ok,
                      http_post (q_mutation b iid) w1 = (Ok r2, w')
                      /\ py_in "errors" r2 = Ok false
                      /\ rbind (getitem "data" r2) (fun d =>
                           rbind (getitem "interface_update" d) (getitem "ok")) = Ok ok
                      /\ truthy ok = true
                      /\ r = Ok tt)).
Proof.
  rewrite update_description_cases.
  destruct (resolve branch w) as [[b|e] w0] eqn:Hres.
  2:{ intros [= <- <- <-]. now left. }
  intros H. right. exists b, w0. split; [now apply resolve_cases|].
  destruct (http_post (q_interface b) w0) as [[r1|e] w1] eqn:H1.
  2:{ injection H as <- <- <-. now left. }
  destruct (rbind (first_interface r1) (getitem "id")) as [iid|e] eqn:Hid; cbn [rbind] in H.
  2:{ injection H as <- <- <-. now left. }
  destruct (slice8 iid) as [id8|e]; cbn [rbind] in H.
  2:{ injection H as <- <- <-. now left. }
  right. exists r1, w1, iid.
  split; [reflexivity || assumption|]. split; [reflexivity || assumption|].
  destruct (http_post (q_mutation b iid) w1) as [[r2|e] w2] eqn:H2.
  2:{ injection H as <- <- <-. split; [reflexivity | discriminate]. }
  destruct (py_in "errors" r2) as [[|]|e] eqn:He.
  - destruct (rbind (getitem "errors" r2) py_iter) as [errors|e].
    2:{ injection H as <- <- <-. split; [reflexivity | discriminate]. }
    destruct (report_error_lines_run errors w2) as (msgs & Hl). rewrite Hl in H.
    injection H as <- <- <-. cbn [app Reports.posted Reports.printed].
    rewrite (report_posted_print_each (fun m => [Lit "[red]ERROR[/] "; Fmt m])).
    rewrite (report_printed_print_each (fun m => [Lit "[red]ERROR[/] "; Fmt m])).
    split; [reflexivity|].
    intros Hs. exfalso. cbn [existsb is_success] in Hs.
    change (String.prefix "[green]SUCCESS[/]" "Updating description of '")
      with false in Hs.
    cbn [orb] in Hs. now rewrite error_lines_no_success in Hs.
  - destruct (rbind (getitem "data" r2) _) as [ok|e] eqn:Hok.
    2:{ injection H as <- <- <-. split; [reflexivity | discriminate]. }
    injection H as <- <- <-. destruct (truthy ok) eqn:Ht.
    + split; [reflexivity|]. intros _. exists r2, ok. auto.
    + split; [reflexivity | discriminate].
  - injection H as <- <- <-. split; [reflexivity | discriminate].
Qed.

End UpdateDescription.

Lemma update_description_outcome_witness :
  exists b iid,
    Reports.posted
      (snd (Reports._update_description ReportScript.http_post
              ReportScript.active_branch "atl1-edge1" "Ethernet1" "to the core"
              None ReportScript.description_updated))
    = [{| Reports.url := INFRAHUB_URL ++ "/graphql/" ++ b;
          Reports.query := Reports.Modelled QUERY_GET_INTERFACE;
          Reports.variables :=
            Some [("device", VStr "atl1-edge1"); ("interface", VStr "Ethernet1")];
          Reports.timeout := 10;
          Reports.params := [("rebase", "False")] |};
       {| Reports.url := INFRAHUB_URL ++ "/graphql/" ++ b;
          Reports.query := Reports.INTERFACE_UPDATE_DESCRIPTION;
          Reports.variables :=
            Some [("interface_id", iid); ("description", VStr "to the core")];
          Reports.timeout := 10;
          Reports.params := [("rebase", "False")] |}].
Proof.
  destruct (update_description_outcome ReportScript.http_post
              ReportScript.active_branch "atl1-edge1" "Ethernet1" "to the core"
              None ReportScript.description_updated _ _ _ eq_refl)
    as [H|(b & w0 & _ & [H|(r1 & w1 & iid & _ & _ & Hp & _)])].
  - discriminate H.
  - discriminate H.
  - exists b, iid. exact Hp.
Defined.

Section StartupConfigs.

Context {W : Type}.
Variable http_post : Reports.request -> W -> result value * W.
Variable http_get_text : Reports.rfile_request -> W -> result string * W.
Variable active_branch : W -> result string * W.
Variable write_file : message -> string -> W -> result unit * W.

Let q_devices (b : string) : Reports.request :=
  {| Reports.url := INFRAHUB_URL ++ "/graphql/" ++ b;
     Reports.query := Reports.QUERY_GET_DEVICES;
     Reports.variables := None;
     Reports.timeout := 10;
     Reports.params := [("rebase", "False")] |}.

Let save (b : string) : value -> unit -> Reports.M W unit :=
  Reports.save_startup_config http_get_text write_file b.

Lemma report_for_each_app {X L} (xs ys : list X) (body : X -> L -> Reports.M W L)
    (l : L) (w : W) :
  Reports.for_each (xs ++ ys) body l w =
  Reports.bind (Reports.for_each xs body l) (Reports.for_each ys body) w.
Proof.
  revert l w. induction xs as [|x xs IH]; intros l w.
  - cbn [app Reports.for_each]. unfold Reports.bind, Reports.ret.
    now destruct (Reports.for_each ys body l w) as [[r w1] t].
  - cbn [app Reports.for_each]. unfold Reports.bind.
    destruct (body x l w) as [[[l1|e] w1] t1]; [|reflexivity].
    rewrite IH. unfold Reports.bind.
    destruct (Reports.for_each xs body l1 w1) as [[[l2|e] w2] t2]; [|reflexivity].
    destruct (Reports.for_each ys body l2 w2) as [[r w3] t3].
    now rewrite app_assoc.
Qed.

Lemma saves_run (b : string) (devices : list value) (files : list (value * string)) :
  forall (w w' : W),
    Reports.saves http_get_text write_file b w devices files w' ->
    Reports.for_each devices (save b) tt w =
    (Ok tt, w', flat_map (fun nf => Reports.saved b (fst nf) (snd nf)) files).
Proof.
  intros w w' H. induction H as [w|w w1 w2 w' device name text devices files Hn Hg Hw _ IH].
  - reflexivity.
  - cbn [Reports.for_each flat_map fst snd].
    erewrite report_bind_ok.
    2:{ unfold save, Reports.save_startup_config.
        unfold Reports.bind at 1. unfold Reports.lift at 1. rewrite Hn.
        unfold Reports.bind at 1. unfold Reports.get_rfile at 1.
        unfold Reports.call at 1. rewrite Hg.
        unfold Reports.bind at 1. unfold Reports.call at 1. rewrite Hw.
        unfold Reports.console_print, Reports.emit. reflexivity. }
    rewrite IH. reflexivity.
Qed.

(** X18: _generate_startup_config, on the branch given or else on the
    active branch of the repository, saves one file per device, in the
    order of the answer to the query for the devices: the text fetched for
    the device is written to configs/startup/<name>.cfg and reported before
    the next device is looked at.  When all the devices are done the
    command ends well.  When a step fails for a device (its name cannot be
    read, its text cannot be fetched, its file cannot be written), the
    command ends with that error: the files of the devices before stay
    written, and no later device is fetched. *)
Theorem startup_configs_saved_in_order (branch : option string) (b : string)
    (w w0 w1 w2 : W) (response : value) (done rest : list value)
    (files : list (value * string)) :
  (exists given, branch = Some given /\ given <> ""%string /\ b = given /\ w0 = w)
  \/ ((branch = None \/ branch = Some ""%string) /\ active_branch w = (Ok b, w0)) ->
  http_post (q_devices b) w0 = (Ok response, w1) ->
  rbind (rbind (getitem "data" response) (getitem "device")) py_iter
    = Ok (done ++ rest) ->
  Reports.saves http_get_text write_file b w1 done files w2 ->
  match rest with
  | [] =>
      Reports._generate_startup_config http_post http_get_text active_branch
        write_file branch w
      = (Ok tt, w2,
         Reports.EPost (q_devices b)
         :: flat_map (fun nf => Reports.saved b (fst nf) (snd nf)) files)
  | device :: _ =>
      forall e w3 t3,
        Reports.save_startup_config http_get_text write_file b device tt w2
          = (Raise e, w3, t3) ->
        Reports._generate_startup_config http_post http_get_text active_branch
          write_file branch w
        = (Raise e, w3,
           Reports.EPost (q_devices b)
           :: flat_map (fun nf => Reports.saved b (fst nf) (snd nf)) files ++ t3)
  end.
Proof.
  intros Hb Hq Hd Hs.
  assert (Hr : Reports.resolve_branch active_branch branch w = (Ok b, w0, [])).
  { unfold Reports.resolve_branch.
    destruct Hb as [(given & -> & Hg & -> & ->)|([-> | ->] & Ha)].
    - apply String.eqb_neq in Hg. now rewrite Hg.
    - now rewrite Ha.
    - cbn. now rewrite Ha. }
  assert (Hrun : Reports._generate_startup_config http_post http_get_text
                   active_branch write_file branch w =
                 let '(r, w3, t) := Reports.for_each (done ++ rest) (save b) tt w1 in
                 (r, w3, Reports.EPost (q_devices b) :: t)).
  { unfold Reports._generate_startup_config.
    erewrite report_bind_ok; [|exact Hr].
    unfold Reports.execute_query at 1. unfold Reports.bind at 1.
    unfold Reports.call at 1.
    change (query_params None false []) with [("rebase", "False")].
    fold (q_devices b). rewrite Hq.
    unfold Reports.bind at 1. unfold Reports.lift at 1. rewrite Hd.
    fold (save b).
    now destruct (Reports.for_each (done ++ rest) (save b) tt w1) as [[r w3] t]. }
  rewrite Hrun, report_for_each_app.
  erewrite report_bind_ok; [|exact (saves_run b done files w1 w2 Hs)].
  destruct rest as [|device rest].
  - cbn [Reports.for_each]. unfold Reports.ret. now rewrite app_nil_r.
  - intros e w3 t3 He. cbn [Reports.for_each].
    erewrite report_bind_raise; [|exact He]. reflexivity.
Qed.

End StartupConfigs.

Lemma startup_configs_saved_in_order_witness :
  Reports._generate_startup_config ReportScript.http_post ReportScript.http_get_text
    ReportScript.active_branch ReportScript.write_file None ReportScript.two_devices
  = (Ok tt, ReportScript.quiet,
     Reports.EPost
       {| Reports.url := INFRAHUB_URL ++ "/graphql/" ++ "main";
          Reports.query := Reports.QUERY_GET_DEVICES;
          Reports.variables := None;
          Reports.timeout := 10;
          Reports.params := [("rebase", "False")] |}
     :: flat_map (fun nf => Reports.saved "main" (fst nf) (snd nf))
          [(VStr "atl1-edge1", "hostname atl1-edge1"%string);
           (VStr "atl1-edge2", "hostname atl1-edge2"%string)])
  /\ Reports._generate_startup_config ReportScript.http_post
       ReportScript.http_get_text ReportScript.active_branch ReportScript.write_file
       None ReportScript.second_fetch_fails
     = (Raise HTTPError, ReportScript.quiet,
        Reports.EPost
          {| Reports.url := INFRAHUB_URL ++ "/graphql/" ++ "main";
             Reports.query := Reports.QUERY_GET_DEVICES;
             Reports.variables := None;
             Reports.timeout := 10;
             Reports.params := [("rebase", "False")] |}
        :: flat_map (fun nf => Reports.saved "main" (fst nf) (snd nf))
             [(VStr "atl1-edge1", "hostname atl1-edge1"%string)]
           ++ [Reports.EGet
                 {| Reports.rfile_url := INFRAHUB_URL ++ "/rfile/" ++ "device_startup"
                                         ++ "?branch=" ++ "main";
                    Reports.rfile_params := [("device", VStr "atl1-edge2")] |}]).
Proof.
  split.
  - refine (startup_configs_saved_in_order ReportScript.http_post
              ReportScript.http_get_text ReportScript.active_branch
              ReportScript.write_file None "main"
              ReportScript.two_devices ReportScript.two_devices _ ReportScript.quiet
              ReportScript.two_devices_reply
              [VDict [("name", VDict [("value", VStr "atl1-edge1")])];
               VDict [("name", VDict [("value", VStr "atl1-edge2")])]] []
              [(VStr "atl1-edge1", "hostname atl1-edge1"%string);
               (VStr "atl1-edge2", "hostname atl1-edge2"%string)] _ _ _ _).
    + right. split; [now left | reflexivity].
    + reflexivity.
    + reflexivity.
    + eapply Reports.saves_cons; [reflexivity | reflexivity | reflexivity |].
      eapply Reports.saves_cons; [reflexivity | reflexivity | reflexivity |].
      apply Reports.saves_nil.
  - refine (startup_configs_saved_in_order ReportScript.http_post
              ReportScript.http_get_text ReportScript.active_branch
              ReportScript.write_file None "main"
              ReportScript.second_fetch_fails ReportScript.second_fetch_fails _
              {| ReportScript.posts := []; ReportScript.texts := [Raise HTTPError];
                 ReportScript.writes := [] |}
              ReportScript.two_devices_reply
              [VDict [("name", VDict [("value", VStr "atl1-edge1")])]]
              [VDict [("name", VDict [("value", VStr "atl1-edge2")])]]
              [(VStr "atl1-edge1", "hostname atl1-edge1"%string)] _ _ _ _
              HTTPError ReportScript.quiet _ eq_refl).
    + right. split; [now left | reflexivity].
    + reflexivity.
    + reflexivity.
    + eapply Reports.saves_cons; [reflexivity | reflexivity | reflexivity |].
      apply Reports.saves_nil.
Defined.


Section ListBgpSession.

Context {W : Type}.
Variable http_post : Reports.request -> W -> result value * W.
Variable active_branch : W -> result string * W.
Variable at_ : option string.
Variables rebase internal : bool.

Let loop (b : string) :
    list string -> list (list Reports.cell) -> Reports.M W (option (list (list Reports.cell))) :=
  Reports.list_devices http_post b at_ rebase internal.




End ListBgpSession.



(* --------------------------------------------------------------------- *)
(* The comparison of two configs                                          *)
(* --------------------------------------------------------------------- *)

Lemma py_eqb_dict (d e : list (string * value)) :
  py_eqb (VDict d) (VDict e) =
  Nat.eqb (length d) (length e)
  && forallb (fun kv => match dict_get (fst kv) e with
                        | Some w => py_eqb (snd kv) w
                        | None => false
                        end) d.
Proof.
  cbn [py_eqb]. f_equal.
  induction d as [|[k v] d IH]; [reflexivity|].
  cbn [forallb fst snd]. now rewrite <- IH.
Qed.

Lemma py_eqb_list (l m : list value) :
  py_eqb (VList l) (VList m) =
  Nat.eqb (length l) (length m)
  && forallb (fun xy => py_eqb (fst xy) (snd xy)) (combine l m).
Proof.
  cbn [py_eqb]. revert m. induction l as [|x l IH]; intros [|y m]; try reflexivity.
  cbn [length combine forallb fst snd Nat.eqb]. rewrite IH.
  destruct (Nat.eqb (length l) (length m)); [reflexivity|].
  now rewrite andb_false_r.
Qed.

Lemma well_formed_dict (d : list (string * value)) :
  well_formed (VDict d) = true <->
  NoDup (map fst d) /\ forall kv, In kv d -> well_formed (snd kv) = true.
Proof.
  cbn [well_formed]. induction d as [|[k v] d IH].
  - split; [intros _; split; [constructor | intros ? []] | reflexivity].
  - cbn [map fst]. rewrite NoDup_cons, !andb_true_iff, IH, negb_true_iff.
    split.
    + intros [[Hk Hv] [Hnd Hall]]. repeat split; [|exact Hnd|].
      * rewrite list_elem_of_In, in_map_iff. intros ([k' v'] & Hkk & Hin).
        simpl in Hkk. subst k'.
        assert (Ht : existsb (fun kv => String.eqb k (fst kv)) d = true).
        { apply existsb_exists. exists (k, v'). split; [exact Hin|].
          apply String.eqb_refl. }
        congruence.
      * intros kv [<-|Hin]; [exact Hv | now apply Hall].
    + intros [[Hk Hnd] Hall]. repeat split.
      * destruct (existsb _ d) eqn:E; [|reflexivity].
        apply existsb_exists in E as ([k' v'] & Hin & Hkk). simpl in Hkk.
        apply String.eqb_eq in Hkk as <-. exfalso. apply Hk.
        rewrite list_elem_of_In, in_map_iff. now exists (k, v').
      * apply (Hall (k, v)). now left.
      * exact Hnd.
      * intros kv Hin. apply Hall. now right.
Qed.

Lemma well_formed_list (l : list value) :
  well_formed (VList l) = true <-> forall x, In x l -> well_formed x = true.
Proof.
  cbn [well_formed]. induction l as [|x l IH].
  - split; [intros _ ? [] | reflexivity].
  - rewrite andb_true_iff, IH. split.
    + intros [Hx Hl] y [<-|Hy]; auto.
    + intros H. split; [apply H; now left | intros y Hy; apply H; now right].
Qed.

(** In a dict with distinct keys, [d[k]] is the value paired with [k]. *)
Lemma dict_get_in (d : list (string * value)) (k : string) (v : value) :
  NoDup (map fst d) -> In (k, v) d -> dict_get k d = Some v.
Proof.
  induction d as [|[k' v'] d IH]; [intros _ []|].
  cbn [map fst dict_get]. rewrite NoDup_cons. intros [Hk Hnd] [[= -> ->]|Hin].
  - now rewrite String.eqb_refl.
  - destruct (String.eqb_spec k k') as [->|]; [|now apply IH].
    exfalso. apply Hk. rewrite list_elem_of_In, in_map_iff. now exists (k', v).
Qed.

(** Induction on a value, with the property at hand for the items of a
    list and for the values of a dict. *)
Lemma value_nested_ind (P : value -> Prop) :
  P VNone ->
  (forall b, P (VBool b)) ->
  (forall n, P (VInt n)) ->
  (forall s, P (VStr s)) ->
  (forall l, Forall P l -> P (VList l)) ->
  (forall d, Forall (fun kv => P (snd kv)) d -> P (VDict d)) ->
  forall v, P v.
Proof.
  intros HNone HBool HInt HStr HList HDict. fix IH 1. intros [| b | n | s | l | d].
  - exact HNone.
  - apply HBool.
  - apply HInt.
  - apply HStr.
  - apply HList. induction l as [|x l IHl]; constructor; [apply IH | exact IHl].
  - apply HDict. induction d as [|[k x] d IHd]; constructor; [apply IH | exact IHd].
Qed.

(** [==] holds between a well-formed value and itself. *)
Lemma py_eqb_refl (v : value) : well_formed v = true -> py_eqb v v = true.
Proof.
  induction v as [| b | n | s | l IH | d IH] using value_nested_ind; intros Hwf.
  - reflexivity.
  - now destruct b.
  - apply Z.eqb_refl.
  - apply String.eqb_refl.
  - rewrite py_eqb_list, Nat.eqb_refl. cbn [andb].
    rewrite well_formed_list in Hwf.
    induction IH as [|x l Hx _ IHl]; [reflexivity|].
    cbn [combine forallb fst snd]. rewrite Hx by (apply Hwf; now left).
    apply IHl. intros y Hy. apply Hwf. now right.
  - rewrite py_eqb_dict, Nat.eqb_refl. cbn [andb].
    rewrite well_formed_dict in Hwf. destruct Hwf as [Hnd Hall].
    apply forallb_forall. intros [k v] Hin. cbn [fst snd].
    rewrite (dict_get_in d k v Hnd Hin).
    rewrite Forall_forall in IH. apply (IH (k, v)).
    + now apply list_elem_of_In.
    + now apply (Hall (k, v)).
Qed.

(** X21: the test [intended["config"] != existing["config"]] on two
    mappings.  It does not fire, and the session is not updated, when the
    device's config holds the same keys with the same values in another
    order.  It fires, for a session with the same address, as soon as the
    two configs differ in their number of keys, or one key of the intended
    config is absent on the device or has a value there that is not
    equal. *)
Theorem config_comparison_ignores_key_order (i e : session_config)
    (d d' : list (string * value)) :
  config i = VDict d ->
  config e = VDict d' ->
  (well_formed (VDict d) = true -> d ≡ₚ d' -> hit i e = false)
  /\ (same_address i e = true ->
      length d <> length d'
      \/ (exists k v, In (k, v) d
            /\ match dict_get k d' with
               | Some w => py_eqb v w = false
               | None => True
               end) ->
      hit i e = true).
Proof.
  intros Hi He. unfold hit, py_neb. rewrite Hi, He, py_eqb_dict. split.
  - intros Hwf Hp. apply well_formed_dict in Hwf as [Hnd Hall].
    assert (Hl : Nat.eqb (length d) (length d') = true).
    { apply Nat.eqb_eq. now apply Permutation_length. }
    assert (Hnd' : NoDup (map fst d')) by now rewrite <- Hp.
    rewrite Hl. cbn [andb].
    assert (Hf : forallb (fun kv => match dict_get (fst kv) d' with
                                    | Some w => py_eqb (snd kv) w
                                    | None => false
                                    end) d = true).
    { apply forallb_forall. intros [k v] Hin. cbn [fst snd].
      assert (Hin' : In (k, v) d').
      { apply list_elem_of_In. rewrite <- Hp. now apply list_elem_of_In. }
      rewrite (dict_get_in d' k v Hnd' Hin').
      apply py_eqb_refl. now apply (Hall (k, v)). }
    rewrite Hf. now rewrite andb_false_r.
  - intros -> [Hlen|(k & v & Hin & Hk)]; cbn [andb]; apply negb_true_iff.
    + apply Nat.eqb_neq in Hlen. now rewrite Hlen.
    + apply andb_false_iff. right.
      destruct (forallb _ d) eqn:Hf; [|reflexivity]. exfalso.
      rewrite forallb_forall in Hf. specialize (Hf (k, v) Hin). cbn [fst snd] in Hf.
      destruct (dict_get k d') as [w|]; congruence.
Qed.

Lemma config_comparison_ignores_key_order_witness :
  hit {| neighbor_address := "10.0.0.1";
         config := VDict [("peer-as", VInt 65001); ("enabled", VBool true)] |}
      {| neighbor_address := "10.0.0.1";
         config := VDict [("enabled", VBool true); ("peer-as", VInt 65001)] |}
  = false.
Proof.
  refine (proj1 (config_comparison_ignores_key_order
            {| neighbor_address := "10.0.0.1";
               config := VDict [("peer-as", VInt 65001); ("enabled", VBool true)] |}
            {| neighbor_address := "10.0.0.1";
               config := VDict [("enabled", VBool true); ("peer-as", VInt 65001)] |}
            [("peer-as", VInt 65001); ("enabled", VBool true)]
            [("enabled", VBool true); ("peer-as", VInt 65001)]
            eq_refl eq_refl) eq_refl _).
  apply Permutation_swap.
Defined.

(* --------------------------------------------------------------------- *)
(* The path written and the path read                                     *)
(* --------------------------------------------------------------------- *)

(** X22: the path the reconciler writes for an address is one the extractor
    reads back: from an update with the path of a session, and a mapping as
    its [val], the extractor returns the address of that session, whatever
    characters the address holds other than a newline (closing brackets
    included), with the config of the last key that holds [":config"]. *)
Theorem session_path_round_trip (address : string) (its : list (string * value)) :
  str_mem newline address = false ->
  extract_config_from_device_session
    (VDict [("path", VStr (session_path address)); ("val", VDict its)])
  = Ok {| neighbor_address := address;
          config := match last (config_items its) with
                    | Some kv => snd kv
                    | None => VNone
                    end |}.
Proof.
  intros Hn.
  assert (Hs : regex_search (session_path address) = Some address).
  { unfold session_path.
    change ("[neighbor-address=" ++ address ++ "]")%string
      with (segment_open ++ address ++ String rbracket "")%string.
    apply regex_search_first; [reflexivity|].
    rewrite (match_here_segment address "" Hn). reflexivity. }
  unfold extract_config_from_device_session. cbn [py_get dict_get rbind].
  change (String.eqb "path" "path") with true. cbv iota.
  rewrite Hs. change (String.eqb "val" "path") with false.
  change (String.eqb "val" "val") with true. cbv iota. cbn [items rbind].
  now rewrite scan_items_last.
Qed.

Lemma session_path_round_trip_witness :
  extract_config_from_device_session
    (VDict [("path", VStr (session_path "fe80::1%eth0]"));
            ("val", VDict [("openconfig-network-instance:config", VInt 1)])])
  = Ok {| neighbor_address := "fe80::1%eth0]"; config := VInt 1 |}.
Proof.
  exact (session_path_round_trip "fe80::1%eth0]"
           [("openconfig-network-instance:config", VInt 1)] eq_refl).
Defined.
